(** * Developer-activity portfolio: derivation functions, adapters and
      range-selection state

    A shallow embedding of the TypeScript sources
    - the client component [DeveloperActivitySection] with its helper
      functions [getGitHubLevel], [computeGitHubStreaks], [getMonthLabels],
      the derived [topLanguages] and the range handlers,
    - [app/api/github/route.ts] and [app/api/hackatime/route.ts] (the two
      request handlers),
    together with the properties the specification states about them.

    JavaScript numbers that hold counts, indices and columns are integers
    ([Z]); percentages and durations are exact rationals ([Q]), with the
    IEEE results of a division by zero written out. *)

From Stdlib Require Import ZArith List Bool Lia String Ascii QArith Sorted.
Import ListNotations.

Local Open Scope Z_scope.

(** ** Data model (the interfaces at the top of the component file) *)

Record GitHubContributionDay : Type := {
  contributionCount : Z;
  date : string;
  color : string;
  weekday : Z
}.

Record GitHubContributionWeek : Type := {
  contributionDays : list GitHubContributionDay
}.

Record GitHubData : Type := {
  totalContributions : Z;
  weeks : list GitHubContributionWeek
}.

(** ** Activity level *)

(** [getGitHubLevel]: the chain of early returns, in source order. *)
Definition getGitHubLevel (count : Z) : Z :=
  if count =? 0 then 0
  else if count <=? 3 then 1
  else if count <=? 6 then 2
  else if count <=? 9 then 3
  else 4.

(** ** Streaks *)

Record Streaks : Type := {
  currentStreak : Z;
  longestStreak : Z
}.

(** [weeks.flatMap((w) => w.contributionDays)] *)
Definition allDaysOf (ws : list GitHubContributionWeek)
  : list GitHubContributionDay :=
  flat_map contributionDays ws.

(** The test [day.contributionCount > 0] of both loops. *)
Definition hasContribution (day : GitHubContributionDay) : bool :=
  0 <? contributionCount day.

(** Body of the first loop; the state is [(longestStreak, tempStreak)]. *)
Definition forwardStep (st : Z * Z) (day : GitHubContributionDay) : Z * Z :=
  let '(longest, temp) := st in
  if hasContribution day
  then (Z.max longest (temp + 1), temp + 1)
  else (longest, 0).

Definition forwardLoop (allDays : list GitHubContributionDay) : Z * Z :=
  fold_left forwardStep allDays (0, 0).

(** The second loop, [for (i = length - 1; i >= 0; i--)].  The argument
    [k] is [i + 1]: the loop stops when it reaches [0], and breaks at the
    first day without a contribution.  The index is always below the
    length, so the lookup never misses (see [backwardLoop_in_range]). *)
Fixpoint backwardLoop (allDays : list GitHubContributionDay) (k : nat)
    (current : Z) : Z :=
  match k with
  | O => current
  | S i =>
      match nth_error allDays i with
      | Some day =>
          if hasContribution day
          then backwardLoop allDays i (current + 1)
          else current
      | None => current
      end
  end.

Definition computeGitHubStreaks (ws : list GitHubContributionWeek) : Streaks :=
  let allDays := allDaysOf ws in
  let longest := fst (forwardLoop allDays) in
  let current := backwardLoop allDays (List.length allDays) 0 in
  {| currentStreak := current; longestStreak := longest |}.

(** *** What the specification calls a streak *)

Definition active (day : GitHubContributionDay) : Prop :=
  0 < contributionCount day.

(** [run] is a block of consecutive days of [days], all with a positive
    count. *)
Definition run_in (days run : list GitHubContributionDay) : Prop :=
  Forall active run /\ exists pre post, days = pre ++ run ++ post.

(** [n] is the maximum length of such a block ([0] when there is none but
    the empty one). *)
Definition max_run_length (days : list GitHubContributionDay) (n : Z) : Prop :=
  (exists run, run_in days run /\ Z.of_nat (List.length run) = n) /\
  (forall run, run_in days run -> Z.of_nat (List.length run) <= n).

(** [n] days are counted backward from the end of [days]: all of them have
    a positive count, and the count stops at the start of the sequence or
    at a day without a contribution. *)
Definition trailing_run_length (days : list GitHubContributionDay) (n : Z)
  : Prop :=
  exists pre suf,
    days = pre ++ suf /\ Forall active suf /\
    Z.of_nat (List.length suf) = n /\
    (pre = [] \/ exists pre' day, pre = pre' ++ [day] /\ ~ active day).

Definition dayWithCount (c : Z) : GitHubContributionDay :=
  {| contributionCount := c; date := ""; color := ""; weekday := 0 |}.

Definition weekWithCounts (cs : list Z) : GitHubContributionWeek :=
  {| contributionDays := map dayWithCount cs |}.

(** ** The host's [Date] (ECMAScript, Date objects)

    Time values are milliseconds since the epoch.  The local time zone is
    a [TimeZone]: the offset from UTC, in milliseconds, as a function of
    the instant, so that zones with daylight-saving changes are covered
    as well as zones with one constant offset ([fixedZone]).  The
    abstract operations carry the names the language specification gives
    them. *)

Module JSDate.

Definition msPerDay : Z := 86400000.

Definition Day (t : Z) : Z := t / msPerDay.
Definition TimeWithinDay (t : Z) : Z := t mod msPerDay.

Definition isLeapYear (y : Z) : bool :=
  ((y mod 4 =? 0) && negb (y mod 100 =? 0)) || (y mod 400 =? 0).

Definition DaysInYear (y : Z) : Z := if isLeapYear y then 366 else 365.

Definition DayFromYear (y : Z) : Z :=
  365 * (y - 1970) + (y - 1969) / 4 - (y - 1901) / 100 + (y - 1601) / 400.

(** The largest year whose first day is not after day [d]: an estimate
    from the mean year length, corrected by at most one
    (see [YearFromDay_spec]). *)
Definition YearFromDay (d : Z) : Z :=
  let y := 1970 + (400 * d) / 146097 in
  if DayFromYear (y + 1) <=? d then y + 1
  else if DayFromYear y <=? d then y
  else y - 1.

Definition YearFromTime (t : Z) : Z := YearFromDay (Day t).
Definition DayWithinYear (t : Z) : Z := Day t - DayFromYear (YearFromTime t).
Definition InLeapYear (t : Z) : Z :=
  if isLeapYear (YearFromTime t) then 1 else 0.

(** Number of days of the year before month [m] (0 = January). *)
Definition monthStart (m leap : Z) : Z :=
  match m with
  | 0 => 0
  | 1 => 31
  | 2 => 59 + leap
  | 3 => 90 + leap
  | 4 => 120 + leap
  | 5 => 151 + leap
  | 6 => 181 + leap
  | 7 => 212 + leap
  | 8 => 243 + leap
  | 9 => 273 + leap
  | 10 => 304 + leap
  | _ => 334 + leap
  end.

Definition monthOfDayWithinYear (dwy leap : Z) : Z :=
  if dwy <? 31 then 0
  else if dwy <? 59 + leap then 1
  else if dwy <? 90 + leap then 2
  else if dwy <? 120 + leap then 3
  else if dwy <? 151 + leap then 4
  else if dwy <? 181 + leap then 5
  else if dwy <? 212 + leap then 6
  else if dwy <? 243 + leap then 7
  else if dwy <? 273 + leap then 8
  else if dwy <? 304 + leap then 9
  else if dwy <? 334 + leap then 10
  else 11.

Definition MonthFromTime (t : Z) : Z :=
  monthOfDayWithinYear (DayWithinYear t) (InLeapYear t).

Definition DateFromTime (t : Z) : Z :=
  DayWithinYear t - monthStart (MonthFromTime t) (InLeapYear t) + 1.

Definition HourFromTime (t : Z) : Z := (t / 3600000) mod 24.
Definition MinFromTime (t : Z) : Z := (t / 60000) mod 60.
Definition SecFromTime (t : Z) : Z := (t / 1000) mod 60.
Definition msFromTime (t : Z) : Z := t mod 1000.

Definition MakeTime (hour min sec ms : Z) : Z :=
  hour * 3600000 + min * 60000 + sec * 1000 + ms.

(** [MakeDay]: months outside 0..11 carry into the year, dates outside
    the month carry into the neighbouring months. *)
Definition MakeDay (year month date : Z) : Z :=
  let ym := year + month / 12 in
  let mn := month mod 12 in
  DayFromYear ym + monthStart mn (if isLeapYear ym then 1 else 0) + date - 1.

Definition MakeDate (day time : Z) : Z := day * msPerDay + time.

(** The local time zone, the language's [LocalTZA(t, isUTC)]:
    [offsetAt t] is the offset in effect at the UTC time value [t]
    ([isUTC] true), [offsetOfLocal t] the offset with which the local
    time value [t] is read ([isUTC] false; at a local time that a change
    of offset skips or repeats it is the offset before the change). *)
Record TimeZone : Type := {
  offsetAt : Z -> Z;
  offsetOfLocal : Z -> Z
}.

(** A zone whose offset never changes. *)
Definition fixedZone (tza : Z) : TimeZone :=
  {| offsetAt := fun _ => tza; offsetOfLocal := fun _ => tza |}.

Definition LocalTime (zone : TimeZone) (t : Z) : Z := t + offsetAt zone t.
Definition UTC (zone : TimeZone) (t : Z) : Z := t - offsetOfLocal zone t.

(** *** Methods of [Date.prototype] on a valid time value [tv] *)

Definition getDate (zone : TimeZone) (tv : Z) : Z := DateFromTime (LocalTime zone tv).
Definition getMonth (zone : TimeZone) (tv : Z) : Z := MonthFromTime (LocalTime zone tv).
Definition getFullYear (zone : TimeZone) (tv : Z) : Z := YearFromTime (LocalTime zone tv).

Definition setDate (zone : TimeZone) (tv dt : Z) : Z :=
  let t := LocalTime zone tv in
  UTC zone (MakeDate (MakeDay (YearFromTime t) (MonthFromTime t) dt)
                    (TimeWithinDay t)).

Definition setMonth (zone : TimeZone) (tv month : Z) : Z :=
  let t := LocalTime zone tv in
  UTC zone (MakeDate (MakeDay (YearFromTime t) month (DateFromTime t))
                    (TimeWithinDay t)).

Definition setFullYear (zone : TimeZone) (tv year : Z) : Z :=
  let t := LocalTime zone tv in
  UTC zone (MakeDate (MakeDay year (MonthFromTime t) (DateFromTime t))
                    (TimeWithinDay t)).

(** *** Text forms *)

Definition digitChar (d : Z) : ascii := ascii_of_nat (48 + Z.to_nat d).

(** The last [n] decimal digits of [v], most significant first. *)
Fixpoint padDigits (n : nat) (v : Z) : string :=
  match n with
  | O => EmptyString
  | S n' => String.append (padDigits n' (v / 10))
                          (String (digitChar (v mod 10)) EmptyString)
  end.

Definition yearString (y : Z) : string :=
  if (0 <=? y) && (y <=? 9999) then padDigits 4 y
  else String.append (if y <? 0 then "-"%string else "+"%string)
                     (padDigits 6 (Z.abs y)).

(** [toISOString]: the UTC fields, [YYYY-MM-DDTHH:mm:ss.sssZ]. *)
Definition toISOString (tv : Z) : string :=
  String.concat ""%string
    [ yearString (YearFromTime tv); "-"%string;
      padDigits 2 (MonthFromTime tv + 1); "-"%string;
      padDigits 2 (DateFromTime tv); "T"%string;
      padDigits 2 (HourFromTime tv); ":"%string;
      padDigits 2 (MinFromTime tv); ":"%string;
      padDigits 2 (SecFromTime tv); "."%string;
      padDigits 3 (msFromTime tv); "Z"%string ].

Definition digitValue (c : ascii) : option Z :=
  let n := Z.of_nat (nat_of_ascii c) in
  if (48 <=? n) && (n <=? 57) then Some (n - 48) else None.

(** Reads exactly [n] decimal digits. *)
Fixpoint readDigits (n : nat) (acc : Z) (s : string) : option (Z * string) :=
  match n with
  | O => Some (acc, s)
  | S n' =>
      match s with
      | String c rest =>
          match digitValue c with
          | Some d => readDigits n' (10 * acc + d) rest
          | None => None
          end
      | EmptyString => None
      end
  end.

Definition expectChar (c : ascii) (s : string) : option string :=
  match s with
  | String c' rest => if Ascii.eqb c c' then Some rest else None
  | EmptyString => None
  end.

(** The year: four digits, or a sign and six digits (the expanded years
    of the language, of which [-000000] is none). *)
Definition parseYear (s : string) : option (Z * string) :=
  match expectChar "+" s with
  | Some rest => readDigits 6 0 rest
  | None =>
      match expectChar "-" s with
      | Some rest =>
          match readDigits 6 0 rest with
          | Some (y, rest') => if y =? 0 then None else Some (- y, rest')
          | None => None
          end
      | None => readDigits 4 0 s
      end
  end.

(** The calendar part [YYYY], [YYYY-MM] or [YYYY-MM-DD], the year
    possibly expanded: year, month (1..12), day, and the rest of the
    text. *)
Definition parseDatePart (s : string) : option (Z * Z * Z * string) :=
  match parseYear s with
  | None => None
  | Some (y, s1) =>
      match expectChar "-" s1 with
      | None => Some (y, 1, 1, s1)
      | Some s2 =>
          match readDigits 2 0 s2 with
          | None => None
          | Some (m, s3) =>
              match expectChar "-" s3 with
              | None => Some (y, m, 1, s3)
              | Some s4 =>
                  match readDigits 2 0 s4 with
                  | None => None
                  | Some (d, s5) => Some (y, m, d, s5)
                  end
              end
          end
      end
  end.

(** The time part [THH:mm:ss] up to the end of the text, in
    milliseconds. *)
Definition parseTimePart (s : string) : option Z :=
  match expectChar "T" s with
  | None => None
  | Some s1 =>
      match readDigits 2 0 s1 with
      | None => None
      | Some (h, s2) =>
          match expectChar ":" s2 with
          | None => None
          | Some s3 =>
              match readDigits 2 0 s3 with
              | None => None
              | Some (mi, s4) =>
                  match expectChar ":" s4 with
                  | None => None
                  | Some s5 =>
                      match readDigits 2 0 s5 with
                      | Some (sec, EmptyString) =>
                          if (h <=? 23) && (mi <=? 59) && (sec <=? 59)
                             || (h =? 24) && (mi =? 0) && (sec =? 0)
                          then Some (MakeTime h mi sec 0)
                          else None
                      | _ => None
                      end
                  end
              end
          end
      end
  end.

(** [new Date(text)] for a date-time text without a zone, which the
    language reads as local time.  [None] is the invalid date (time value
    NaN).  Texts outside this format are left to the host by the language;
    here they give the invalid date. *)
Definition parseLocalDateTime (zone : TimeZone) (text : string) : option Z :=
  match parseDatePart text with
  | None => None
  | Some (y, m, d, rest) =>
      match parseTimePart rest with
      | None => None
      | Some time =>
          if (1 <=? m) && (m <=? 12) && (1 <=? d) && (d <=? 31)
          then Some (UTC zone (MakeDate (MakeDay y (m - 1) d) time))
          else None
      end
  end.

End JSDate.

(** ** Month labels *)

(** A JavaScript number that is an integer or NaN ([getMonth] of an
    invalid date). *)
Inductive number : Type :=
| Num (z : Z)
| NaN.

(** [a !== b] on numbers: NaN differs from everything, itself included. *)
Definition strictNotEqual (a b : number) : bool :=
  match a, b with
  | Num x, Num y => negb (x =? y)
  | _, _ => true
  end.

Definition MONTH_LABELS : list string :=
  [ "Jan"; "Feb"; "Mar"; "Apr"; "May"; "Jun";
    "Jul"; "Aug"; "Sep"; "Oct"; "Nov"; "Dec" ]%string.

(** [MONTH_LABELS[month]]; [None] is [undefined]. *)
Definition monthLabelAt (month : number) : option string :=
  match month with
  | Num m => if m <? 0 then None else nth_error MONTH_LABELS (Z.to_nat m)
  | NaN => None
  end.

Record MonthLabel : Type := {
  label : option string;
  col : Z
}.

(** [new Date(dateStr + "T00:00:00").getMonth()] *)
Definition monthOfDateString (zone : JSDate.TimeZone) (dateStr : string) : number :=
  match JSDate.parseLocalDateTime zone (String.append dateStr "T00:00:00") with
  | Some tv => Num (JSDate.getMonth zone tv)
  | None => NaN
  end.

(** The month the callback computes for a week; [None] when the week has
    no first day and the callback returns early. *)
Definition monthOfWeek (zone : JSDate.TimeZone) (week : GitHubContributionWeek)
  : option number :=
  match contributionDays week with
  | [] => None
  | firstDay :: _ => Some (monthOfDateString zone (date firstDay))
  end.

(** The variables the [forEach] callback reads and writes, with the
    index [i] of the week it is called on. *)
Record LabelState : Type := {
  labels : list MonthLabel;
  lastMonth : number;
  index : Z
}.

Definition monthStep (st : LabelState) (m : option number) : LabelState :=
  match m with
  | None =>
      {| labels := labels st; lastMonth := lastMonth st;
         index := index st + 1 |}
  | Some month =>
      if strictNotEqual month (lastMonth st)
      then {| labels := labels st ++
                        [{| label := monthLabelAt month; col := index st |}];
              lastMonth := month;
              index := index st + 1 |}
      else {| labels := labels st; lastMonth := lastMonth st;
              index := index st + 1 |}
  end.

Definition monthLabelsCallback (zone : JSDate.TimeZone) (st : LabelState)
    (week : GitHubContributionWeek) : LabelState :=
  monthStep st (monthOfWeek zone week).

Definition initialLabelState : LabelState :=
  {| labels := []; lastMonth := Num (-1); index := 0 |}.

Definition getMonthLabels (zone : JSDate.TimeZone) (ws : list GitHubContributionWeek)
  : list MonthLabel :=
  labels (fold_left (monthLabelsCallback zone) ws initialLabelState).

(** The rendering of the labels: [monthLabels.map((m, i) => ...)] computes
    for each label the width [span * 14] from
    [nextCol = i < length - 1 ? monthLabels[i + 1].col : weeks.length]. *)
Definition nextColOf (monthLabels : list MonthLabel) (nweeks : Z) (i : nat)
  : Z :=
  if Z.of_nat i <? Z.of_nat (List.length monthLabels) - 1
  then match nth_error monthLabels (i + 1) with
       | Some next => col next
       | None => nweeks (* not reached: [i + 1] is an index of the list *)
       end
  else nweeks.

Definition monthLabelSpans (monthLabels : list MonthLabel) (nweeks : Z)
  : list Z :=
  map (fun im : nat * MonthLabel =>
         nextColOf monthLabels nweeks (fst im) - col (snd im))
      (combine (seq 0 (List.length monthLabels)) monthLabels).

(** The label emitted last before column [i], if any. *)
Definition lastLabelBefore (ls : list MonthLabel) (i : Z) : option MonthLabel :=
  last (map Some (filter (fun l => col l <? i) ls)) None.

(** The month found for the week at column [c]. *)
Definition monthAtCol (zone : JSDate.TimeZone) (ws : list GitHubContributionWeek) (c : Z)
  : option number :=
  if c <? 0 then None
  else match nth_error ws (Z.to_nat c) with
       | Some week => monthOfWeek zone week
       | None => None
       end.

Definition weekStartingOn (dateStr : string) : GitHubContributionWeek :=
  {| contributionDays :=
       [{| contributionCount := 0; date := dateStr; color := "";
           weekday := 0 |}] |}.

(** The test the specification gives for a label at column [i] whose week
    has month [month]: there is no earlier label, or the month differs
    from the month of the label emitted last before [i]. *)
Definition emitsAt (zone : JSDate.TimeZone) (ws : list GitHubContributionWeek)
    (ls : list MonthLabel) (i : Z) (month : number) : Prop :=
  match lastLabelBefore ls i with
  | None => True
  | Some prev =>
      exists pm, monthAtCol zone ws (col prev) = Some pm /\
                 strictNotEqual month pm = true
  end.

(** What holds of the callback's variables after the weeks [ws]. *)
Definition LabelInvariant (zone : JSDate.TimeZone) (ws : list GitHubContributionWeek)
    (st : LabelState) : Prop :=
  index st = Z.of_nat (List.length ws) /\
  Forall (fun l => 0 <= col l < Z.of_nat (List.length ws)) (labels st) /\
  match last (map Some (labels st)) None with
  | None => lastMonth st = Num (-1)
  | Some prev => monthAtCol zone ws (col prev) = Some (lastMonth st)
  end /\
  StronglySorted Z.lt (map col (labels st)) /\
  Forall (fun l => exists month,
              monthAtCol zone ws (col l) = Some month /\
              label l = monthLabelAt month) (labels st) /\
  (forall (i : nat) week month,
      nth_error ws i = Some week -> monthOfWeek zone week = Some month ->
      (In (Z.of_nat i) (map col (labels st)) <->
       emitsAt zone ws (labels st) (Z.of_nat i) month)).

(** ** Time-tracking statistics (the [Hackatime...] interfaces) *)

Module HackatimeLanguage.
Record t : Type := {
  name : string;
  total_seconds : Q;
  percent : Q;
  text : string;
  color : option string
}.
End HackatimeLanguage.

Module HackatimeData.
Record t : Type := {
  total_seconds : Q;
  daily_average : Q;
  (** read with [?.] by the component, hence possibly missing *)
  languages : option (list HackatimeLanguage.t);
  human_readable_total : option string;
  human_readable_daily_average : option string;
  human_readable_range : option string;
  streak : option Z;
  start : option string
}.
End HackatimeData.

(** The result of a division and multiplication on finite numbers: a
    finite value (taken exactly, rounding is not modelled), an infinity,
    or NaN. *)
Inductive double : Type :=
| Finite (q : Q)
| PosInfinity
| NegInfinity
| NotANumber.

(** [x / y] on finite numbers; the zero divisor is [+0]. *)
Definition divide (x y : Q) : double :=
  if Qeq_bool y 0%Q
  then (if Qeq_bool x 0%Q then NotANumber
        else if Qle_bool 0%Q x then PosInfinity else NegInfinity)
  else Finite (x / y)%Q.

(** [r * 100] *)
Definition times100 (r : double) : double :=
  match r with
  | Finite q => Finite (q * 100)%Q
  | other => other
  end.

(** [l.name !== "Other" && l.total_seconds > 0] *)
Definition keepLanguage (l : HackatimeLanguage.t) : bool :=
  negb (String.eqb (HackatimeLanguage.name l) "Other")
  && negb (Qle_bool (HackatimeLanguage.total_seconds l) 0%Q).

(** [hackatimeData?.languages?.filter(...).slice(0, 6) ?? []] *)
Definition topLanguages (hackatimeData : option HackatimeData.t)
  : list HackatimeLanguage.t :=
  match hackatimeData with
  | None => []
  | Some d =>
      match HackatimeData.languages d with
      | None => []
      | Some ls => firstn 6 (filter keepLanguage ls)
      end
  end.

(** [topLanguages.length > 0 ? topLanguages[0].percent : 1] *)
Definition maxLangPercent (top : list HackatimeLanguage.t) : Q :=
  match top with
  | first :: _ => HackatimeLanguage.percent first
  | [] => 1%Q
  end.

(** The number in [width: `${(lang.percent / maxLangPercent) * 100}%`]. *)
Definition barWidth (maxPercent : Q) (lang : HackatimeLanguage.t) : double :=
  times100 (divide (HackatimeLanguage.percent lang) maxPercent).

(** The widths of the bars [topLanguages.map(...)] renders, in order. *)
Definition barWidths (hackatimeData : option HackatimeData.t) : list double :=
  let top := topLanguages hackatimeData in
  map (barWidth (maxLangPercent top)) top.

(** The width [w] is [p] percent. *)
Definition isPercent (w : double) (p : Q) : Prop :=
  match w with
  | Finite q => (q == p)%Q
  | _ => False
  end.

(** The retained set in the specification's words: without the entries
    named "Other" or of zero duration, the first six. *)
Definition notOtherNorEmpty (l : HackatimeLanguage.t) : bool :=
  negb (String.eqb (HackatimeLanguage.name l) "Other")
  && negb (Qeq_bool (HackatimeLanguage.total_seconds l) 0%Q).

Definition retainedLanguages (ls : list HackatimeLanguage.t)
  : list HackatimeLanguage.t :=
  firstn 6 (filter notOtherNorEmpty ls).

Definition percentDescending (a b : HackatimeLanguage.t) : Prop :=
  (HackatimeLanguage.percent b <= HackatimeLanguage.percent a)%Q.

Definition language (n : string) (seconds pct : Q) : HackatimeLanguage.t :=
  {| HackatimeLanguage.name := n;
     HackatimeLanguage.total_seconds := seconds;
     HackatimeLanguage.percent := pct;
     HackatimeLanguage.text := "";
     HackatimeLanguage.color := None |}.

Definition statsWithLanguages (ls : list HackatimeLanguage.t)
  : HackatimeData.t :=
  {| HackatimeData.total_seconds := 0%Q;
     HackatimeData.daily_average := 0%Q;
     HackatimeData.languages := Some ls;
     HackatimeData.human_readable_total := None;
     HackatimeData.human_readable_daily_average := None;
     HackatimeData.human_readable_range := None;
     HackatimeData.streak := None;
     HackatimeData.start := None |}.

Definition exampleLanguages : list HackatimeLanguage.t :=
  [ language "Other" 100 10; language "Go" 500 50;
    language "Rust" 300 30; language "TS" 200 20 ].

(** One language with time spent and a rounded share of zero. *)
Definition zeroPercentLanguages : list HackatimeLanguage.t :=
  [ language "Go" 5 0 ].

(** ** The request handlers *)

(** *** JSON values and the property reads the handlers perform *)

#[warnings="-register-all"]
Inductive json : Type :=
| JNull
| JBool (b : bool)
| JNumber (q : Q)
| JString (s : string)
| JArray (items : list json)
| JObject (fields : list (string * json)).

(** A JavaScript value read from a payload; [None] is [undefined]. *)
Definition value : Type := option json.

Inductive JsError : Type :=
| TypeError
| SyntaxError
| NetworkError
| HttpStatusError (api : string) (status : Z)
| UpstreamError (message : value).

Fixpoint lookup (key : string) (fields : list (string * json)) : value :=
  match fields with
  | [] => None
  | (k, v) :: rest => if String.eqb k key then Some v else lookup key rest
  end.

(** Truthiness, as [||] and [if] test it. *)
Definition truthy (v : value) : bool :=
  match v with
  | None => false
  | Some JNull => false
  | Some (JBool b) => b
  | Some (JNumber q) => negb (Qeq_bool q 0%Q)
  | Some (JString s) => negb (String.eqb s "")
  | Some (JArray _) => true
  | Some (JObject _) => true
  end.

(** [v.key]: a [TypeError] on [null] and [undefined], the field of an
    object, [undefined] on anything else. *)
Definition getProperty (v : value) (key : string) : JsError + value :=
  match v with
  | None => inl TypeError
  | Some JNull => inl TypeError
  | Some (JObject fields) => inr (lookup key fields)
  | Some _ => inr None
  end.

(** [v[0]] *)
Definition getFirst (v : value) : JsError + value :=
  match v with
  | None => inl TypeError
  | Some JNull => inl TypeError
  | Some (JArray items) => inr (hd_error items)
  | Some (JObject fields) => inr (lookup "0" fields)
  | Some (JString s) =>
      inr (match s with
           | EmptyString => None
           | String c _ => Some (JString (String c EmptyString))
           end)
  | Some _ => inr None
  end.

(** *** Effects: the calls made to [fetch] and to [console.error] *)

Record Request : Type := {
  url : string;
  method : string;
  headers : list (string * string);
  body : option json;
  revalidate : Z
}.

Inductive Event : Type :=
| Fetched (req : Request)
| ConsoleError (prefix : string) (error : JsError).

(** What the transport answers to a request: a rejected promise, or a
    response with its status and its body ([None] when the body is not
    JSON). *)
Inductive FetchResult : Type :=
| Rejected
| Responded (status : Z) (payload : option json).

Definition Transport : Type := Request -> FetchResult.

Record HttpResponse : Type := {
  responseStatus : Z;
  responsePayload : option json
}.

(** [response.ok] *)
Definition ok (r : HttpResponse) : bool :=
  (200 <=? responseStatus r) && (responseStatus r <=? 299).

Inductive Outcome (A : Type) : Type :=
| Returned (a : A)
| Thrown (e : JsError).
Arguments Returned {A} a.
Arguments Thrown {A} e.

(** A computation that may throw, over the trace of events so far. *)
Definition Eff (A : Type) : Type := list Event -> Outcome A * list Event.

Definition ret {A : Type} (a : A) : Eff A := fun tr => (Returned a, tr).

Definition throw {A : Type} (e : JsError) : Eff A := fun tr => (Thrown e, tr).

Definition bind {A B : Type} (m : Eff A) (k : A -> Eff B) : Eff B :=
  fun tr =>
    match m tr with
    | (Returned a, tr') => k a tr'
    | (Thrown e, tr') => (Thrown e, tr')
    end.

(** [try { m } catch (error) { handler }] *)
Definition tryCatch {A : Type} (m : Eff A) (handler : JsError -> Eff A)
  : Eff A :=
  fun tr =>
    match m tr with
    | (Returned a, tr') => (Returned a, tr')
    | (Thrown e, tr') => handler e tr'
    end.

Definition lift {A : Type} (r : JsError + A) : Eff A :=
  match r with
  | inl e => throw e
  | inr a => ret a
  end.

Definition emit (ev : Event) : Eff unit := fun tr => (Returned tt, tr ++ [ev]).

Declare Scope eff_scope.
Delimit Scope eff_scope with eff.
Notation "x <- m ;; k" := (bind m (fun x => k))
  (at level 61, m at next level, right associativity) : eff_scope.
Notation "m ;;; k" := (bind m (fun _ => k))
  (at level 61, right associativity) : eff_scope.

(** [await fetch(url, init)] *)
Definition fetch (transport : Transport) (req : Request) : Eff HttpResponse :=
  (emit (Fetched req) ;;;
   match transport req with
   | Rejected => throw NetworkError
   | Responded status payload =>
       ret {| responseStatus := status; responsePayload := payload |}
   end)%eff.

(** [await response.json()] *)
Definition responseJson (r : HttpResponse) : Eff json :=
  match responsePayload r with
  | Some j => ret j
  | None => throw SyntaxError
  end.

(** What a handler answers. *)
Record NextResponse : Type := {
  status : Z;
  jsonBody : json
}.

(** [NextResponse.json(body, { status })]; [undefined] has no JSON text. *)
Definition NextResponse_json (body : value) (st : Z) : Eff NextResponse :=
  match body with
  | Some j => ret {| status := st; jsonBody := j |}
  | None => throw TypeError
  end.

Definition errorBody (message : string) : value :=
  Some (JObject [("error"%string, JString message)]).

(** [process.env]; [None] is an unset variable. *)
Record Env : Type := {
  GITHUB_TOKEN : option string;
  HACKATIME_USERNAME : option string;
  HACKATIME_API_KEY : option string
}.

(** [!v] on a string or [undefined]: unset and empty are both falsy. *)
Definition missing (v : option string) : bool :=
  match v with
  | None => true
  | Some s => String.eqb s ""
  end.

(** The calls to [fetch] recorded in a trace. *)
Definition networkCalls (tr : list Event) : list Request :=
  flat_map (fun ev => match ev with
                      | Fetched req => [req]
                      | ConsoleError _ _ => []
                      end) tr.

(** *** [app/api/github/route.ts] *)

Module GitHubRoute.
Local Open Scope string_scope.

Definition GITHUB_GRAPHQL_URL : string := "https://api.github.com/graphql".
Definition GITHUB_USERNAME : string := "Shyamsaitejamandibi".

Definition query : string := "
  query($username: String!) {
    user(login: $username) {
      contributionsCollection {
        contributionCalendar {
          totalContributions
          weeks {
            contributionDays {
              contributionCount
              date
              color
              weekday
            }
          }
        }
      }
    }
  }
".

Definition calendarRequest (token : string) : Request :=
  {| url := GITHUB_GRAPHQL_URL;
     method := "POST";
     headers := [ ("Authorization", "Bearer " ++ token);
                  ("Content-Type", "application/json") ];
     body := Some (JObject
               [ ("query", JString query);
                 ("variables",
                  JObject [("username", JString GITHUB_USERNAME)]) ]);
     revalidate := 3600 |}.

Definition GET (env : Env) (transport : Transport) : Eff NextResponse :=
  let token := GITHUB_TOKEN env in
  if missing token
  then NextResponse_json (errorBody "GitHub token not configured") 500
  else
    tryCatch
      (response <- fetch transport
                     (calendarRequest (match token with
                                       | Some t => t
                                       | None => ""
                                       end)) ;;
       if negb (ok response)
       then throw (HttpStatusError "GitHub" (responseStatus response))
       else
         data <- responseJson response ;;
         errors <- lift (getProperty (Some data) "errors") ;;
         if truthy errors
         then
           first <- lift (getFirst errors) ;;
           message <- lift (getProperty first "message") ;;
           throw (UpstreamError message)
         else
           d <- lift (getProperty (Some data) "data") ;;
           user <- lift (getProperty d "user") ;;
           collection <- lift (getProperty user "contributionsCollection") ;;
           calendar <- lift (getProperty collection "contributionCalendar") ;;
           NextResponse_json calendar 200)%eff
      (fun error =>
         (emit (ConsoleError "GitHub API error:" error) ;;;
          NextResponse_json (errorBody "Failed to fetch GitHub data") 500)%eff).

End GitHubRoute.

(** *** [app/api/hackatime/route.ts] *)

Module HackatimeRoute.
Local Open Scope string_scope.

Definition HACKATIME_BASE_URL : string :=
  "https://hackatime.hackclub.com/api/v1".

Record DateRange : Type := {
  start_date : string;
  end_date : string
}.

(** [d.toISOString().split("T")[0]]: the text before the first [T]. *)
Fixpoint beforeT (s : string) : string :=
  match s with
  | EmptyString => EmptyString
  | String c rest =>
      if Ascii.eqb c "T" then EmptyString else String c (beforeT rest)
  end.

Definition fmt (d : Z) : string := beforeT (JSDate.toISOString d).

(** [getDateRange]; [now] is the time value both [new Date()] yield, [zone]
    the server's time zone. *)
Definition getDateRange (zone : JSDate.TimeZone) (now : Z) (range : string)
  : DateRange :=
  let end_ := now in
  let start := now in
  let start :=
    if String.eqb range "last_7_days"
    then JSDate.setDate zone start (JSDate.getDate zone end_ - 7)
    else if String.eqb range "last_30_days"
    then JSDate.setDate zone start (JSDate.getDate zone end_ - 30)
    else if String.eqb range "last_6_months"
    then JSDate.setMonth zone start (JSDate.getMonth zone end_ - 6)
    else if String.eqb range "last_year"
    then JSDate.setFullYear zone start (JSDate.getFullYear zone end_ - 1)
    else (* "all_time" and default: 10 years back *)
      JSDate.setFullYear zone start (JSDate.getFullYear zone end_ - 10)
  in
  {| start_date := fmt start; end_date := fmt end_ |}.

(** The incoming request: the pairs of its query string. *)
Record IncomingRequest : Type := {
  searchParams : list (string * string)
}.

(** [searchParams.get(name)]: the first value, [None] for [null]. *)
Fixpoint searchParams_get (name : string) (params : list (string * string))
  : option string :=
  match params with
  | [] => None
  | (k, v) :: rest =>
      if String.eqb k name then Some v else searchParams_get name rest
  end.

(** [searchParams.get("range") || "all_time"] *)
Definition rangeOf (request : IncomingRequest) : string :=
  match searchParams_get "range" (searchParams request) with
  | Some r => if String.eqb r "" then "all_time" else r
  | None => "all_time"
  end.

Definition statsRequest (username : string) (apiKey : option string)
    (range : DateRange) : Request :=
  {| url := HACKATIME_BASE_URL ++ "/users/" ++ username
            ++ "/stats?start_date=" ++ start_date range
            ++ "&end_date=" ++ end_date range;
     method := "GET";
     headers := ("Content-Type", "application/json")
                :: (if missing apiKey then []
                    else [("Authorization",
                           "Bearer " ++ match apiKey with
                                        | Some k => k
                                        | None => ""
                                        end)]);
     body := None;
     revalidate := 3600 |}.

Definition GET (env : Env) (zone : JSDate.TimeZone) (now : Z)
    (transport : Transport)
    (request : IncomingRequest) : Eff NextResponse :=
  let username := HACKATIME_USERNAME env in
  let apiKey := HACKATIME_API_KEY env in
  if missing username
  then NextResponse_json (errorBody "Hackatime username not configured") 500
  else
    let range := rangeOf request in
    let dates := getDateRange zone now range in
    tryCatch
      (response <- fetch transport
                     (statsRequest (match username with
                                    | Some u => u
                                    | None => ""
                                    end) apiKey dates) ;;
       if negb (ok response)
       then throw (HttpStatusError "Hackatime" (responseStatus response))
       else
         responseData <- responseJson response ;;
         data <- lift (getProperty (Some responseData) "data") ;;
         let stats := if truthy data then data else Some responseData in
         NextResponse_json stats 200)%eff
      (fun error =>
         (emit (ConsoleError "Hackatime API error:" error) ;;;
          NextResponse_json (errorBody "Failed to fetch Hackatime data") 500)%eff).

End HackatimeRoute.

(** *** Calendar windows, in the specification's words *)

(** The day number of the first day of the month with index
    [12 * year + month]. *)
Definition firstDayOfMonth (monthIndex : Z) : Z :=
  let y := monthIndex / 12 in
  JSDate.DayFromYear y
  + JSDate.monthStart (monthIndex mod 12)
      (if JSDate.isLeapYear y then 1 else 0).

(** [k] days before the instant [now]: [k] times 24 hours earlier. *)
Definition daysBack (now k : Z) : Z := now - k * JSDate.msPerDay.

(** [k] days before the instant [now] on the calendar of the zone
    [zone]: the instant at which the local clock shows what it shows at
    [now], [k] days earlier. *)
Definition localDaysBack (zone : JSDate.TimeZone) (now k : Z) : Z :=
  JSDate.UTC zone (JSDate.LocalTime zone now - k * JSDate.msPerDay).

(** The zone of New York around its change of offset of 10 March 2024:
    five hours behind UTC until 07:00 UTC of that day (02:00 local), four
    hours behind from then on; the local times from 02:00 to 03:00 of
    that day, which no clock showed, are read with the earlier offset. *)
Definition newYorkMarch2024 : JSDate.TimeZone :=
  {| JSDate.offsetAt :=
       fun t => if t <? 1710054000000 then -18000000 else -14400000;
     JSDate.offsetOfLocal :=
       fun t => if t <? 1710039600000 then -18000000 else -14400000 |}.

(** [k] calendar months before the instant [now] in the zone [zone]: the
    same day of the month and time of day in the month [k] months
    earlier, running over into the next month when that month is
    shorter. *)
Definition monthsBack (zone : JSDate.TimeZone) (now k : Z) : Z :=
  let t := JSDate.LocalTime zone now in
  let monthIndex := 12 * JSDate.YearFromTime t + JSDate.MonthFromTime t - k in
  JSDate.UTC zone
    (JSDate.MakeDate
       (firstDayOfMonth monthIndex + JSDate.DateFromTime t - 1)
       (JSDate.TimeWithinDay t)).

Definition yearsBack (zone : JSDate.TimeZone) (now k : Z) : Z :=
  monthsBack zone now (12 * k).

Definition recognizedRange (range : string) : bool :=
  String.eqb range "last_7_days" || String.eqb range "last_30_days"
  || String.eqb range "last_6_months" || String.eqb range "last_year".

Definition requestWithRange (range : string) : HackatimeRoute.IncomingRequest :=
  {| HackatimeRoute.searchParams := [("range"%string, range)] |}.

Definition requestWithoutRange : HackatimeRoute.IncomingRequest :=
  {| HackatimeRoute.searchParams := [] |}.

(** A JSON value that is an object in JavaScript's sense. *)
Definition isObject (j : json) : bool :=
  match j with
  | JObject _ => true
  | JArray _ => true
  | _ => false
  end.

Definition envWith (token username : option string) : Env :=
  {| GITHUB_TOKEN := token; HACKATIME_USERNAME := username;
     HACKATIME_API_KEY := None |}.

(** A transport that answers every request with status 200 and the given
    payload. *)
Definition respondingWith (payload : json) : Transport :=
  fun _ => Responded 200 (Some payload).

Definition examplePayloadWithData : json :=
  JObject [ ("data"%string,
             JObject [("total_seconds"%string, JNumber 3600)]);
            ("trimmed"%string, JBool true) ].

Definition examplePayloadRaw : json :=
  JObject [ ("total_seconds"%string, JNumber 3600) ].

(** A payload whose [data] field is present and falsy. *)
Definition examplePayloadZeroData : json :=
  JObject [ ("data"%string, JNumber 0);
            ("total_seconds"%string, JNumber 3600) ].

(** [payload.data] for a payload that is not [null]: the field of an
    object, [undefined] on anything else. *)
Definition dataOf (payload : json) : value :=
  match payload with
  | JObject fields => lookup "data" fields
  | _ => None
  end.

(** ** The component's state and its fetch cycles *)

Module Component.
Local Open Scope string_scope.

Record Tooltip : Type := {
  tooltipText : string;
  x : Q;
  y : Q
}.

(** The [useState] cells of [DeveloperActivitySection]. *)
Record ComponentState : Type := {
  githubData : option GitHubData;
  hackatimeData : option HackatimeData.t;
  loadingGithub : bool;
  loadingHackatime : bool;
  errorGithub : bool;
  errorHackatime : bool;
  activeRange : string;
  tooltip : option Tooltip
}.

(** A mounted component: its state, the URLs it has passed to [fetch] so
    far, and the value of [activeRange] the time-tracking effect last ran
    with (its dependency array; [fetchHackatime] itself never changes,
    being memoised with no dependencies). *)
Record Mounted : Type := {
  state : ComponentState;
  fetched : list string;
  effectRange : option string
}.

Definition initialState : ComponentState :=
  {| githubData := None; hackatimeData := None;
     loadingGithub := true; loadingHackatime := true;
     errorGithub := false; errorHackatime := false;
     activeRange := "last_year"; tooltip := None |}.

Definition setGithubData (d : option GitHubData) (s : ComponentState) :=
  {| githubData := d; hackatimeData := hackatimeData s;
     loadingGithub := loadingGithub s; loadingHackatime := loadingHackatime s;
     errorGithub := errorGithub s; errorHackatime := errorHackatime s;
     activeRange := activeRange s; tooltip := tooltip s |}.

Definition setHackatimeData (d : option HackatimeData.t) (s : ComponentState) :=
  {| githubData := githubData s; hackatimeData := d;
     loadingGithub := loadingGithub s; loadingHackatime := loadingHackatime s;
     errorGithub := errorGithub s; errorHackatime := errorHackatime s;
     activeRange := activeRange s; tooltip := tooltip s |}.

Definition setLoadingGithub (b : bool) (s : ComponentState) :=
  {| githubData := githubData s; hackatimeData := hackatimeData s;
     loadingGithub := b; loadingHackatime := loadingHackatime s;
     errorGithub := errorGithub s; errorHackatime := errorHackatime s;
     activeRange := activeRange s; tooltip := tooltip s |}.

Definition setLoadingHackatime (b : bool) (s : ComponentState) :=
  {| githubData := githubData s; hackatimeData := hackatimeData s;
     loadingGithub := loadingGithub s; loadingHackatime := b;
     errorGithub := errorGithub s; errorHackatime := errorHackatime s;
     activeRange := activeRange s; tooltip := tooltip s |}.

Definition setErrorGithub (b : bool) (s : ComponentState) :=
  {| githubData := githubData s; hackatimeData := hackatimeData s;
     loadingGithub := loadingGithub s; loadingHackatime := loadingHackatime s;
     errorGithub := b; errorHackatime := errorHackatime s;
     activeRange := activeRange s; tooltip := tooltip s |}.

Definition setErrorHackatime (b : bool) (s : ComponentState) :=
  {| githubData := githubData s; hackatimeData := hackatimeData s;
     loadingGithub := loadingGithub s; loadingHackatime := loadingHackatime s;
     errorGithub := errorGithub s; errorHackatime := b;
     activeRange := activeRange s; tooltip := tooltip s |}.

Definition setActiveRange (r : string) (s : ComponentState) :=
  {| githubData := githubData s; hackatimeData := hackatimeData s;
     loadingGithub := loadingGithub s; loadingHackatime := loadingHackatime s;
     errorGithub := errorGithub s; errorHackatime := errorHackatime s;
     activeRange := r; tooltip := tooltip s |}.

Definition setTooltip (t : option Tooltip) (s : ComponentState) :=
  {| githubData := githubData s; hackatimeData := hackatimeData s;
     loadingGithub := loadingGithub s; loadingHackatime := loadingHackatime s;
     errorGithub := errorGithub s; errorHackatime := errorHackatime s;
     activeRange := activeRange s; tooltip := t |}.

Definition update (f : ComponentState -> ComponentState) (m : Mounted)
  : Mounted :=
  {| state := f (state m); fetched := fetched m;
     effectRange := effectRange m |}.

Definition callFetch (url : string) (m : Mounted) : Mounted :=
  {| state := state m; fetched := fetched m ++ [url];
     effectRange := effectRange m |}.

Definition hackatimeUrl (range : string) : string :=
  "/api/hackatime?range=" ++ range.

(** [fetchHackatime(range)] up to the call of [fetch]; the two promise
    callbacks are [hackatimeResolved] and [hackatimeRejected]. *)
Definition fetchHackatime (range : string) (m : Mounted) : Mounted :=
  callFetch (hackatimeUrl range)
    (update (setHackatimeData None)
       (update (setErrorHackatime false)
          (update (setLoadingHackatime true) m))).

(** [.then((d) => { setHackatimeData(d); setLoadingHackatime(false); })];
    [d] is whatever [res.json()] yields, and it is stored as it is:
    [None] is the payload [null], [Some] a payload of the shape the
    component reads; payloads of another shape are not covered. *)
Definition hackatimeResolved (d : option HackatimeData.t) (m : Mounted)
  : Mounted :=
  update (setLoadingHackatime false) (update (setHackatimeData d) m).

(** [.catch(() => { setErrorHackatime(true); setLoadingHackatime(false); })],
    reached on a rejected fetch and on a response that is not [ok]. *)
Definition hackatimeRejected (m : Mounted) : Mounted :=
  update (setLoadingHackatime false) (update (setErrorHackatime true) m).

(** [.then((d) => { setGithubData(d); setLoadingGithub(false); })], with
    [d] as in [hackatimeResolved]. *)
Definition githubResolved (d : option GitHubData) (m : Mounted) : Mounted :=
  update (setLoadingGithub false) (update (setGithubData d) m).

Definition githubRejected (m : Mounted) : Mounted :=
  update (setLoadingGithub false) (update (setErrorGithub true) m).

(** The effect [useEffect(() => { fetchHackatime(activeRange) },
    [activeRange, fetchHackatime])] at a commit: it runs when
    [activeRange] is not the value it last ran with. *)
Definition hackatimeEffect (m : Mounted) : Mounted :=
  let range := activeRange (state m) in
  let changed := match effectRange m with
                 | Some r => negb (String.eqb r range)
                 | None => true
                 end in
  if changed
  then let m' := fetchHackatime range m in
       {| state := state m'; fetched := fetched m';
          effectRange := Some range |}
  else m.

(** The first commit: the calendar effect (empty dependency array) and
    the time-tracking effect both run. *)
Definition mount : Mounted :=
  hackatimeEffect
    (callFetch "/api/github"
       {| state := initialState; fetched := []; effectRange := None |}).

(** [handleRangeChange]: the early return, else [setActiveRange(range)]
    and the commit of the render it causes. *)
Definition handleRangeChange (range : string) (m : Mounted) : Mounted :=
  if String.eqb range (activeRange (state m)) then m
  else hackatimeEffect (update (setActiveRange range) m).

Definition handleCellLeave (m : Mounted) : Mounted :=
  update (setTooltip None) m.

(** What can happen to a mounted component. *)
Inductive Action : Type :=
| RangeClicked (range : string)
| HackatimeResolved (d : option HackatimeData.t)
| HackatimeRejected
| GitHubResolved (d : option GitHubData)
| GitHubRejected
| CellLeft.

Definition step (m : Mounted) (a : Action) : Mounted :=
  match a with
  | RangeClicked range => handleRangeChange range m
  | HackatimeResolved d => hackatimeResolved d m
  | HackatimeRejected => hackatimeRejected m
  | GitHubResolved d => githubResolved d m
  | GitHubRejected => githubRejected m
  | CellLeft => handleCellLeave m
  end.

(** The component after a history of actions. *)
Definition after (actions : list Action) : Mounted :=
  fold_left step actions mount.

End Component.

(** The time-tracking effect has run for the current [activeRange]. *)
Definition committed (m : Component.Mounted) : Prop :=
  Component.effectRange m
  = Some (Component.activeRange (Component.state m)).

Definition exampleStats : HackatimeData.t := statsWithLanguages exampleLanguages.

(** ** Calendar dates, for stating what the host's [Date] computes *)

(** The number of days of month [m] (0 = January) of year [y]. *)
Definition daysInMonth (y m : Z) : Z :=
  match m with
  | 1 => if JSDate.isLeapYear y then 29 else 28
  | 3 | 5 | 8 | 10 => 30
  | _ => 31
  end.

(** [y]-[m]-[d] is a date of the calendar, [m] counted from 1. *)
Definition validDate (y m d : Z) : Prop :=
  1 <= m <= 12 /\ 1 <= d <= daysInMonth y (m - 1).

(** The text [YYYY-MM-DD] of the UTC day of a time value. *)
Definition isoDate (tv : Z) : string :=
  String.append (JSDate.yearString (JSDate.YearFromTime tv))
    (String.append "-"
       (String.append (JSDate.padDigits 2 (JSDate.MonthFromTime tv + 1))
          (String.append "-"
             (JSDate.padDigits 2 (JSDate.DateFromTime tv))))).

(** The text [s] holds no [T]: cutting it before the first [T] gives it
    back. *)
Definition NoT (s : string) : Prop := HackatimeRoute.beforeT s = s.

(** The text [YYYY-MM-DD] of a calendar date, as the calendar adapter
    passes it on. *)
Definition dateText (y m d : Z) : string :=
  String.append (JSDate.padDigits 4 y)
    (String.append "-"
       (String.append (JSDate.padDigits 2 m)
          (String.append "-" (JSDate.padDigits 2 d)))).

(** * Further parts of the sources *)

(** ** The cells of the contribution grid *)

Definition GITHUB_LEVEL_COLORS : list string :=
  [ "rgba(255, 255, 255, 0.04)"; "#0e4429"; "#006d32"; "#26a641";
    "#39d353" ]%string.

(** [GITHUB_LEVEL_COLORS[getGitHubLevel(day.contributionCount)]], the
    background of a cell; [None] is [undefined]. *)
Definition cellColor (day : GitHubContributionDay) : option string :=
  let level := getGitHubLevel (contributionCount day) in
  if level <? 0 then None
  else nth_error GITHUB_LEVEL_COLORS (Z.to_nat level).

(** A week with days. *)
Definition hasDays (week : GitHubContributionWeek) : bool :=
  match contributionDays week with
  | [] => false
  | _ :: _ => true
  end.

(** A week made of one day. *)
Definition weekOfDay (day : GitHubContributionDay) : GitHubContributionWeek :=
  {| contributionDays := [day] |}.

(** ** More on the month labels *)

(** The months found for two labels differ, in the sense of [!==]. *)
Definition monthsDiffer (zone : JSDate.TimeZone) (ws : list GitHubContributionWeek)
    (a b : MonthLabel) : Prop :=
  exists ma mb,
    monthAtCol zone ws (col a) = Some ma /\
    monthAtCol zone ws (col b) = Some mb /\
    strictNotEqual mb ma = true.

(** [R] holds of every two neighbours of a list. *)
Definition Adjacent {A : Type} (R : A -> A -> Prop) (l : list A) : Prop :=
  forall pre a b post, l = pre ++ a :: b :: post -> R a b.

(** What holds of the callback's variables after any weeks [ws], with or
    without days. *)
Definition LabelsWellFormed (zone : JSDate.TimeZone) (ws : list GitHubContributionWeek)
    (st : LabelState) : Prop :=
  index st = Z.of_nat (List.length ws) /\
  Forall (fun l => 0 <= col l < Z.of_nat (List.length ws) /\
                   exists month, monthAtCol zone ws (col l) = Some month /\
                                 label l = monthLabelAt month) (labels st) /\
  StronglySorted Z.lt (map col (labels st)) /\
  match last (map Some (labels st)) None with
  | None => lastMonth st = Num (-1)
  | Some prev => monthAtCol zone ws (col prev) = Some (lastMonth st)
  end /\
  Adjacent (monthsDiffer zone ws) (labels st) /\
  (List.length (labels st) <= List.length (filter hasDays ws))%nat.

(** The sum of the spans of the label row, in columns. *)
Definition totalSpan (spans : list Z) : Z := fold_right Z.add 0 spans.

(** Every week that has days starts on a day whose date is the text of a
    calendar date with a four-digit year. *)
Definition weeksStartOnDates (ws : list GitHubContributionWeek) : Prop :=
  forall week firstDay rest,
    In week ws -> contributionDays week = firstDay :: rest ->
    exists y m d, 0 <= y <= 9999 /\ validDate y m d /\
                  date firstDay = dateText y m d.

(** ** The bars of the language chart *)

Definition LANGUAGE_COLORS : list string :=
  [ "#39d353"; "#58a6ff"; "#d2a8ff"; "#f78166";
    "#ffd700"; "#ff7eb6"; "#79c0ff"; "#7ee787" ]%string.

(** [lang.color || LANGUAGE_COLORS[i % LANGUAGE_COLORS.length]], the
    background of the bar at index [i]; [None] is [undefined]. *)
Definition barColor (i : nat) (lang : HackatimeLanguage.t) : option string :=
  if missing (HackatimeLanguage.color lang)
  then nth_error LANGUAGE_COLORS
         (Z.to_nat (Z.of_nat i mod Z.of_nat (List.length LANGUAGE_COLORS)))
  else HackatimeLanguage.color lang.

(** The colours of the bars [topLanguages.map((lang, i) => ...)] renders. *)
Definition barColors (hackatimeData : option HackatimeData.t)
  : list (option string) :=
  let top := topLanguages hackatimeData in
  map (fun il : nat * HackatimeLanguage.t => barColor (fst il) (snd il))
      (combine (seq 0 (List.length top)) top).

(** A width between 0 and 100 percent. *)
Definition withinTrack (w : double) : Prop :=
  match w with
  | Finite q => (0 <= q /\ q <= 100)%Q
  | _ => False
  end.

(** ** More on the request handlers *)

(** The field [key] of a JSON object; [None] when the value is no object
    or has no such field. *)
Definition field (key : string) (v : json) : option json :=
  match v with
  | JObject fields => lookup key fields
  | _ => None
  end.

(** The calendar inside an upstream payload:
    [data.data.user.contributionsCollection.contributionCalendar], when
    every step of the path is there. *)
Definition calendarOf (data : json) : option json :=
  match field "data" data with
  | Some d =>
      match field "user" d with
      | Some user =>
          match field "contributionsCollection" user with
          | Some collection => field "contributionCalendar" collection
          | None => None
          end
      | None => None
      end
  | None => None
  end.

(** The body of an error answer. *)
Definition errorJson (message : string) : json :=
  JObject [("error"%string, JString message)].

(** The calls to [console.error] recorded in a trace. *)
Definition consoleErrors (tr : list Event) : list (string * JsError) :=
  flat_map (fun ev => match ev with
                      | Fetched _ => []
                      | ConsoleError prefix e => [(prefix, e)]
                      end) tr.

(** A configured value: set and not empty. *)
Definition configured (v : option string) (s : string) : Prop :=
  v = Some s /\ s <> ""%string.

(** A transport that answers every request with the given status and
    payload. *)
Definition answering (st : Z) (payload : option json) : Transport :=
  fun _ => Responded st payload.

Definition exampleCalendarPayload : json :=
  JObject [("data"%string, JObject [("user"%string,
     JObject [("contributionsCollection"%string,
        JObject [("contributionCalendar"%string,
           JObject [("totalContributions"%string, JNumber 7);
                    ("weeks"%string, JArray [])])])])])].

Definition exampleErrorsPayload : json :=
  JObject [("errors"%string,
            JArray [JObject [("message"%string,
                              JString "Bad credentials")]]);
           ("data"%string, JNull)].

(** ** What the component shows *)

Definition RANGE_OPTIONS : list (string * string) :=
  [ ("last_7_days", "7 Days"); ("last_30_days", "30 Days");
    ("last_6_months", "6 Months"); ("last_year", "1 Year") ]%string.

(** The pills drawn as active: [activeRange === option.value]. *)
Definition highlightedPills (s : Component.ComponentState)
  : list (string * string) :=
  filter (fun option => String.eqb (Component.activeRange s) (fst option))
         RANGE_OPTIONS.

Inductive View : Type :=
| Spinner
| ErrorMessage
| Visualization.

(** The three conditional blocks of the calendar column: [loadingGithub
    && ...], [errorGithub && ...] and
    [!loadingGithub && !errorGithub && githubData && ...]. *)
Definition githubViews (s : Component.ComponentState) : list View :=
  (if Component.loadingGithub s then [Spinner] else [])
  ++ (if Component.errorGithub s then [ErrorMessage] else [])
  ++ (if negb (Component.loadingGithub s) && negb (Component.errorGithub s)
         && match Component.githubData s with
            | Some _ => true
            | None => false
            end
      then [Visualization] else []).




(** The fetches so far: the calendar once, then the time-tracking ranges
    [ranges], the last of which is the active one. *)
Definition FetchLog (m : Component.Mounted) : Prop :=
  exists ranges,
    Component.fetched m
    = "/api/github"%string
      :: map Component.hackatimeUrl ("last_year"%string :: ranges) /\
    last ("last_year"%string :: ranges) ""%string
    = Component.activeRange (Component.state m) /\
    Adjacent (fun a b : string => a <> b) ("last_year"%string :: ranges).

(** The user changes the range through the pills only. *)
Definition clicksOnPills (actions : list Component.Action) : Prop :=
  Forall (fun a => match a with
                   | Component.RangeClicked range =>
                       In range (map fst RANGE_OPTIONS)
                   | _ => True
                   end) actions.

(** The start of the window of the adapter for the value of a pill: one
    of the four branches that precede the ten-year default. *)
Definition pillWindowStart (zone : JSDate.TimeZone) (now : Z) (range : string)
  : Z :=
  if String.eqb range "last_7_days" then localDaysBack zone now 7
  else if String.eqb range "last_30_days" then localDaysBack zone now 30
  else if String.eqb range "last_6_months" then monthsBack zone now 6
  else yearsBack zone now 1.

(** The URLs fetched so far ask for the calendar or for the time
    tracked over one of the ranges [allowed]. *)
Definition fetchedWithin (allowed : list string) (m : Component.Mounted)
  : Prop :=
  Forall (fun url => url = "/api/github"%string \/
                     exists range, In range allowed /\
                                   url = Component.hackatimeUrl range)
         (Component.fetched m).

(** ** Durations as text *)

From Stdlib Require Import DecimalString DecimalZ DecimalPos.

(** The text of a whole number in a template literal, [`${n}`]: plain
    decimal digits, with a minus sign when negative (the form used below
    10^21 in absolute value). *)
Definition numberToString (z : Z) : string :=
  NilZero.string_of_int (Z.to_int z).

(** [formatTime] on a whole number of seconds: [Math.floor] of the
    quotient is the floor division, [%] the remainder with the sign of the
    dividend. *)
Definition formatTime (totalSeconds : Z) : string :=
  let hours := totalSeconds / 3600 in
  let minutes := Z.rem totalSeconds 3600 / 60 in
  if 1 <=? hours
  then String.append (numberToString hours)
         (String.append "h "
            (String.append (numberToString minutes) "m"))
  else String.append (numberToString minutes) "m".

Definition isDigit (c : ascii) : bool :=
  match JSDate.digitValue c with
  | Some _ => true
  | None => false
  end.

(** The digits a text starts with, and what follows them. *)
Fixpoint leadingDigits (s : string) : string :=
  match s with
  | String c rest =>
      if isDigit c then String c (leadingDigits rest) else EmptyString
  | EmptyString => EmptyString
  end.

Fixpoint afterDigits (s : string) : string :=
  match s with
  | String c rest => if isDigit c then afterDigits rest else s
  | EmptyString => EmptyString
  end.

(** No action of the history is a click on a range. *)
Definition noRangeClick (actions : list Component.Action) : Prop :=
  Forall (fun a => match a with
                   | Component.RangeClicked _ => False
                   | _ => True
                   end) actions.
(** ** Properties of the activity level *)

Lemma getGitHubLevel_cases (c : Z) :
  0 <= c ->
  (c = 0 /\ getGitHubLevel c = 0) \/
  (1 <= c <= 3 /\ getGitHubLevel c = 1) \/
  (4 <= c <= 6 /\ getGitHubLevel c = 2) \/
  (7 <= c <= 9 /\ getGitHubLevel c = 3) \/
  (10 <= c /\ getGitHubLevel c = 4).
Proof.
  intros Hc. unfold getGitHubLevel.
  destruct (Z.eqb_spec c 0) as [E0 | N0]; [left; lia |].
  destruct (Z.leb_spec c 3); [right; left; lia |].
  destruct (Z.leb_spec c 6); [right; right; left; lia |].
  destruct (Z.leb_spec c 9); [right; right; right; left; lia |].
  right; right; right; right; lia.
Qed.

(** C2: on a non-negative count the level is 0 at 0, 1 on 1..3, 2 on 4..6,
    3 on 7..9 and 4 from 10 on; hence it lies in 0..4 and is monotonically
    non-decreasing. *)
Theorem getGitHubLevel_thresholds :
  forall c : Z, 0 <= c ->
    (c = 0 -> getGitHubLevel c = 0) /\
    (1 <= c <= 3 -> getGitHubLevel c = 1) /\
    (4 <= c <= 6 -> getGitHubLevel c = 2) /\
    (7 <= c <= 9 -> getGitHubLevel c = 3) /\
    (10 <= c -> getGitHubLevel c = 4) /\
    0 <= getGitHubLevel c <= 4 /\
    (forall c' : Z, c <= c' -> getGitHubLevel c <= getGitHubLevel c').
Proof.
  intros c Hc.
  pose proof (getGitHubLevel_cases c Hc) as Hcases.
  repeat split; try (intros; lia).
  intros c' Hle.
  pose proof (getGitHubLevel_cases c' ltac:(lia)). lia.
Qed.

Lemma getGitHubLevel_thresholds_witness :
  getGitHubLevel 0 = 0 /\ getGitHubLevel 3 = 1 /\ getGitHubLevel 4 = 2 /\
  getGitHubLevel 6 = 2 /\ getGitHubLevel 7 = 3 /\ getGitHubLevel 9 = 3 /\
  getGitHubLevel 10 = 4 /\ getGitHubLevel 5 <= getGitHubLevel 8.
Proof.
  pose proof (getGitHubLevel_thresholds 5 ltac:(lia)) as H.
  repeat split; try reflexivity.
  apply H. lia.
Defined.

(** Case analysis on an innermost scrutinee of the goal. *)
Ltac destruct_scrutinee :=
  match goal with
  | |- context [match ?x with _ => _ end] =>
      lazymatch x with
      | context [match _ with _ => _ end] => fail
      | _ => destruct x
      end
  end.

(** ** List splitting *)

Lemma list_snoc_cases {A : Type} (l : list A) :
  l = [] \/ exists l' x, l = l' ++ [x].
Proof.
  induction l as [| x l' _] using rev_ind; [left | right]; eauto.
Qed.

(** Two ways of cutting one list in two share a middle piece. *)
Lemma app_split_cases {A : Type} (l1 l2 r1 r2 : list A) :
  l1 ++ l2 = r1 ++ r2 ->
  exists m, (l1 = r1 ++ m /\ r2 = m ++ l2) \/ (r1 = l1 ++ m /\ l2 = m ++ r2).
Proof.
  revert r1. induction l1 as [| a l1 IH]; intros r1 H.
  - exists r1. right. split; [reflexivity | exact H].
  - destruct r1 as [| b r1].
    + exists (a :: l1). left. split; [reflexivity | symmetry; exact H].
    + simpl in H. injection H as -> H.
      destruct (IH r1 H) as [m [[-> ->] | [-> ->]]]; exists m;
        [left | right]; split; reflexivity.
Qed.

Lemma firstn_snoc_nth_error {A : Type} (l : list A) (i : nat) (x : A) :
  nth_error l i = Some x -> firstn (S i) l = firstn i l ++ [x].
Proof.
  revert i. induction l as [| a l IH]; intros [| i] H; simpl in *;
    try discriminate.
  - injection H as ->. reflexivity.
  - rewrite (IH i H). reflexivity.
Qed.

(** ** Properties of the streak computation *)

Lemma hasContribution_active (day : GitHubContributionDay) :
  hasContribution day = true <-> active day.
Proof. unfold hasContribution, active. apply Z.ltb_lt. Qed.

Lemma hasContribution_inactive (day : GitHubContributionDay) :
  hasContribution day = false <-> ~ active day.
Proof.
  unfold hasContribution, active. rewrite Z.ltb_ge. lia.
Qed.

Lemma forwardLoop_snoc (pre : list GitHubContributionDay) day :
  forwardLoop (pre ++ [day]) = forwardStep (forwardLoop pre) day.
Proof. unfold forwardLoop. rewrite fold_left_app. reflexivity. Qed.

(** *** Trailing runs *)

Lemma trailing_nil : trailing_run_length [] 0.
Proof.
  exists [], []. repeat split; auto.
Qed.

Lemma trailing_snoc_active days n day :
  trailing_run_length days n -> active day ->
  trailing_run_length (days ++ [day]) (n + 1).
Proof.
  intros (pre & suf & -> & Hall & Hlen & Hstop) Hday.
  exists pre, (suf ++ [day]). repeat split.
  - now rewrite app_assoc.
  - apply Forall_app. split; [assumption | now constructor].
  - rewrite length_app. simpl. lia.
  - exact Hstop.
Qed.

Lemma trailing_snoc_inactive days day :
  ~ active day -> trailing_run_length (days ++ [day]) 0.
Proof.
  intros Hday. exists (days ++ [day]), []. repeat split.
  - now rewrite app_nil_r.
  - constructor.
  - right. exists days, day. split; [reflexivity | assumption].
Qed.

(** No block of positive days at the end of the sequence is longer than
    the counted one. *)
Lemma trailing_maximal days n :
  trailing_run_length days n ->
  forall pre suf, days = pre ++ suf -> Forall active suf ->
    Z.of_nat (List.length suf) <= n.
Proof.
  intros (pre0 & suf0 & -> & Hall0 & Hlen0 & Hstop) pre suf Heq Hall.
  destruct (app_split_cases _ _ _ _ Heq) as [m [[Hp Hs] | [Hp Hs]]].
  - (* [suf0] is a suffix of [suf]: [suf = m ++ suf0] *)
    subst suf.
    destruct (list_snoc_cases m) as [-> | (m' & x & ->)].
    + simpl. lia.
    + exfalso.
      destruct Hstop as [-> | (pre' & day & -> & Hday)].
      * destruct pre; destruct m'; discriminate.
      * rewrite app_assoc in Hp. apply app_inj_tail in Hp as [_ <-].
        apply Hday.
        apply Forall_app in Hall as [Hm _].
        apply Forall_app in Hm as [_ Hx].
        now inversion Hx.
  - subst suf0. rewrite length_app in Hlen0. lia.
Qed.

Lemma trailing_is_run days n :
  trailing_run_length days n ->
  exists run, run_in days run /\ Z.of_nat (List.length run) = n.
Proof.
  intros (pre & suf & -> & Hall & Hlen & _).
  exists suf. split; [| assumption].
  split; [assumption |]. exists pre, []. now rewrite app_nil_r.
Qed.

Lemma trailing_unique days n m :
  trailing_run_length days n -> trailing_run_length days m -> n = m.
Proof.
  intros Hn Hm.
  assert (n <= m).
  { destruct Hn as (pre & suf & E & Hall & <- & _).
    exact (trailing_maximal _ _ Hm _ _ E Hall). }
  assert (m <= n).
  { destruct Hm as (pre & suf & E & Hall & <- & _).
    exact (trailing_maximal _ _ Hn _ _ E Hall). }
  lia.
Qed.

(** *** Runs *)

Lemma run_in_nil days : run_in days [].
Proof.
  split; [constructor |]. exists days, []. now rewrite app_nil_r.
Qed.

Lemma run_in_weaken days day run :
  run_in days run -> run_in (days ++ [day]) run.
Proof.
  intros [Hall (pre & post & ->)]. split; [assumption |].
  exists pre, (post ++ [day]). now rewrite <- !app_assoc.
Qed.

(** A run of [days ++ [day]] either lies within [days] or ends at [day]
    and continues a run at the end of [days]. *)
Lemma run_in_snoc_cases days day run :
  run_in (days ++ [day]) run ->
  run_in days run \/
  (active day /\
   exists p run', run = run' ++ [day] /\ days = p ++ run' /\
                  Forall active run').
Proof.
  intros [Hall (p & post & Heq)].
  destruct (list_snoc_cases post) as [-> | (post' & x & ->)].
  - rewrite app_nil_r in Heq.
    destruct (list_snoc_cases run) as [-> | (run' & x & ->)].
    + left. apply run_in_nil.
    + right. rewrite app_assoc in Heq.
      apply app_inj_tail in Heq as [-> ->].
      apply Forall_app in Hall as [Hrun' Hx].
      split; [now inversion Hx |].
      exists p, run'. auto.
  - left. rewrite !app_assoc in Heq.
    apply app_inj_tail in Heq as [-> _].
    split; [assumption |]. exists p, post'. now rewrite app_assoc.
Qed.

Lemma max_run_length_nil : max_run_length [] 0.
Proof.
  split.
  - exists []. split; [apply run_in_nil | reflexivity].
  - intros run [_ (pre & post & Heq)].
    symmetry in Heq. apply app_eq_nil in Heq as [_ Heq].
    apply app_eq_nil in Heq as [-> _]. simpl. lia.
Qed.

Lemma max_run_length_snoc_active days day longest temp :
  max_run_length days longest -> trailing_run_length days temp ->
  active day ->
  max_run_length (days ++ [day]) (Z.max longest (temp + 1)).
Proof.
  intros [(r & Hr & Hrlen) Hmax] Htrail Hday. split.
  - destruct (Z.max_spec longest (temp + 1)) as [[_ ->] | [_ ->]].
    + destruct (trailing_is_run _ _ (trailing_snoc_active _ _ _ Htrail Hday))
        as (r' & Hr' & Hlen').
      exists r'. auto.
    + exists r. split; [now apply run_in_weaken | assumption].
  - intros run Hrun.
    destruct (run_in_snoc_cases _ _ _ Hrun)
      as [Hin | (_ & p & run' & -> & Hdays & Hall)].
    + specialize (Hmax run Hin). lia.
    + pose proof (trailing_maximal _ _ Htrail _ _ Hdays Hall) as Hle.
      rewrite length_app. simpl. lia.
Qed.

Lemma max_run_length_snoc_inactive days day longest :
  max_run_length days longest -> ~ active day ->
  max_run_length (days ++ [day]) longest.
Proof.
  intros [(r & Hr & Hrlen) Hmax] Hday. split.
  - exists r. split; [now apply run_in_weaken | assumption].
  - intros run Hrun.
    destruct (run_in_snoc_cases _ _ _ Hrun) as [Hin | (Hact & _)].
    + exact (Hmax run Hin).
    + contradiction.
Qed.

Lemma max_run_length_unique days n m :
  max_run_length days n -> max_run_length days m -> n = m.
Proof.
  intros [(r1 & Hr1 & <-) H1] [(r2 & Hr2 & <-) H2].
  specialize (H1 _ Hr2). specialize (H2 _ Hr1). lia.
Qed.

(** The invariant of the first loop: after any prefix of the days,
    [longestStreak] is the maximum run length of the prefix and
    [tempStreak] the length of the run at its end. *)
Lemma forwardLoop_invariant days :
  max_run_length days (fst (forwardLoop days)) /\
  trailing_run_length days (snd (forwardLoop days)).
Proof.
  induction days as [| day days [IHmax IHtrail]] using rev_ind.
  - split; [apply max_run_length_nil | apply trailing_nil].
  - rewrite forwardLoop_snoc.
    destruct (forwardLoop days) as [longest temp]. simpl in *.
    destruct (hasContribution day) eqn:Hday; simpl.
    + apply hasContribution_active in Hday. split.
      * now apply max_run_length_snoc_active.
      * now apply trailing_snoc_active.
    + apply hasContribution_inactive in Hday. split.
      * now apply max_run_length_snoc_inactive.
      * now apply trailing_snoc_inactive.
Qed.

(** The second loop adds to its counter the length of the run at the end
    of the first [k] days. *)
Lemma backwardLoop_trailing days :
  forall (k : nat) (current : Z), (k <= List.length days)%nat ->
    exists n, backwardLoop days k current = current + n /\
              trailing_run_length (firstn k days) n.
Proof.
  induction k as [| i IH]; intros current Hk.
  - exists 0. split; [simpl; lia | apply trailing_nil].
  - simpl backwardLoop.
    destruct (nth_error days i) as [day |] eqn:Hnth.
    + rewrite (firstn_snoc_nth_error _ _ _ Hnth).
      destruct (hasContribution day) eqn:Hday.
      * apply hasContribution_active in Hday.
        destruct (IH (current + 1) ltac:(lia)) as (n & -> & Htrail).
        exists (n + 1). split; [lia |].
        now apply trailing_snoc_active.
      * apply hasContribution_inactive in Hday.
        exists 0. split; [lia |]. now apply trailing_snoc_inactive.
    + apply nth_error_None in Hnth. lia.
Qed.

(** Every index the second loop reads is inside the array. *)
Lemma backwardLoop_in_range (days : list GitHubContributionDay) (i : nat) :
  (S i <= List.length days)%nat -> nth_error days i <> None.
Proof. intros H. apply nth_error_Some. lia. Qed.

Lemma computeGitHubStreaks_longest ws :
  max_run_length (allDaysOf ws) (longestStreak (computeGitHubStreaks ws)).
Proof. apply forwardLoop_invariant. Qed.

Lemma computeGitHubStreaks_current ws :
  trailing_run_length (allDaysOf ws) (currentStreak (computeGitHubStreaks ws)).
Proof.
  unfold computeGitHubStreaks. simpl.
  destruct (backwardLoop_trailing (allDaysOf ws)
              (List.length (allDaysOf ws)) 0 (le_n _)) as (n & -> & Htrail).
  rewrite firstn_all in Htrail. exact Htrail.
Qed.

(** Both loops only read the counts of the days. *)
Lemma forwardLoop_counts days days' :
  map contributionCount days = map contributionCount days' ->
  forwardLoop days = forwardLoop days'.
Proof.
  unfold forwardLoop. generalize (0, 0).
  revert days'. induction days as [| d days IH]; intros [| d' days'] st H;
    try discriminate; [reflexivity |].
  simpl in H. injection H as Hd H. simpl.
  replace (forwardStep st d') with (forwardStep st d).
  - now apply IH.
  - unfold forwardStep, hasContribution. now rewrite Hd.
Qed.

Lemma nth_error_counts days days' i :
  map contributionCount days = map contributionCount days' ->
  option_map contributionCount (nth_error days i) =
  option_map contributionCount (nth_error days' i).
Proof.
  intros H. rewrite <- !nth_error_map. now rewrite H.
Qed.

Lemma backwardLoop_counts days days' :
  map contributionCount days = map contributionCount days' ->
  forall k current, backwardLoop days k current = backwardLoop days' k current.
Proof.
  intros H. induction k as [| i IH]; intros current; [reflexivity |].
  simpl. pose proof (nth_error_counts _ _ i H) as Hi.
  destruct (nth_error days i) as [d |], (nth_error days' i) as [d' |];
    simpl in Hi; try discriminate; [| reflexivity].
  injection Hi as Hd. unfold hasContribution. rewrite Hd.
  now rewrite IH.
Qed.

Lemma computeGitHubStreaks_counts ws ws' :
  map contributionCount (allDaysOf ws) = map contributionCount (allDaysOf ws') ->
  computeGitHubStreaks ws = computeGitHubStreaks ws'.
Proof.
  intros H. unfold computeGitHubStreaks.
  rewrite (forwardLoop_counts _ _ H), (backwardLoop_counts _ _ H).
  apply (f_equal (@List.length Z)) in H. rewrite !length_map in H.
  now rewrite H.
Qed.

Lemma no_active_run_nil days run :
  (forall day, In day days -> ~ active day) -> run_in days run -> run = [].
Proof.
  intros Hnone [Hall (pre & post & ->)].
  destruct run as [| d run]; [reflexivity | exfalso].
  apply (Hnone d).
  - apply in_or_app. right. now left.
  - now inversion Hall.
Qed.

(** C1: [longestStreak] is the maximum length of a run of consecutive days
    with a positive count (0 without such a day), [currentStreak] the
    number of positive days counted backward from the end up to the first
    day without a contribution or the start; counts [1,0,2,3,0,0,5] give
    longest 2 and current 1, and without a positive day both are 0. *)
Theorem computeGitHubStreaks_spec :
  forall ws : list GitHubContributionWeek,
    let r := computeGitHubStreaks ws in
    max_run_length (allDaysOf ws) (longestStreak r) /\
    trailing_run_length (allDaysOf ws) (currentStreak r) /\
    (map contributionCount (allDaysOf ws) = [1; 0; 2; 3; 0; 0; 5] ->
     longestStreak r = 2 /\ currentStreak r = 1) /\
    ((forall day, In day (allDaysOf ws) -> ~ active day) ->
     currentStreak r = 0 /\ longestStreak r = 0).
Proof.
  intros ws r. subst r.
  pose proof (computeGitHubStreaks_longest ws) as Hlong.
  pose proof (computeGitHubStreaks_current ws) as Hcur.
  split; [exact Hlong |]. split; [exact Hcur |]. split.
  - intros Hcounts.
    rewrite (computeGitHubStreaks_counts ws
               [weekWithCounts [1; 0; 2; 3; 0; 0; 5]]); [split; reflexivity |].
    rewrite Hcounts. reflexivity.
  - intros Hnone. split.
    + destruct (trailing_is_run _ _ Hcur) as (r & Hr & Hrlen).
      rewrite (no_active_run_nil _ _ Hnone Hr) in Hrlen.
      rewrite <- Hrlen. reflexivity.
    + destruct Hlong as [(r & Hr & Hrlen) _].
      rewrite (no_active_run_nil _ _ Hnone Hr) in Hrlen.
      rewrite <- Hrlen. reflexivity.
Qed.

Lemma computeGitHubStreaks_spec_witness :
  (let r := computeGitHubStreaks
              [weekWithCounts [1; 0; 2]; weekWithCounts [3; 0; 0; 5]] in
   longestStreak r = 2 /\ currentStreak r = 1) /\
  (let r := computeGitHubStreaks
              [weekWithCounts [0; 0]; weekWithCounts []; weekWithCounts [0]] in
   currentStreak r = 0 /\ longestStreak r = 0).
Proof.
  split.
  - exact (proj1 (proj2 (proj2 (computeGitHubStreaks_spec
             [weekWithCounts [1; 0; 2]; weekWithCounts [3; 0; 0; 5]])))
             eq_refl).
  - refine (proj2 (proj2 (proj2 (computeGitHubStreaks_spec
             [weekWithCounts [0; 0]; weekWithCounts []; weekWithCounts [0]])))
             _).
    intros day Hin. unfold active. simpl in Hin.
    destruct Hin as [<- | [<- | [<- | []]]]; simpl; lia.
Defined.

(** C10: both streaks are non-negative and the current streak never
    exceeds the longest one, the trailing run being one of the runs. *)
Theorem computeGitHubStreaks_current_le_longest :
  forall ws : list GitHubContributionWeek,
    0 <= currentStreak (computeGitHubStreaks ws) /\
    0 <= longestStreak (computeGitHubStreaks ws) /\
    currentStreak (computeGitHubStreaks ws) <=
    longestStreak (computeGitHubStreaks ws).
Proof.
  intros ws.
  pose proof (computeGitHubStreaks_longest ws) as [_ Hmax].
  destruct (trailing_is_run _ _ (computeGitHubStreaks_current ws))
    as (r & Hr & Hrlen).
  specialize (Hmax r Hr). lia.
Qed.

(** ** The calendar of the host *)

Module JSDateFacts.
Import JSDate.

Lemma DayFromYear_step (y : Z) :
  DayFromYear (y + 1) - DayFromYear y = DaysInYear y.
Proof.
  unfold DayFromYear, DaysInYear, isLeapYear.
  replace (y + 1 - 1969) with (y - 1968) by lia.
  replace (y + 1 - 1901) with (y - 1900) by lia.
  replace (y + 1 - 1601) with (y - 1600) by lia.
  replace (y + 1 - 1970) with (y - 1969) by lia.
  assert (H4 : (y - 1968) / 4 - (y - 1969) / 4
               = if y mod 4 =? 0 then 1 else 0).
  { destruct (Z.eqb_spec (y mod 4) 0); Z.div_mod_to_equations; lia. }
  assert (H100 : (y - 1900) / 100 - (y - 1901) / 100
                 = if y mod 100 =? 0 then 1 else 0).
  { destruct (Z.eqb_spec (y mod 100) 0); Z.div_mod_to_equations; lia. }
  assert (H400 : (y - 1600) / 400 - (y - 1601) / 400
                 = if y mod 400 =? 0 then 1 else 0).
  { destruct (Z.eqb_spec (y mod 400) 0); Z.div_mod_to_equations; lia. }
  assert (Hd1 : y mod 400 = 0 -> y mod 100 = 0)
    by (Z.div_mod_to_equations; lia).
  assert (Hd2 : y mod 100 = 0 -> y mod 4 = 0)
    by (Z.div_mod_to_equations; lia).
  destruct (Z.eqb_spec (y mod 4) 0), (Z.eqb_spec (y mod 100) 0),
    (Z.eqb_spec (y mod 400) 0); cbn [negb andb orb]; lia.
Qed.

Lemma DayFromYear_mean (y : Z) :
  146097 * (y - 1970) - 600 <= 400 * DayFromYear y
  <= 146097 * (y - 1970) + 600.
Proof. unfold DayFromYear. Z.div_mod_to_equations. lia. Qed.

(** [YearFromDay d] is the year that contains day [d]. *)
Lemma YearFromDay_spec (d : Z) :
  DayFromYear (YearFromDay d) <= d < DayFromYear (YearFromDay d + 1).
Proof.
  unfold YearFromDay.
  set (y := 1970 + (400 * d) / 146097).
  assert (Hy : 146097 * (y - 1970) <= 400 * d
               < 146097 * (y - 1970) + 146097)
    by (subst y; Z.div_mod_to_equations; lia).
  pose proof (DayFromYear_mean (y - 1)) as Hm1.
  pose proof (DayFromYear_mean (y + 2)) as Hp2.
  destruct (Z.leb_spec (DayFromYear (y + 1)) d) as [H1 | H1];
    [| destruct (Z.leb_spec (DayFromYear y) d) as [H0 | H0]].
  - replace (y + 1 + 1) with (y + 2) by lia. lia.
  - lia.
  - replace (y - 1 + 1) with y by lia. lia.
Qed.

Lemma DaysInYear_pos (y : Z) : 365 <= DaysInYear y <= 366.
Proof. unfold DaysInYear. destruct (isLeapYear y); lia. Qed.

Lemma DayFromYear_mono (y y' : Z) :
  y <= y' -> DayFromYear y <= DayFromYear y'.
Proof.
  intros H. replace y' with (y + Z.of_nat (Z.to_nat (y' - y))) by lia.
  induction (Z.to_nat (y' - y)) as [| n IH].
  - replace (y + Z.of_nat 0) with y by lia. lia.
  - replace (y + Z.of_nat (S n)) with (y + Z.of_nat n + 1) by lia.
    pose proof (DayFromYear_step (y + Z.of_nat n)).
    pose proof (DaysInYear_pos (y + Z.of_nat n)). lia.
Qed.

(** The year of a day is determined by the year's first and last day. *)
Lemma YearFromDay_unique (y d : Z) :
  DayFromYear y <= d < DayFromYear (y + 1) -> YearFromDay d = y.
Proof.
  intros Hd. pose proof (YearFromDay_spec d) as Hs.
  destruct (Z.lt_trichotomy (YearFromDay d) y) as [Hlt | [Heq | Hgt]];
    [exfalso | exact Heq | exfalso].
  - pose proof (DayFromYear_mono (YearFromDay d + 1) y ltac:(lia)). lia.
  - pose proof (DayFromYear_mono (y + 1) (YearFromDay d) ltac:(lia)). lia.
Qed.

Lemma DayWithinYear_range (t : Z) :
  0 <= DayWithinYear t < DaysInYear (YearFromTime t).
Proof.
  unfold DayWithinYear, YearFromTime.
  pose proof (YearFromDay_spec (Day t)).
  pose proof (DayFromYear_step (YearFromDay (Day t))). lia.
Qed.

Lemma monthOfDayWithinYear_range (dwy leap : Z) :
  0 <= monthOfDayWithinYear dwy leap <= 11.
Proof.
  unfold monthOfDayWithinYear.
  repeat match goal with
         | |- context [if ?b then _ else _] => destruct b
         end; lia.
Qed.

Lemma MonthFromTime_range (t : Z) : 0 <= MonthFromTime t <= 11.
Proof. apply monthOfDayWithinYear_range. Qed.

Lemma Day_MakeDate (day time : Z) :
  0 <= time < msPerDay -> Day (MakeDate day time) = day.
Proof.
  intros H. unfold Day, MakeDate, msPerDay in *.
  Z.div_mod_to_equations. lia.
Qed.

Lemma TimeWithinDay_MakeDate (day time : Z) :
  0 <= time < msPerDay -> TimeWithinDay (MakeDate day time) = time.
Proof.
  intros H. unfold TimeWithinDay, MakeDate, msPerDay in *.
  Z.div_mod_to_equations. lia.
Qed.

Lemma TimeWithinDay_range (t : Z) : 0 <= TimeWithinDay t < msPerDay.
Proof. unfold TimeWithinDay, msPerDay. apply Z.mod_pos_bound. lia. Qed.

Lemma MakeDate_Day_TimeWithinDay (t : Z) :
  MakeDate (Day t) (TimeWithinDay t) = t.
Proof.
  unfold MakeDate, Day, TimeWithinDay, msPerDay.
  Z.div_mod_to_equations. lia.
Qed.

(** Rebuilding the day of [t] from its own year, month and date. *)
Lemma MakeDay_fields (t delta : Z) :
  MakeDay (YearFromTime t) (MonthFromTime t) (DateFromTime t + delta)
  = Day t + delta.
Proof.
  unfold MakeDay.
  pose proof (MonthFromTime_range t) as Hm.
  rewrite (Z.div_small (MonthFromTime t) 12) by lia.
  rewrite (Z.mod_small (MonthFromTime t) 12) by lia.
  rewrite Z.add_0_r.
  unfold DateFromTime, DayWithinYear, InLeapYear. lia.
Qed.

(** A calendar date is recovered from the time value built for it. *)
Lemma fields_of_MakeDay (y m d time : Z) :
  validDate y (m + 1) d -> 0 <= time < msPerDay ->
  let t := MakeDate (MakeDay y m d) time in
  YearFromTime t = y /\ MonthFromTime t = m /\ DateFromTime t = d.
Proof.
  intros [Hm Hd] Htime t.
  replace (m + 1 - 1) with m in Hd by lia.
  set (leap := if isLeapYear y then 1 else 0).
  assert (Hday : Day t = DayFromYear y + monthStart m leap + d - 1).
  { subst t. rewrite Day_MakeDate by assumption. unfold MakeDay.
    rewrite (Z.div_small m 12), (Z.mod_small m 12) by lia.
    rewrite Z.add_0_r. reflexivity. }
  assert (Hleap : 0 <= leap <= 1) by (subst leap; destruct (isLeapYear y); lia).
  assert (Hk : 0 <= monthStart m leap + d - 1 < DaysInYear y).
  { unfold DaysInYear, daysInMonth in *. subst leap.
    assert (Hcases : m = 0 \/ m = 1 \/ m = 2 \/ m = 3 \/ m = 4 \/ m = 5 \/
                     m = 6 \/ m = 7 \/ m = 8 \/ m = 9 \/ m = 10 \/ m = 11)
      by lia.
    clear Hday Htime.
    destruct (isLeapYear y);
      repeat (destruct Hcases as [-> | Hcases];
              [cbn [monthStart] in *; lia |]);
      subst; cbn [monthStart] in *; lia. }
  assert (Hyear : YearFromTime t = y).
  { unfold YearFromTime. apply YearFromDay_unique.
    pose proof (DayFromYear_step y). lia. }
  assert (Hin : InLeapYear t = leap)
    by (unfold InLeapYear; now rewrite Hyear).
  assert (Hdwy : DayWithinYear t = monthStart m leap + d - 1)
    by (unfold DayWithinYear; rewrite Hyear; lia).
  assert (Hmonth : MonthFromTime t = m).
  { unfold MonthFromTime. rewrite Hdwy, Hin.
    unfold daysInMonth in Hd. fold leap in Hd.
    assert (Hcases : m = 0 \/ m = 1 \/ m = 2 \/ m = 3 \/ m = 4 \/ m = 5 \/
                     m = 6 \/ m = 7 \/ m = 8 \/ m = 9 \/ m = 10 \/ m = 11)
      by lia.
    assert (Hfeb : (if isLeapYear y then 29 else 28) = 28 + leap)
      by (subst leap; destruct (isLeapYear y); reflexivity).
    unfold monthOfDayWithinYear.
    repeat (destruct Hcases as [-> | Hcases];
            [cbn [monthStart] in *;
             repeat match goal with
                    | |- context [?a <? ?b] => destruct (Z.ltb_spec a b)
                    end; lia |]).
    subst m. cbn [monthStart] in *.
    repeat match goal with
           | |- context [?a <? ?b] => destruct (Z.ltb_spec a b)
           end; lia. }
  split; [exact Hyear |]. split; [exact Hmonth |].
  unfold DateFromTime. rewrite Hdwy, Hmonth, Hin. lia.
Qed.

(** The date of a time value is a date of its month. *)
Lemma DateFromTime_range (t : Z) :
  1 <= DateFromTime t <= daysInMonth (YearFromTime t) (MonthFromTime t).
Proof.
  pose proof (DayWithinYear_range t) as Hdwy.
  unfold DateFromTime, MonthFromTime, InLeapYear, DaysInYear, daysInMonth
    in *.
  set (dwy := DayWithinYear t) in *. clearbody dwy.
  unfold monthOfDayWithinYear.
  destruct (isLeapYear (YearFromTime t));
    repeat match goal with
           | |- context [?a <? ?b] => destruct (Z.ltb_spec a b)
           end; cbn [monthStart]; lia.
Qed.

End JSDateFacts.

(** ** The date texts of the host *)

Module TextFacts.
Import JSDate.

Lemma append_assoc (a b c : string) :
  String.append (String.append a b) c = String.append a (String.append b c).
Proof. induction a as [| ch a IH]; simpl; [reflexivity | now rewrite IH]. Qed.

Lemma beforeT_app (a b : string) :
  NoT a ->
  HackatimeRoute.beforeT (String.append a b)
  = String.append a (HackatimeRoute.beforeT b).
Proof.
  unfold NoT. induction a as [| ch a IH]; simpl; [reflexivity |].
  destruct (Ascii.eqb ch "T"%char); [discriminate |].
  intros [= H]. now rewrite IH.
Qed.

Lemma NoT_app (a b : string) : NoT a -> NoT b -> NoT (String.append a b).
Proof.
  intros Ha Hb. unfold NoT. rewrite beforeT_app by assumption.
  now rewrite Hb.
Qed.

Lemma digit_cases (d : Z) :
  0 <= d <= 9 ->
  d = 0 \/ d = 1 \/ d = 2 \/ d = 3 \/ d = 4 \/ d = 5 \/ d = 6 \/ d = 7 \/
  d = 8 \/ d = 9.
Proof. lia. Qed.

Lemma NoT_digit (d : Z) :
  0 <= d <= 9 -> NoT (String (digitChar d) EmptyString).
Proof.
  intros H. destruct (digit_cases d H) as
    [-> | [-> | [-> | [-> | [-> | [-> | [-> | [-> | [-> | ->]]]]]]]]];
    reflexivity.
Qed.

Lemma digitValue_digitChar (d : Z) :
  0 <= d <= 9 -> digitValue (digitChar d) = Some d.
Proof.
  intros H. destruct (digit_cases d H) as
    [-> | [-> | [-> | [-> | [-> | [-> | [-> | [-> | [-> | ->]]]]]]]]];
    reflexivity.
Qed.

Lemma NoT_padDigits (n : nat) (v : Z) : NoT (padDigits n v).
Proof.
  revert v. induction n as [| n IH]; intros v; [reflexivity |].
  simpl. apply NoT_app; [apply IH |].
  apply NoT_digit. pose proof (Z.mod_pos_bound v 10). lia.
Qed.

Lemma NoT_yearString (y : Z) : NoT (yearString y).
Proof.
  unfold yearString.
  destruct ((0 <=? y) && (y <=? 9999)); [apply NoT_padDigits |].
  apply NoT_app; [destruct (y <? 0); reflexivity | apply NoT_padDigits].
Qed.

(** The text the adapter sends is the calendar date of the UTC day. *)
Lemma fmt_isoDate (tv : Z) : HackatimeRoute.fmt tv = isoDate tv.
Proof.
  unfold HackatimeRoute.fmt, toISOString, isoDate.
  cbn [String.concat].
  cbn [String.append].
  rewrite beforeT_app by apply NoT_yearString. f_equal.
  cbn [HackatimeRoute.beforeT]. change (Ascii.eqb "-"%char "T"%char) with false.
  cbv iota. f_equal.
  rewrite beforeT_app by apply NoT_padDigits. f_equal.
  cbn [HackatimeRoute.beforeT]. change (Ascii.eqb "-"%char "T"%char) with false.
  cbv iota. f_equal.
  rewrite beforeT_app by apply NoT_padDigits.
  cbn [HackatimeRoute.beforeT]. change (Ascii.eqb "T"%char "T"%char) with true.
  cbv iota.
  generalize (padDigits 2 (DateFromTime tv)).
  intros s. induction s as [| ch s IH]; simpl; [reflexivity | now rewrite IH].
Qed.

(** Reading one more digit, seen from the end. *)
Lemma readDigits_snoc (n : nat) :
  forall (acc : Z) (s : string),
    readDigits (S n) acc s
    = match readDigits n acc s with
      | Some (a, String c r) =>
          match digitValue c with
          | Some d => Some (10 * a + d, r)
          | None => None
          end
      | _ => None
      end.
Proof.
  induction n as [| n IH]; intros acc s.
  - simpl. destruct s as [| c r]; [reflexivity |].
    destruct (digitValue c); reflexivity.
  - change (readDigits (S (S n)) acc s)
      with (match s with
            | String c rest =>
                match digitValue c with
                | Some d => readDigits (S n) (10 * acc + d) rest
                | None => None
                end
            | EmptyString => None
            end).
    destruct s as [| c r]; [reflexivity |].
    change (readDigits (S n) acc (String c r))
      with (match digitValue c with
            | Some d => readDigits n (10 * acc + d) r
            | None => None
            end).
    destruct (digitValue c) as [d |]; [| reflexivity].
    rewrite IH. reflexivity.
Qed.

(** Reading back the digits that [padDigits] wrote. *)
Lemma readDigits_padDigits (n : nat) :
  forall (v acc : Z) (rest : string),
    0 <= v < 10 ^ Z.of_nat n ->
    readDigits n acc (String.append (padDigits n v) rest)
    = Some (acc * 10 ^ Z.of_nat n + v, rest).
Proof.
  induction n as [| n IH]; intros v acc rest Hv.
  - simpl in *. f_equal. f_equal. lia.
  - rewrite Nat2Z.inj_succ, Z.pow_succ_r in * by lia.
    cbn [padDigits]. rewrite append_assoc. cbn [String.append].
    rewrite readDigits_snoc.
    rewrite IH by (Z.div_mod_to_equations; lia).
    rewrite digitValue_digitChar
      by (pose proof (Z.mod_pos_bound v 10); lia).
    f_equal. f_equal. Z.div_mod_to_equations. lia.
Qed.

(** A text that starts with digits does not start with a sign. *)
Lemma padDigits_first (n : nat) :
  forall (v : Z) (rest : string),
    exists d r, 0 <= d < 10 /\
                String.append (padDigits (S n) v) rest
                = String (digitChar d) r.
Proof.
  induction n as [| n IH]; intros v rest.
  - exists (v mod 10), rest. split; [apply Z.mod_pos_bound; lia |].
    reflexivity.
  - change (padDigits (S (S n)) v)
      with (String.append (padDigits (S n) (v / 10))
              (String (digitChar (v mod 10)) EmptyString)).
    rewrite append_assoc. apply IH.
Qed.

Lemma expectChar_digit (c : ascii) (d : Z) (r : string) :
  digitValue c = None -> 0 <= d < 10 ->
  expectChar c (String (digitChar d) r) = None.
Proof.
  intros Hc Hd. unfold expectChar.
  destruct (Ascii.eqb_spec c (digitChar d)) as [-> | _]; [| reflexivity].
  rewrite digitValue_digitChar in Hc by lia. discriminate.
Qed.

Lemma parseYear_padDigits (y : Z) (rest : string) :
  0 <= y <= 9999 ->
  parseYear (String.append (padDigits 4 y) rest) = Some (y, rest).
Proof.
  intros Hy. unfold parseYear.
  destruct (padDigits_first 3 y rest) as (d & r & Hd & Hfirst).
  rewrite Hfirst, !expectChar_digit by (reflexivity || exact Hd).
  rewrite <- Hfirst, readDigits_padDigits by (simpl; lia).
  reflexivity.
Qed.

Lemma daysInMonth_le_31 (y m : Z) : daysInMonth y m <= 31.
Proof.
  unfold daysInMonth.
  repeat destruct_scrutinee; lia.
Qed.

(** The month the component finds for the text of a calendar date is the
    date's month, in every zone that keeps one offset, whatever the
    offset. *)
Lemma monthOfDateString_dateText (tza y m d : Z) :
  0 <= y <= 9999 -> validDate y m d ->
  monthOfDateString (fixedZone tza) (dateText y m d) = Num (m - 1).
Proof.
  intros Hy Hvalid. pose proof Hvalid as [Hm Hd].
  pose proof (daysInMonth_le_31 y (m - 1)) as H31.
  unfold monthOfDateString, dateText, parseLocalDateTime, parseDatePart.
  rewrite !append_assoc. cbn [String.append].
  rewrite parseYear_padDigits by exact Hy.
  cbn [expectChar]. change (Ascii.eqb "-" "-") with true. cbv iota.
  rewrite readDigits_padDigits by (simpl; lia).
  cbn [expectChar]. change (Ascii.eqb "-" "-") with true. cbv iota.
  rewrite readDigits_padDigits by (simpl; lia).
  change (parseTimePart "T00:00:00") with (Some 0).
  replace (0 * 10 ^ Z.of_nat 2 + m) with m by lia.
  replace (0 * 10 ^ Z.of_nat 2 + d) with d by lia.
  replace ((1 <=? m) && (m <=? 12) && (1 <=? d) && (d <=? 31)) with true
    by (symmetry; rewrite !andb_true_iff, !Z.leb_le; lia).
  f_equal. unfold getMonth, LocalTime, UTC, fixedZone.
  cbn [offsetAt offsetOfLocal].
  replace (MakeDate (MakeDay y (m - 1) d) 0 - tza + tza)
    with (MakeDate (MakeDay y (m - 1) d) 0) by lia.
  apply (JSDateFacts.fields_of_MakeDay y (m - 1) d 0).
  - now replace (m - 1 + 1) with m by lia.
  - unfold msPerDay. lia.
Qed.

End TextFacts.

(** ** Properties of the month labels *)

(** Years written with a sign and six digits are read as well; the year
    [-000000] and a thirteenth month give the invalid date. *)
Example monthOfDateString_expanded_year :
  monthOfDateString (JSDate.fixedZone 19800000) "+002024-03-15" = Num 2 /\
  monthOfDateString (JSDate.fixedZone 19800000) "-000001-12-31" = Num 11 /\
  monthOfDateString (JSDate.fixedZone 19800000) "-000000-01-01" = NaN /\
  monthOfDateString (JSDate.fixedZone 19800000) "2024-13-01" = NaN.
Proof. vm_compute. repeat split. Qed.

Lemma monthOfDateString_range zone s :
  monthOfDateString zone s = NaN \/
  exists m, monthOfDateString zone s = Num m /\ 0 <= m <= 11.
Proof.
  unfold monthOfDateString.
  destruct (JSDate.parseLocalDateTime zone _) as [tv |]; [right | now left].
  eexists. split; [reflexivity |]. apply JSDateFacts.MonthFromTime_range.
Qed.

(** No month equals the initial [lastMonth = -1]. *)
Lemma monthOfWeek_differs_initial zone week month :
  monthOfWeek zone week = Some month ->
  strictNotEqual month (Num (-1)) = true.
Proof.
  unfold monthOfWeek. destruct (contributionDays week) as [| d ds];
    [discriminate |].
  intros [= <-].
  destruct (monthOfDateString_range zone (date d)) as [-> | (m & -> & Hm)];
    [reflexivity |].
  simpl. destruct (Z.eqb_spec m (-1)); [lia | reflexivity].
Qed.

(** A week whose first day carries the text of a calendar date has that
    date's month. *)
Lemma monthOfWeek_dateText tza y m d :
  0 <= y <= 9999 -> validDate y m d ->
  monthOfWeek (JSDate.fixedZone tza) (weekStartingOn (dateText y m d))
  = Some (Num (m - 1)).
Proof.
  intros Hy Hvalid. unfold monthOfWeek, weekStartingOn. simpl.
  now rewrite TextFacts.monthOfDateString_dateText.
Qed.

Lemma last_map_Some_snoc {A : Type} (l : list A) (x : A) :
  last (map Some (l ++ [x])) None = Some x.
Proof. rewrite map_app. simpl. apply last_last. Qed.

Lemma last_map_Some_In {A : Type} (l : list A) (x : A) :
  last (map Some l) None = Some x -> In x l.
Proof.
  destruct (list_snoc_cases l) as [-> | (l' & y & ->)].
  - discriminate.
  - rewrite last_map_Some_snoc. intros [= ->].
    apply in_or_app. right. now left.
Qed.

Lemma filter_all {A : Type} (f : A -> bool) (l : list A) :
  Forall (fun x => f x = true) l -> filter f l = l.
Proof.
  induction 1 as [| x l Hx _ IH]; simpl; [reflexivity |].
  now rewrite Hx, IH.
Qed.

Lemma filter_none {A : Type} (f : A -> bool) (l : list A) :
  Forall (fun x => f x = false) l -> filter f l = [].
Proof.
  induction 1 as [| x l Hx _ IH]; simpl; [reflexivity |].
  now rewrite Hx.
Qed.

Lemma lastLabelBefore_all ls i :
  Forall (fun l => col l < i) ls ->
  lastLabelBefore ls i = last (map Some ls) None.
Proof.
  intros H. unfold lastLabelBefore. rewrite filter_all; [reflexivity |].
  eapply Forall_impl; [| exact H]. intros l Hl. now apply Z.ltb_lt.
Qed.

Lemma lastLabelBefore_app_ge ls extra i :
  Forall (fun l => i <= col l) extra ->
  lastLabelBefore (ls ++ extra) i = lastLabelBefore ls i.
Proof.
  intros H. unfold lastLabelBefore.
  rewrite filter_app, (filter_none _ extra), app_nil_r; [reflexivity |].
  eapply Forall_impl; [| exact H]. intros l Hl. now apply Z.ltb_ge.
Qed.

Lemma lastLabelBefore_bound ls i prev :
  lastLabelBefore ls i = Some prev -> In prev ls /\ col prev < i.
Proof.
  unfold lastLabelBefore. intros H.
  apply last_map_Some_In, filter_In in H as [Hin Hlt].
  split; [assumption | now apply Z.ltb_lt].
Qed.

Lemma monthAtCol_app_lt zone ws w c :
  0 <= c < Z.of_nat (List.length ws) ->
  monthAtCol zone (ws ++ [w]) c = monthAtCol zone ws c.
Proof.
  intros Hc. unfold monthAtCol.
  destruct (Z.ltb_spec c 0); [lia |].
  rewrite nth_error_app1 by lia. reflexivity.
Qed.

Lemma monthAtCol_app_eq zone ws w :
  monthAtCol zone (ws ++ [w]) (Z.of_nat (List.length ws)) = monthOfWeek zone w.
Proof.
  unfold monthAtCol.
  destruct (Z.ltb_spec (Z.of_nat (List.length ws)) 0); [lia |].
  rewrite Nat2Z.id, nth_error_app2, Nat.sub_diag by lia. reflexivity.
Qed.

Lemma StronglySorted_snoc {A : Type} (R : A -> A -> Prop) (l : list A) (x : A) :
  StronglySorted R l -> Forall (fun y => R y x) l ->
  StronglySorted R (l ++ [x]).
Proof.
  induction 1 as [| a l Hs IH Ha]; intros Hx; simpl.
  - constructor; constructor.
  - inversion Hx as [| ? ? Hax Hlx]; subst.
    constructor; [now apply IH |].
    apply Forall_app. split; [assumption | now constructor].
Qed.

(** The test for a column below the number of weeks seen so far is not
    affected by later weeks or later labels. *)
Lemma emitsAt_extend zone ws w ls extra i month :
  Forall (fun l => 0 <= col l < Z.of_nat (List.length ws)) ls ->
  Forall (fun l => i <= col l) extra ->
  emitsAt zone (ws ++ [w]) (ls ++ extra) i month <-> emitsAt zone ws ls i month.
Proof.
  intros Hcols Hextra. unfold emitsAt.
  rewrite (lastLabelBefore_app_ge _ _ _ Hextra).
  destruct (lastLabelBefore ls i) as [prev |] eqn:Hprev; [| reflexivity].
  apply lastLabelBefore_bound in Hprev as [Hin _].
  rewrite Forall_forall in Hcols.
  rewrite (monthAtCol_app_lt zone ws w (col prev) (Hcols _ Hin)).
  reflexivity.
Qed.

Lemma labelState_snoc zone ws w st :
  fold_left (monthLabelsCallback zone) (ws ++ [w]) st
  = monthLabelsCallback zone (fold_left (monthLabelsCallback zone) ws st) w.
Proof. now rewrite fold_left_app. Qed.

Lemma LabelInvariant_initial zone : LabelInvariant zone [] initialLabelState.
Proof.
  unfold LabelInvariant. simpl.
  do 5 (split; [solve [reflexivity | constructor] |]).
  intros [| i]; discriminate.
Qed.

Lemma LabelInvariant_step zone ws w st month :
  LabelInvariant zone ws st -> monthOfWeek zone w = Some month ->
  LabelInvariant zone (ws ++ [w]) (monthLabelsCallback zone st w).
Proof.
  intros (Hidx & Hcols & Hlast & Hsorted & Hnames & Hemit) Hw.
  unfold monthLabelsCallback, monthStep. rewrite Hw.
  set (n := Z.of_nat (List.length ws)) in *.
  assert (Hlen : Z.of_nat (List.length (ws ++ [w])) = n + 1)
    by (rewrite length_app; simpl; lia).
  assert (Hcols' : Forall (fun l => 0 <= col l < n + 1) (labels st))
    by (eapply Forall_impl; [| exact Hcols]; simpl; intros; lia).
  assert (Hnames' :
            Forall (fun l => exists mo,
                        monthAtCol zone (ws ++ [w]) (col l) = Some mo /\
                        label l = monthLabelAt mo) (labels st)).
  { rewrite Forall_forall in *. intros l Hl.
    destruct (Hnames l Hl) as (mo & Hmo & Hlab).
    exists mo. now rewrite monthAtCol_app_lt by (apply Hcols; assumption). }
  assert (Hbelow : Forall (fun l => col l < n) (labels st))
    by (eapply Forall_impl; [| exact Hcols]; simpl; intros; lia).
  assert (Hnotin : ~ In n (map col (labels st))).
  { intros Hin. apply in_map_iff in Hin as (l & Hl & Hin).
    rewrite Forall_forall in Hbelow. specialize (Hbelow l Hin). lia. }
  (* the test on the week just seen, in terms of [lastMonth] *)
  assert (Hnew : forall extra,
             Forall (fun l => n <= col l) extra ->
             (emitsAt zone (ws ++ [w]) (labels st ++ extra) n month <->
              strictNotEqual month (lastMonth st) = true)).
  { intros extra Hextra. unfold emitsAt.
    rewrite (lastLabelBefore_app_ge _ _ _ Hextra),
      (lastLabelBefore_all _ _ Hbelow).
    destruct (last (map Some (labels st)) None) as [prev |] eqn:Hprev.
    - apply last_map_Some_In in Hprev.
      rewrite Forall_forall in Hcols.
      rewrite (monthAtCol_app_lt zone ws w _ (Hcols _ Hprev)), Hlast.
      split.
      + intros (pm & [= <-] & Hne). exact Hne.
      + intros Hne. eauto.
    - rewrite Hlast.
      pose proof (monthOfWeek_differs_initial _ _ _ Hw). tauto. }
  unfold LabelInvariant.
  destruct (strictNotEqual month (lastMonth st)) eqn:Hne;
    cbn [labels lastMonth index];
    rewrite Hlen; (split; [lia |]).
  - (* a label is pushed *)
    split.
    { apply Forall_app. split; [assumption |].
      constructor; [simpl; lia | constructor]. }
    split.
    { rewrite last_map_Some_snoc. simpl. rewrite Hidx.
      now rewrite monthAtCol_app_eq. }
    split.
    { rewrite map_app. apply StronglySorted_snoc; [assumption |].
      simpl. rewrite Hidx. apply Forall_map. exact Hbelow. }
    split.
    { apply Forall_app. split; [assumption |].
      constructor; [| constructor]. simpl. exists month.
      rewrite Hidx. now rewrite monthAtCol_app_eq. }
    intros i week mo Hnth Hmo.
    destruct (Nat.lt_ge_cases i (List.length ws)) as [Hi | Hi].
    + rewrite nth_error_app1 in Hnth by assumption.
      rewrite emitsAt_extend;
        [| assumption | constructor; [simpl; lia | constructor]].
      rewrite <- (Hemit i week mo Hnth Hmo).
      rewrite map_app, in_app_iff. simpl. intuition lia.
    + assert (i = List.length ws) as ->.
      { assert (Hlt : (i < List.length (ws ++ [w]))%nat)
          by (apply nth_error_Some; congruence).
        rewrite length_app in Hlt. simpl in Hlt. lia. }
      rewrite nth_error_app2, Nat.sub_diag in Hnth by lia.
      injection Hnth as <-. rewrite Hw in Hmo. injection Hmo as <-.
      fold n. split.
      * intros _. apply Hnew; [| reflexivity].
        constructor; [simpl; lia | constructor].
      * intros _. rewrite map_app, in_app_iff. right. simpl. left. lia.
  - (* no label is pushed *)
    split; [assumption |].
    split.
    { destruct (last (map Some (labels st)) None) as [prev |] eqn:Hprev;
        [| assumption].
      apply last_map_Some_In in Hprev.
      rewrite Forall_forall in Hcols.
      now rewrite monthAtCol_app_lt by (apply Hcols; assumption). }
    split; [assumption |].
    split; [assumption |].
    intros i week mo Hnth Hmo.
    rewrite <- (app_nil_r (labels st)) at 2.
    destruct (Nat.lt_ge_cases i (List.length ws)) as [Hi | Hi].
    + rewrite nth_error_app1 in Hnth by assumption.
      rewrite emitsAt_extend; [| assumption | constructor].
      exact (Hemit i week mo Hnth Hmo).
    + assert (i = List.length ws) as ->.
      { assert (Hlt : (i < List.length (ws ++ [w]))%nat)
          by (apply nth_error_Some; congruence).
        rewrite length_app in Hlt. simpl in Hlt. lia. }
      rewrite nth_error_app2, Nat.sub_diag in Hnth by lia.
      injection Hnth as <-. rewrite Hw in Hmo. injection Hmo as <-.
      fold n. rewrite (Hnew [] (Forall_nil _)). split.
      * intros Hin. contradiction.
      * discriminate.
Qed.

Lemma LabelInvariant_weeks zone ws :
  (forall week, In week ws -> contributionDays week <> []) ->
  LabelInvariant zone ws
    (fold_left (monthLabelsCallback zone) ws initialLabelState).
Proof.
  induction ws as [| w ws IH] using rev_ind; intros Hne.
  - apply LabelInvariant_initial.
  - rewrite labelState_snoc.
    assert (Hw : exists month, monthOfWeek zone w = Some month).
    { unfold monthOfWeek.
      destruct (contributionDays w) as [| d ds] eqn:Hd; [| eauto].
      exfalso. apply (Hne w); [apply in_or_app; right; now left | exact Hd]. }
    destruct Hw as (month & Hw).
    apply (LabelInvariant_step zone ws w _ month); [| exact Hw].
    apply IH. intros week Hin. apply Hne. apply in_or_app. now left.
Qed.

Lemma nth_error_combine_seq {A : Type} (l : list A) (s i : nat) (x : A) :
  nth_error l i = Some x ->
  nth_error (combine (seq s (List.length l)) l) i = Some ((s + i)%nat, x).
Proof.
  revert s i. induction l as [| a l IH]; intros s [| i] H; simpl in *;
    try discriminate.
  - injection H as ->. now rewrite Nat.add_0_r.
  - rewrite (IH (S s) i H). f_equal. f_equal. lia.
Qed.

Lemma nextColOf_next (ls : list MonthLabel) (nweeks : Z) (i : nat) :
  nextColOf ls nweeks i
  = match nth_error ls (S i) with
    | Some next => col next
    | None => nweeks
    end.
Proof.
  unfold nextColOf. rewrite Nat.add_1_r.
  destruct (Z.ltb_spec (Z.of_nat i) (Z.of_nat (List.length ls) - 1)) as [H | H].
  - reflexivity.
  - assert (Hnone : nth_error ls (S i) = None)
      by (apply nth_error_None; lia).
    now rewrite Hnone.
Qed.

(** Each span is the next label's column, or the number of weeks for the
    last label, minus the label's own column. *)
Lemma monthLabelSpans_nth (ls : list MonthLabel) (nweeks : Z) (i : nat) m :
  nth_error ls i = Some m ->
  nth_error (monthLabelSpans ls nweeks) i
  = Some (match nth_error ls (S i) with
          | Some next => col next
          | None => nweeks
          end - col m).
Proof.
  intros H. unfold monthLabelSpans.
  rewrite nth_error_map, (nth_error_combine_seq ls 0 i m H). simpl.
  now rewrite nextColOf_next.
Qed.

Lemma monthLabels_months zone ws st :
  fold_left (monthLabelsCallback zone) ws st
  = fold_left monthStep (map (monthOfWeek zone) ws) st.
Proof.
  revert st. induction ws as [| w ws IH]; intros st; [reflexivity |].
  simpl. apply IH.
Qed.

Lemma getMonthLabels_first zone ws :
  (forall week, In week ws -> contributionDays week <> []) ->
  ws <> [] -> In 0 (map col (getMonthLabels zone ws)).
Proof.
  intros Hne Hws.
  destruct (LabelInvariant_weeks zone ws Hne)
    as (_ & Hcols & _ & _ & _ & Hemit).
  destruct ws as [| w ws']; [contradiction |].
  destruct (monthOfWeek zone w) as [month |] eqn:Hw.
  - apply (Hemit 0%nat w month eq_refl Hw).
    unfold emitsAt, lastLabelBefore. rewrite filter_none; [exact I |].
    eapply Forall_impl; [| exact Hcols]. simpl. intros l Hl.
    apply Z.ltb_ge. lia.
  - exfalso. unfold monthOfWeek in Hw.
    destruct (contributionDays w) eqn:Hd; [| discriminate].
    apply (Hne w); [now left | exact Hd].
Qed.

(** C3: with at least one day in every week, a label stands at a week's
    column exactly when the month of the week's first day differs from
    the month of the label emitted before it (the first week always has
    one); the columns increase, each label names its week's month, and
    each span is the next label's column (the number of weeks for the
    last label) minus its own; first days in Jan, Jan, Feb, Feb, Mar give
    the labels Jan, Feb, Mar at columns 0, 2, 4 with spans 2, 2, 1. *)
Theorem getMonthLabels_spec :
  forall (zone : JSDate.TimeZone) (ws : list GitHubContributionWeek),
    (forall week, In week ws -> contributionDays week <> []) ->
    let ls := getMonthLabels zone ws in
    let nweeks := Z.of_nat (List.length ws) in
    (forall (i : nat) week month,
        nth_error ws i = Some week -> monthOfWeek zone week = Some month ->
        (In (Z.of_nat i) (map col ls) <->
         emitsAt zone ws ls (Z.of_nat i) month)) /\
    (ws <> [] -> In 0 (map col ls)) /\
    StronglySorted Z.lt (map col ls) /\
    Forall (fun l => exists month,
                monthAtCol zone ws (col l) = Some month /\
                label l = monthLabelAt month) ls /\
    (forall (i : nat) m,
        nth_error ls i = Some m ->
        nth_error (monthLabelSpans ls nweeks) i
        = Some (match nth_error ls (S i) with
                | Some next => col next
                | None => nweeks
                end - col m)) /\
    (map (monthOfWeek zone) ws
     = [Some (Num 0); Some (Num 0); Some (Num 1); Some (Num 1); Some (Num 2)] ->
     ls = [ {| label := Some "Jan"%string; col := 0 |};
            {| label := Some "Feb"%string; col := 2 |};
            {| label := Some "Mar"%string; col := 4 |} ] /\
     monthLabelSpans ls nweeks = [2; 2; 1]).
Proof.
  intros zone ws Hne ls nweeks.
  destruct (LabelInvariant_weeks zone ws Hne)
    as (_ & _ & _ & Hsorted & Hnames & Hemit).
  split; [exact Hemit |].
  split; [now apply getMonthLabels_first |].
  split; [exact Hsorted |].
  split; [exact Hnames |].
  split; [intros i m; apply monthLabelSpans_nth |].
  intros Hmonths.
  assert (Hls : ls = [ {| label := Some "Jan"%string; col := 0 |};
                       {| label := Some "Feb"%string; col := 2 |};
                       {| label := Some "Mar"%string; col := 4 |} ]).
  { subst ls. unfold getMonthLabels.
    rewrite monthLabels_months, Hmonths. reflexivity. }
  split; [exact Hls |].
  rewrite Hls. subst nweeks.
  rewrite <- (length_map (monthOfWeek zone)), Hmonths. reflexivity.
Qed.

Lemma getMonthLabels_spec_witness :
  let ws := [ weekStartingOn "2024-01-21"; weekStartingOn "2024-01-28";
              weekStartingOn "2024-02-04"; weekStartingOn "2024-02-25";
              weekStartingOn "2024-03-03" ] in
  getMonthLabels (JSDate.fixedZone 19800000) ws
  = [ {| label := Some "Jan"%string; col := 0 |};
      {| label := Some "Feb"%string; col := 2 |};
      {| label := Some "Mar"%string; col := 4 |} ] /\
  monthLabelSpans (getMonthLabels (JSDate.fixedZone 19800000) ws) 5
  = [2; 2; 1].
Proof.
  intros ws.
  refine (proj2 (proj2 (proj2 (proj2 (proj2
            (getMonthLabels_spec (JSDate.fixedZone 19800000) ws _))))) _).
  - intros week Hin. simpl in Hin.
    destruct Hin as [<- | [<- | [<- | [<- | [<- | []]]]]]; discriminate.
  - vm_compute. reflexivity.
Defined.

(** ** Properties of the language ranking *)

Lemma keepLanguage_notOtherNorEmpty (l : HackatimeLanguage.t) :
  (0 <= HackatimeLanguage.total_seconds l)%Q ->
  keepLanguage l = notOtherNorEmpty l.
Proof.
  intros Hpos. unfold keepLanguage, notOtherNorEmpty. f_equal. f_equal.
  destruct (Qle_bool (HackatimeLanguage.total_seconds l) 0) eqn:Hle,
    (Qeq_bool (HackatimeLanguage.total_seconds l) 0) eqn:Heq;
    try reflexivity; exfalso.
  - apply Qle_bool_iff in Hle. apply Qeq_bool_neq in Heq.
    apply Heq. now apply Qle_antisym.
  - apply Qeq_bool_iff in Heq.
    assert (Hle' : Qle_bool (HackatimeLanguage.total_seconds l) 0 = true)
      by (apply Qle_bool_iff; rewrite Heq; apply Qle_refl).
    congruence.
Qed.

Lemma topLanguages_retained (d : HackatimeData.t) ls :
  HackatimeData.languages d = Some ls ->
  Forall (fun l => (0 <= HackatimeLanguage.total_seconds l)%Q) ls ->
  topLanguages (Some d) = retainedLanguages ls.
Proof.
  intros Hd Hpos. unfold topLanguages, retainedLanguages. rewrite Hd.
  f_equal. apply filter_ext_in. intros l Hl.
  apply keepLanguage_notOtherNorEmpty.
  rewrite Forall_forall in Hpos. now apply Hpos.
Qed.

Lemma in_firstn {A : Type} (n : nat) (l : list A) (x : A) :
  In x (firstn n l) -> In x l.
Proof.
  intros H. rewrite <- (firstn_skipn n l). apply in_or_app. now left.
Qed.

Lemma StronglySorted_firstn {A : Type} (R : A -> A -> Prop) (n : nat)
    (l : list A) :
  StronglySorted R l -> StronglySorted R (firstn n l).
Proof.
  revert l. induction n as [| n IH]; intros l Hs; simpl; [constructor |].
  destruct l as [| a l]; [constructor |].
  inversion Hs as [| ? ? Hs' Ha]; subst.
  constructor; [now apply IH |].
  rewrite Forall_forall in *. intros x Hx.
  apply Ha. eapply in_firstn; eassumption.
Qed.

(** In a list sorted by descending share the first entry has the
    maximum. *)
Lemma maxLangPercent_is_max (top : list HackatimeLanguage.t) :
  StronglySorted percentDescending top ->
  Forall (fun l => (HackatimeLanguage.percent l <= maxLangPercent top)%Q) top.
Proof.
  intros Hs. destruct top as [| first rest]; [constructor |].
  inversion Hs as [| ? ? _ Hfirst]; subst. simpl.
  constructor; [apply Qle_refl | exact Hfirst].
Qed.

Lemma barWidth_full (lang : HackatimeLanguage.t) :
  ~ (HackatimeLanguage.percent lang == 0)%Q ->
  isPercent (barWidth (HackatimeLanguage.percent lang) lang) 100.
Proof.
  intros Hp. unfold barWidth, divide.
  destruct (Qeq_bool (HackatimeLanguage.percent lang) 0) eqn:Heq.
  - apply Qeq_bool_iff in Heq. contradiction.
  - simpl. unfold Qdiv. rewrite Qmult_inv_r by assumption.
    reflexivity.
Qed.

(** At a top share of zero the quotient is [0 / 0]. *)
Lemma barWidth_zero_max (lang : HackatimeLanguage.t) :
  (HackatimeLanguage.percent lang == 0)%Q ->
  barWidth (HackatimeLanguage.percent lang) lang = NotANumber.
Proof.
  intros H. unfold barWidth, divide.
  apply Qeq_bool_iff in H. now rewrite H.
Qed.

Lemma topLanguages_zero_percent_counterexample :
  StronglySorted percentDescending zeroPercentLanguages /\
  topLanguages (Some (statsWithLanguages zeroPercentLanguages))
  = retainedLanguages zeroPercentLanguages /\
  retainedLanguages zeroPercentLanguages = zeroPercentLanguages /\
  exists top rest,
    barWidths (Some (statsWithLanguages zeroPercentLanguages)) = top :: rest /\
    top = NotANumber /\ ~ isPercent top 100.
Proof.
  split; [repeat constructor |].
  split; [reflexivity |].
  split; [reflexivity |].
  exists NotANumber, []. split; [reflexivity |].
  split; [reflexivity |]. intros H. exact H.
Qed.

(** C4 (amended): with non-negative durations the retained set is the
    first six entries, in their order, of the list without the entries
    named "Other" or of zero duration; when those are sorted by descending
    share, every bar's width is the share over the maximum share of the
    retained set times 100, and the top bar is at 100 whenever that
    maximum is not zero; [Other 10, Go 50, Rust 30, TS 20] gives Go, Rust,
    TS with widths 100, 60, 40. *)
Theorem topLanguages_spec :
  forall (d : HackatimeData.t) (ls : list HackatimeLanguage.t),
    HackatimeData.languages d = Some ls ->
    Forall (fun l => (0 <= HackatimeLanguage.total_seconds l)%Q) ls ->
    StronglySorted percentDescending (filter notOtherNorEmpty ls) ->
    let top := topLanguages (Some d) in
    top = retainedLanguages ls /\
    Forall (fun l => (HackatimeLanguage.percent l <= maxLangPercent top)%Q)
           top /\
    (top <> [] ->
     exists m, In m top /\ HackatimeLanguage.percent m = maxLangPercent top) /\
    barWidths (Some d)
    = map (fun l => times100 (divide (HackatimeLanguage.percent l)
                                     (maxLangPercent top))) top /\
    (~ (maxLangPercent top == 0)%Q -> top <> [] ->
     exists w rest, barWidths (Some d) = w :: rest /\ isPercent w 100) /\
    (let ex := Some (statsWithLanguages exampleLanguages) in
     map HackatimeLanguage.name (topLanguages ex)
     = ["Go"; "Rust"; "TS"]%string /\
     Forall2 isPercent (barWidths ex) [100; 60; 40]%Q).
Proof.
  intros d ls Hd Hpos Hsorted top.
  assert (Htop : top = retainedLanguages ls)
    by (now apply topLanguages_retained).
  assert (Hs : StronglySorted percentDescending top)
    by (rewrite Htop; now apply StronglySorted_firstn).
  split; [exact Htop |].
  split; [now apply maxLangPercent_is_max |].
  split.
  { destruct top as [| first rest]; [congruence |].
    intros _. exists first. split; [now left | reflexivity]. }
  split; [reflexivity |].
  split.
  { intros Hmax Hne. unfold barWidths. fold top.
    destruct top as [| first rest]; [congruence |].
    simpl. eexists _, _. split; [reflexivity |].
    now apply barWidth_full. }
  split; [reflexivity |].
  repeat constructor; reflexivity.
Qed.

Lemma topLanguages_spec_witness :
  let d := statsWithLanguages exampleLanguages in
  topLanguages (Some d) = retainedLanguages exampleLanguages /\
  exists w rest, barWidths (Some d) = w :: rest /\ isPercent w 100.
Proof.
  intros d.
  assert (Hpos : Forall (fun l => (0 <= HackatimeLanguage.total_seconds l)%Q)
                        exampleLanguages)
    by (repeat constructor; discriminate).
  assert (Hsorted : StronglySorted percentDescending
                      (filter notOtherNorEmpty exampleLanguages))
    by (repeat constructor; discriminate).
  destruct (topLanguages_spec d exampleLanguages eq_refl Hpos Hsorted)
    as (Htop & _ & _ & _ & Hfull & _).
  split; [exact Htop |].
  apply Hfull; discriminate.
Defined.

(** ** Properties of the date arithmetic of the time-tracking adapter *)

(** [setDate(getDate() - k)] keeps the local time of day and moves the
    local calendar day by [k]. *)
Lemma setDate_days_back zone now k :
  JSDate.setDate zone now (JSDate.getDate zone now - k)
  = localDaysBack zone now k.
Proof.
  unfold JSDate.setDate, JSDate.getDate, localDaysBack.
  set (t := JSDate.LocalTime zone now).
  replace (JSDate.DateFromTime t - k) with (JSDate.DateFromTime t + - k)
    by lia.
  rewrite JSDateFacts.MakeDay_fields.
  pose proof (JSDateFacts.MakeDate_Day_TimeWithinDay t) as Ht.
  f_equal. unfold JSDate.MakeDate in *. lia.
Qed.

(** Where the offset never changes, that is [k] times 24 hours before
    [now]. *)
Lemma localDaysBack_fixedZone tza now k :
  localDaysBack (JSDate.fixedZone tza) now k = daysBack now k.
Proof.
  unfold localDaysBack, daysBack, JSDate.UTC, JSDate.LocalTime,
    JSDate.fixedZone.
  cbn [JSDate.offsetAt JSDate.offsetOfLocal]. lia.
Qed.

Lemma MakeDay_firstDayOfMonth (year month date : Z) :
  JSDate.MakeDay year month date
  = firstDayOfMonth (12 * year + month) + date - 1.
Proof.
  unfold JSDate.MakeDay, firstDayOfMonth.
  replace ((12 * year + month) / 12) with (year + month / 12)
    by (Z.div_mod_to_equations; lia).
  replace ((12 * year + month) mod 12) with (month mod 12)
    by (Z.div_mod_to_equations; lia).
  reflexivity.
Qed.

Lemma setMonth_months_back zone now k :
  JSDate.setMonth zone now (JSDate.getMonth zone now - k) = monthsBack zone now k.
Proof.
  unfold JSDate.setMonth, JSDate.getMonth, monthsBack.
  rewrite MakeDay_firstDayOfMonth.
  replace (12 * JSDate.YearFromTime (JSDate.LocalTime zone now)
           + (JSDate.MonthFromTime (JSDate.LocalTime zone now) - k))
    with (12 * JSDate.YearFromTime (JSDate.LocalTime zone now)
          + JSDate.MonthFromTime (JSDate.LocalTime zone now) - k) by lia.
  reflexivity.
Qed.

Lemma setFullYear_years_back zone now k :
  JSDate.setFullYear zone now (JSDate.getFullYear zone now - k)
  = yearsBack zone now k.
Proof.
  unfold JSDate.setFullYear, JSDate.getFullYear, yearsBack, monthsBack.
  rewrite MakeDay_firstDayOfMonth.
  replace (12 * (JSDate.YearFromTime (JSDate.LocalTime zone now) - k)
           + JSDate.MonthFromTime (JSDate.LocalTime zone now))
    with (12 * JSDate.YearFromTime (JSDate.LocalTime zone now)
          + JSDate.MonthFromTime (JSDate.LocalTime zone now) - 12 * k) by lia.
  reflexivity.
Qed.

(** A whole number of days back moves the UTC day by that number. *)
Lemma Day_daysBack now k :
  JSDate.Day (daysBack now k) = JSDate.Day now - k.
Proof.
  unfold daysBack, JSDate.Day, JSDate.msPerDay.
  Z.div_mod_to_equations. lia.
Qed.

(** Months back lands on the same day of the month and time of day of the
    earlier month, in local time, when that month has such a day (in a
    zone that keeps one offset). *)
Lemma monthsBack_fields tza now k :
  let zone := JSDate.fixedZone tza in
  let t := JSDate.LocalTime zone now in
  let monthIndex := 12 * JSDate.YearFromTime t + JSDate.MonthFromTime t - k in
  let t' := JSDate.LocalTime zone (monthsBack zone now k) in
  JSDate.DateFromTime t
  <= daysInMonth (monthIndex / 12) (monthIndex mod 12) ->
  JSDate.YearFromTime t' = monthIndex / 12 /\
  JSDate.MonthFromTime t' = monthIndex mod 12 /\
  JSDate.DateFromTime t' = JSDate.DateFromTime t /\
  JSDate.TimeWithinDay t' = JSDate.TimeWithinDay t.
Proof.
  intros zone t monthIndex t' Hday.
  assert (Ht' : t' = JSDate.MakeDate
                       (JSDate.MakeDay (monthIndex / 12) (monthIndex mod 12)
                          (JSDate.DateFromTime t))
                       (JSDate.TimeWithinDay t)).
  { subst t'. unfold monthsBack. fold t. fold monthIndex.
    rewrite MakeDay_firstDayOfMonth.
    replace (12 * (monthIndex / 12) + monthIndex mod 12) with monthIndex
      by (Z.div_mod_to_equations; lia).
    unfold JSDate.LocalTime, JSDate.UTC, zone, JSDate.fixedZone.
    cbn [JSDate.offsetAt JSDate.offsetOfLocal]. lia. }
  pose proof (JSDateFacts.TimeWithinDay_range t) as Htwd.
  pose proof (JSDateFacts.DateFromTime_range t) as Hdate.
  assert (Hvalid : validDate (monthIndex / 12) (monthIndex mod 12 + 1)
                     (JSDate.DateFromTime t)).
  { split; [pose proof (Z.mod_pos_bound monthIndex 12); lia |].
    replace (monthIndex mod 12 + 1 - 1) with (monthIndex mod 12) by lia.
    lia. }
  destruct (JSDateFacts.fields_of_MakeDay _ _ _ _ Hvalid Htwd)
    as (Hy & Hm & Hd).
  rewrite Ht'. repeat split; try assumption.
  now apply JSDateFacts.TimeWithinDay_MakeDate.
Qed.

Lemma getDateRange_unrecognized zone now range :
  recognizedRange range = false ->
  HackatimeRoute.getDateRange zone now range
  = {| HackatimeRoute.start_date :=
         HackatimeRoute.fmt (yearsBack zone now 10);
       HackatimeRoute.end_date := HackatimeRoute.fmt now |}.
Proof.
  unfold recognizedRange, HackatimeRoute.getDateRange. intros H.
  apply orb_false_iff in H as [H H4].
  apply orb_false_iff in H as [H H3].
  apply orb_false_iff in H as [H1 H2].
  rewrite H1, H2, H3, H4. lazy beta iota zeta.
  rewrite setFullYear_years_back. reflexivity.
Qed.

Lemma recognizedRange_all_time : recognizedRange "all_time" = false.
Proof. reflexivity. Qed.

Lemma getDateRange_fallback zone now range :
  recognizedRange range = false ->
  HackatimeRoute.getDateRange zone now range
  = HackatimeRoute.getDateRange zone now "all_time".
Proof.
  intros H.
  rewrite (getDateRange_unrecognized zone now range H).
  rewrite (getDateRange_unrecognized zone now "all_time"
             recognizedRange_all_time).
  reflexivity.
Qed.

(** The window for every range key, by the branch the [switch] takes. *)
Lemma getDateRange_cases zone now range :
  HackatimeRoute.getDateRange zone now range
  = {| HackatimeRoute.start_date :=
         HackatimeRoute.fmt
           (if String.eqb range "last_7_days" then localDaysBack zone now 7
            else if String.eqb range "last_30_days"
            then localDaysBack zone now 30
            else if String.eqb range "last_6_months" then monthsBack zone now 6
            else if String.eqb range "last_year" then yearsBack zone now 1
            else yearsBack zone now 10);
       HackatimeRoute.end_date := HackatimeRoute.fmt now |}.
Proof.
  unfold HackatimeRoute.getDateRange. lazy zeta.
  rewrite !setDate_days_back, setMonth_months_back, !setFullYear_years_back.
  reflexivity.
Qed.

Lemma rangeOf_absent :
  HackatimeRoute.rangeOf requestWithoutRange = "all_time"%string.
Proof. reflexivity. Qed.

Lemma rangeOf_empty :
  HackatimeRoute.rangeOf (requestWithRange "") = "all_time"%string.
Proof. reflexivity. Qed.

Lemma rangeOf_given (range : string) :
  range <> ""%string ->
  HackatimeRoute.rangeOf (requestWithRange range) = range.
Proof.
  intros H. unfold HackatimeRoute.rangeOf, requestWithRange. simpl.
  destruct (String.eqb_spec range ""); [contradiction | reflexivity].
Qed.

(** ** Properties of the request handlers *)

Ltac run_eff :=
  cbv beta iota zeta
      delta [tryCatch bind fetch emit ret throw lift responseJson
             NextResponse_json errorBody ok responseStatus responsePayload
             fst snd].

(** The run of the time-tracking handler once the user name is
    configured: one upstream call, then either the statistics with status
    200 or a logged error with status 500. *)
Lemma HackatimeRoute_GET_run env zone now transport request username tr :
  HACKATIME_USERNAME env = Some username -> username <> ""%string ->
  let req := HackatimeRoute.statsRequest username (HACKATIME_API_KEY env)
               (HackatimeRoute.getDateRange zone now
                  (HackatimeRoute.rangeOf request)) in
  let failed (e : JsError) :=
    (Returned {| status := 500;
                 jsonBody := JObject [("error"%string,
                              JString "Failed to fetch Hackatime data")] |},
     (tr ++ [Fetched req]) ++ [ConsoleError "Hackatime API error:" e]) in
  HackatimeRoute.GET env zone now transport request tr
  = match transport req with
    | Rejected => failed NetworkError
    | Responded st payload =>
        if (200 <=? st) && (st <=? 299)
        then match payload with
             | None => failed SyntaxError
             | Some responseData =>
                 match getProperty (Some responseData) "data" with
                 | inl e => failed e
                 | inr data =>
                     (Returned
                        {| status := 200;
                           jsonBody := if truthy data
                                       then match data with
                                            | Some sub => sub
                                            | None => responseData
                                            end
                                       else responseData |},
                      tr ++ [Fetched req])
                 end
             end
        else failed (HttpStatusError "Hackatime" st)
    end.
Proof.
  intros Hu Hne req failed. unfold HackatimeRoute.GET. rewrite Hu.
  unfold missing.
  destruct (String.eqb_spec username ""); [contradiction |].
  fold req. subst failed. run_eff.
  destruct (transport req) as [| st payload]; [reflexivity |].
  destruct ((200 <=? st) && (st <=? 299)); cbn [negb]; [| reflexivity].
  destruct payload as [responseData |]; [| reflexivity].
  destruct (getProperty (Some responseData) "data") as [e | data];
    [reflexivity |].
  destruct data as [sub |]; [| reflexivity].
  destruct (truthy (Some sub)); reflexivity.
Qed.

Lemma HackatimeRoute_GET_calls env zone now transport request username :
  HACKATIME_USERNAME env = Some username -> username <> ""%string ->
  networkCalls (snd (HackatimeRoute.GET env zone now transport request []))
  = [ HackatimeRoute.statsRequest username (HACKATIME_API_KEY env)
        (HackatimeRoute.getDateRange zone now
           (HackatimeRoute.rangeOf request)) ].
Proof.
  intros Hu Hne.
  rewrite (HackatimeRoute_GET_run env zone now transport request username []
             Hu Hne).
  lazy zeta.
  repeat destruct_scrutinee; reflexivity.
Qed.

(** With a token the calendar handler makes exactly one upstream call. *)
Lemma GitHubRoute_GET_calls env transport token :
  GITHUB_TOKEN env = Some token -> token <> ""%string ->
  networkCalls (snd (GitHubRoute.GET env transport []))
  = [ GitHubRoute.calendarRequest token ].
Proof.
  intros Ht Hne. unfold GitHubRoute.GET. rewrite Ht. unfold missing.
  destruct (String.eqb_spec token ""); [contradiction |].
  set (req := GitHubRoute.calendarRequest token). run_eff.
  repeat destruct_scrutinee; reflexivity.
Qed.

(** C5: without its required configuration (the GitHub token, the
    Hackatime user name) a handler answers status 500 with a JSON error
    body and leaves the trace as it was: no call to [fetch] is made,
    whatever the transport. *)
Theorem adapters_missing_configuration :
  forall (env : Env) (zone : JSDate.TimeZone) (now : Z)
         (transport : Transport)
         (request : HackatimeRoute.IncomingRequest) (tr : list Event),
    (missing (GITHUB_TOKEN env) = true ->
     GitHubRoute.GET env transport tr
     = (Returned {| status := 500;
                    jsonBody := JObject [("error"%string,
                                 JString "GitHub token not configured")] |},
        tr) /\
     networkCalls (snd (GitHubRoute.GET env transport [])) = []) /\
    (missing (HACKATIME_USERNAME env) = true ->
     HackatimeRoute.GET env zone now transport request tr
     = (Returned {| status := 500;
                    jsonBody := JObject [("error"%string,
                                 JString "Hackatime username not configured")] |},
        tr) /\
     networkCalls (snd (HackatimeRoute.GET env zone now transport request []))
     = []).
Proof.
  intros env zone now transport request tr. split; intros Hmissing.
  - unfold GitHubRoute.GET. rewrite Hmissing. split; reflexivity.
  - unfold HackatimeRoute.GET. rewrite Hmissing. split; reflexivity.
Qed.

Lemma adapters_missing_configuration_witness :
  (fst (GitHubRoute.GET (envWith None None) (respondingWith JNull) [])
   = Returned {| status := 500;
                 jsonBody := JObject [("error"%string,
                              JString "GitHub token not configured")] |} /\
   networkCalls (snd (GitHubRoute.GET (envWith None None)
                        (respondingWith JNull) [])) = []) /\
  (fst (HackatimeRoute.GET (envWith None (Some ""%string))
          (JSDate.fixedZone 0) 1710500000123
          (respondingWith JNull) (requestWithRange "last_7_days") [])
   = Returned {| status := 500;
                 jsonBody := JObject [("error"%string,
                              JString "Hackatime username not configured")] |} /\
   networkCalls (snd (HackatimeRoute.GET (envWith None (Some ""%string))
                        (JSDate.fixedZone 0) 1710500000123
                        (respondingWith JNull)
                        (requestWithRange "last_7_days") [])) = []).
Proof.
  split.
  - destruct (proj1 (adapters_missing_configuration (envWith None None)
                       (JSDate.fixedZone 0) 0
                       (respondingWith JNull) requestWithoutRange [])
                eq_refl) as [Hrun Hcalls].
    split; [now rewrite Hrun | exact Hcalls].
  - destruct (proj2 (adapters_missing_configuration
                       (envWith None (Some ""%string))
                       (JSDate.fixedZone 0) 1710500000123
                       (respondingWith JNull)
                       (requestWithRange "last_7_days") [])
                eq_refl) as [Hrun Hcalls].
    split; [now rewrite Hrun | exact Hcalls].
Defined.

(** [responseData.data] on a payload that is not [null]. *)
Lemma getProperty_data (payload : json) :
  payload <> JNull ->
  getProperty (Some payload) "data" = inr (dataOf payload).
Proof. intros Hnn. destruct payload; [contradiction | reflexivity ..]. Qed.

(** A [data] field that is present but falsy is not what the handler
    returns, the whole payload is; and a successful response whose
    payload is [null] gives neither, but status 500. *)
Lemma hackatime_falsy_data_counterexample :
  let answerTo (payload : json) :=
    fst (HackatimeRoute.GET (envWith None (Some "shyam"%string))
           (JSDate.fixedZone 0) 1710500000123 (respondingWith payload)
           (requestWithRange "last_7_days") []) in
  dataOf examplePayloadZeroData = Some (JNumber 0) /\
  answerTo examplePayloadZeroData
  = Returned {| status := 200; jsonBody := examplePayloadZeroData |} /\
  answerTo examplePayloadZeroData
  <> Returned {| status := 200; jsonBody := JNumber 0 |} /\
  answerTo JNull
  = Returned {| status := 500;
                jsonBody := JObject [("error"%string,
                             JString "Failed to fetch Hackatime data")] |}.
Proof.
  intros answerTo.
  assert (Hzero : answerTo examplePayloadZeroData
                  = Returned {| status := 200;
                                jsonBody := examplePayloadZeroData |})
    by (vm_compute; reflexivity).
  split; [reflexivity |].
  split; [exact Hzero |].
  split; [rewrite Hzero; discriminate |].
  vm_compute. reflexivity.
Qed.

(** C7 (amended): on a successful upstream response whose body is JSON
    other than [null], the handler answers 200 with the payload's [data]
    field when that is present and truthy, as every object and array is,
    and with the payload itself, unchanged, when [data] is absent or
    falsy; a successful response whose body is [null] or not JSON is
    answered with status 500 and an error body. *)
Theorem hackatime_returns_data_or_payload :
  forall (env : Env) (zone : JSDate.TimeZone) (now : Z)
         (transport : Transport)
         (request : HackatimeRoute.IncomingRequest)
         (username : string) (st : Z) (body : option json),
    HACKATIME_USERNAME env = Some username -> username <> ""%string ->
    transport (HackatimeRoute.statsRequest username (HACKATIME_API_KEY env)
                 (HackatimeRoute.getDateRange zone now
                    (HackatimeRoute.rangeOf request)))
    = Responded st body ->
    200 <= st <= 299 ->
    let answer := fst (HackatimeRoute.GET env zone now transport request []) in
    (forall payload sub,
        body = Some payload -> payload <> JNull ->
        dataOf payload = Some sub -> truthy (Some sub) = true ->
        answer = Returned {| status := 200; jsonBody := sub |}) /\
    (forall payload,
        body = Some payload -> payload <> JNull ->
        truthy (dataOf payload) = false ->
        answer = Returned {| status := 200; jsonBody := payload |}) /\
    (forall sub, isObject sub = true -> truthy (Some sub) = true) /\
    (truthy None = false /\ truthy (Some JNull) = false /\
     truthy (Some (JBool false)) = false /\
     truthy (Some (JNumber 0)) = false /\
     truthy (Some (JString "")) = false) /\
    (body = None \/ body = Some JNull ->
     answer
     = Returned {| status := 500;
                   jsonBody := JObject [("error"%string,
                                JString "Failed to fetch Hackatime data")] |}).
Proof.
  intros env zone now transport request username st body Hu Hne Hresp Hst
         answer.
  subst answer.
  rewrite (HackatimeRoute_GET_run env zone now transport request username []
             Hu Hne).
  lazy zeta. rewrite Hresp.
  replace ((200 <=? st) && (st <=? 299)) with true
    by (symmetry; apply andb_true_iff; split; apply Z.leb_le; lia).
  split; [| split; [| split; [| split]]].
  - intros payload sub -> Hnn Hdata Htruthy.
    rewrite (getProperty_data payload Hnn), Hdata, Htruthy. reflexivity.
  - intros payload -> Hnn Hfalsy.
    rewrite (getProperty_data payload Hnn), Hfalsy. reflexivity.
  - intros sub Hobj. destruct sub; try discriminate; reflexivity.
  - repeat split.
  - intros [-> | ->]; reflexivity.
Qed.

Lemma hackatime_returns_data_or_payload_witness :
  fst (HackatimeRoute.GET (envWith None (Some "shyam"%string))
         (JSDate.fixedZone 0) 1710500000123
         (respondingWith examplePayloadWithData)
         (requestWithRange "last_7_days") [])
  = Returned {| status := 200;
                jsonBody := JObject [("total_seconds"%string,
                                      JNumber 3600)] |} /\
  fst (HackatimeRoute.GET (envWith None (Some "shyam"%string))
         (JSDate.fixedZone 0) 1710500000123
         (respondingWith examplePayloadRaw)
         (requestWithRange "last_7_days") [])
  = Returned {| status := 200; jsonBody := examplePayloadRaw |}.
Proof.
  split.
  - refine (proj1 (hackatime_returns_data_or_payload
                     (envWith None (Some "shyam"%string))
                     (JSDate.fixedZone 0) 1710500000123
                     (respondingWith examplePayloadWithData)
                     (requestWithRange "last_7_days") "shyam"%string 200 _
                     eq_refl _ eq_refl _) _ _ eq_refl _ eq_refl eq_refl).
    + discriminate.
    + lia.
    + discriminate.
  - refine (proj1 (proj2 (hackatime_returns_data_or_payload
                     (envWith None (Some "shyam"%string))
                     (JSDate.fixedZone 0) 1710500000123
                     (respondingWith examplePayloadRaw)
                     (requestWithRange "last_7_days") "shyam"%string 200 _
                     eq_refl _ eq_refl _)) _ eq_refl _ eq_refl).
    + discriminate.
    + lia.
    + discriminate.
Defined.

Lemma rangeOf_no_parameter (request : HackatimeRoute.IncomingRequest) :
  HackatimeRoute.searchParams_get "range"
    (HackatimeRoute.searchParams request) = None ->
  HackatimeRoute.rangeOf request = "all_time"%string.
Proof. unfold HackatimeRoute.rangeOf. now intros ->. Qed.

Lemma rangeOf_empty_parameter (request : HackatimeRoute.IncomingRequest) :
  HackatimeRoute.searchParams_get "range"
    (HackatimeRoute.searchParams request) = Some ""%string ->
  HackatimeRoute.rangeOf request = "all_time"%string.
Proof. unfold HackatimeRoute.rangeOf. now intros ->. Qed.

(** A range parameter that is present and not empty is the range the
    handler works with. *)
Lemma rangeOf_parameter (request : HackatimeRoute.IncomingRequest)
    (range : string) :
  HackatimeRoute.searchParams_get "range"
    (HackatimeRoute.searchParams request) = Some range ->
  range <> ""%string ->
  HackatimeRoute.rangeOf request = range.
Proof.
  unfold HackatimeRoute.rangeOf. intros -> Hne.
  destruct (String.eqb_spec range ""); [contradiction | reflexivity].
Qed.

(** Where the server's zone changes its offset within the window, the
    written dates are not seven days apart.  New York, 15 March 2024,
    23:30 UTC (19:30 local,
    four hours behind UTC): seven days earlier on the local calendar is
    8 March, 19:30 local, five hours behind UTC, which is 9 March, 00:30
    UTC.  The window written for [last_7_days] runs from 2024-03-09 to
    2024-03-15: it starts six days back, where seven days back is
    2024-03-08. *)
Lemma getDateRange_daylight_saving_counterexample :
  let now := 1710545400000 in
  let window :=
    HackatimeRoute.getDateRange newYorkMarch2024 now "last_7_days" in
  JSDate.toISOString now = "2024-03-15T23:30:00.000Z"%string /\
  window = {| HackatimeRoute.start_date := "2024-03-09"%string;
              HackatimeRoute.end_date := "2024-03-15"%string |} /\
  HackatimeRoute.fmt (daysBack now 7) = "2024-03-08"%string /\
  HackatimeRoute.start_date window <> HackatimeRoute.fmt (daysBack now 7) /\
  HackatimeRoute.start_date window = HackatimeRoute.fmt (daysBack now 6).
Proof.
  intros now window.
  assert (Hw : window
               = {| HackatimeRoute.start_date := "2024-03-09"%string;
                    HackatimeRoute.end_date := "2024-03-15"%string |})
    by (vm_compute; reflexivity).
  assert (Hback : HackatimeRoute.fmt (daysBack now 7) = "2024-03-08"%string)
    by (vm_compute; reflexivity).
  split; [vm_compute; reflexivity |].
  split; [exact Hw |].
  split; [exact Hback |].
  split; [rewrite Hw, Hback; discriminate |].
  rewrite Hw. vm_compute. reflexivity.
Qed.

(** C6 (amended): the dates are written as the calendar date of the UTC
    day; the window always ends at the current date; for the four range
    keys it starts 7 days, 30 days, 6 months and 1 year back on the
    calendar of the server's zone, at the same local time of day, and
    where the zone keeps one offset the first two are exactly 7 and 30
    times 24 hours before now; it starts 10 years back for [all_time],
    for any value that is none of the four keys and for an absent or
    empty parameter; a parameter that is present and not empty is the
    range the window is computed for; and no range value keeps the
    request from being passed upstream, with the window of its range. *)
Theorem getDateRange_windows :
  forall (zone : JSDate.TimeZone) (now : Z),
    let window := HackatimeRoute.getDateRange zone now in
    (forall tv, HackatimeRoute.fmt tv = isoDate tv) /\
    (forall range,
        HackatimeRoute.end_date (window range) = HackatimeRoute.fmt now) /\
    HackatimeRoute.start_date (window "last_7_days"%string)
    = HackatimeRoute.fmt (localDaysBack zone now 7) /\
    HackatimeRoute.start_date (window "last_30_days"%string)
    = HackatimeRoute.fmt (localDaysBack zone now 30) /\
    HackatimeRoute.start_date (window "last_6_months"%string)
    = HackatimeRoute.fmt (monthsBack zone now 6) /\
    HackatimeRoute.start_date (window "last_year"%string)
    = HackatimeRoute.fmt (yearsBack zone now 1) /\
    HackatimeRoute.start_date (window "all_time"%string)
    = HackatimeRoute.fmt (yearsBack zone now 10) /\
    (forall tza, zone = JSDate.fixedZone tza ->
        HackatimeRoute.start_date (window "last_7_days"%string)
        = HackatimeRoute.fmt (daysBack now 7) /\
        HackatimeRoute.start_date (window "last_30_days"%string)
        = HackatimeRoute.fmt (daysBack now 30) /\
        JSDate.Day (daysBack now 7) = JSDate.Day now - 7 /\
        JSDate.Day (daysBack now 30) = JSDate.Day now - 30) /\
    (forall range, recognizedRange range = false ->
                   window range = window "all_time"%string) /\
    (forall request,
        HackatimeRoute.searchParams_get "range"
          (HackatimeRoute.searchParams request) = None \/
        HackatimeRoute.searchParams_get "range"
          (HackatimeRoute.searchParams request) = Some ""%string ->
        HackatimeRoute.rangeOf request = "all_time"%string) /\
    (forall request range,
        HackatimeRoute.searchParams_get "range"
          (HackatimeRoute.searchParams request) = Some range ->
        range <> ""%string ->
        HackatimeRoute.rangeOf request = range) /\
    (forall env transport request username,
        HACKATIME_USERNAME env = Some username -> username <> ""%string ->
        networkCalls
          (snd (HackatimeRoute.GET env zone now transport request []))
        = [ HackatimeRoute.statsRequest username (HACKATIME_API_KEY env)
              (window (HackatimeRoute.rangeOf request)) ]).
Proof.
  intros zone now window. subst window.
  split; [exact TextFacts.fmt_isoDate |].
  split; [intros range; now rewrite getDateRange_cases |].
  do 5 (split; [rewrite getDateRange_cases; reflexivity |]).
  split.
  { intros tza ->. rewrite !getDateRange_cases.
    cbn [HackatimeRoute.start_date].
    change (String.eqb "last_7_days" "last_7_days") with true.
    change (String.eqb "last_30_days" "last_7_days") with false.
    change (String.eqb "last_30_days" "last_30_days") with true.
    cbv iota. rewrite !localDaysBack_fixedZone, !Day_daysBack.
    repeat split. }
  split; [intros range; apply getDateRange_fallback |].
  split.
  { intros request [H | H];
      [exact (rangeOf_no_parameter request H)
      | exact (rangeOf_empty_parameter request H)]. }
  split; [exact rangeOf_parameter |].
  intros env transport request username.
  apply HackatimeRoute_GET_calls.
Qed.

Lemma getDateRange_windows_witness :
  let zone := JSDate.fixedZone 19800000 in
  let now := 1710500000123 in
  HackatimeRoute.start_date (HackatimeRoute.getDateRange zone now "last_7_days")
  = HackatimeRoute.fmt (daysBack now 7) /\
  HackatimeRoute.getDateRange zone now "yesterday"
  = HackatimeRoute.getDateRange zone now "all_time" /\
  HackatimeRoute.rangeOf requestWithoutRange = "all_time"%string /\
  HackatimeRoute.rangeOf (requestWithRange "last_30_days")
  = "last_30_days"%string /\
  networkCalls
    (snd (HackatimeRoute.GET (envWith None (Some "shyam"%string)) zone now
            (respondingWith examplePayloadRaw)
            (requestWithRange "last_7_days") []))
  = [ HackatimeRoute.statsRequest "shyam" None
        (HackatimeRoute.getDateRange zone now
           (HackatimeRoute.rangeOf (requestWithRange "last_7_days"))) ].
Proof.
  intros zone now.
  pose proof (getDateRange_windows zone now)
    as (_ & _ & _ & _ & _ & _ & _ & Hfixed & Hfallback & Habsent & Hgiven
        & Hcalls).
  split; [exact (proj1 (Hfixed 19800000 eq_refl)) |].
  split; [exact (Hfallback "yesterday"%string eq_refl) |].
  split; [exact (Habsent requestWithoutRange (or_introl eq_refl)) |].
  split.
  { refine (Hgiven (requestWithRange "last_30_days") "last_30_days"%string
                   eq_refl _).
    discriminate. }
  refine (Hcalls (envWith None (Some "shyam"%string))
                 (respondingWith examplePayloadRaw)
                 (requestWithRange "last_7_days") "shyam"%string eq_refl _).
  discriminate.
Defined.

(** The windows on 15 March 2024, 10:53 UTC, in a zone five and a half
    hours ahead; the request sent upstream for [?range=last_7_days]. *)
Example getDateRange_2024_03_15 :
  let zone := JSDate.fixedZone 19800000 in
  let window := HackatimeRoute.getDateRange zone 1710500000123 in
  window "last_7_days"%string
  = {| HackatimeRoute.start_date := "2024-03-08"%string;
       HackatimeRoute.end_date := "2024-03-15"%string |} /\
  window "last_30_days"%string
  = {| HackatimeRoute.start_date := "2024-02-14"%string;
       HackatimeRoute.end_date := "2024-03-15"%string |} /\
  window "last_6_months"%string
  = {| HackatimeRoute.start_date := "2023-09-15"%string;
       HackatimeRoute.end_date := "2024-03-15"%string |} /\
  window "last_year"%string
  = {| HackatimeRoute.start_date := "2023-03-15"%string;
       HackatimeRoute.end_date := "2024-03-15"%string |} /\
  window "all_time"%string
  = {| HackatimeRoute.start_date := "2014-03-15"%string;
       HackatimeRoute.end_date := "2024-03-15"%string |} /\
  window "fortnight"%string = window "all_time"%string /\
  map url
    (networkCalls
       (snd (HackatimeRoute.GET (envWith None (Some "shyam"%string)) zone
               1710500000123 (respondingWith examplePayloadRaw)
               (requestWithRange "last_7_days") [])))
  = [ "https://hackatime.hackclub.com/api/v1/users/shyam/stats?start_date=2024-03-08&end_date=2024-03-15"%string ].
Proof. vm_compute. repeat split. Qed.

(** ** Properties of the range selection *)

Module ComponentFacts.
Import Component.

Lemma hackatimeEffect_committed m : committed (hackatimeEffect m).
Proof.
  unfold committed, hackatimeEffect.
  destruct (effectRange m) as [r |] eqn:Hr; [| reflexivity].
  destruct (String.eqb_spec r (activeRange (state m))) as [-> | Hne];
    simpl; [exact Hr | reflexivity].
Qed.

Lemma step_committed m a : committed m -> committed (step m a).
Proof.
  intros Hm. destruct a; simpl; try exact Hm.
  unfold handleRangeChange.
  destruct (String.eqb range (activeRange (state m)));
    [exact Hm | apply hackatimeEffect_committed].
Qed.

(** Every state the component reaches is committed. *)
Lemma after_committed actions : committed (after actions).
Proof.
  unfold after.
  assert (H : committed mount) by apply hackatimeEffect_committed.
  revert H. generalize mount.
  induction actions as [| a actions IH]; intros m Hm; simpl; [exact Hm |].
  apply IH. now apply step_committed.
Qed.

Lemma handleRangeChange_same m :
  handleRangeChange (activeRange (state m)) m = m.
Proof. unfold handleRangeChange. now rewrite String.eqb_refl. Qed.

(** A different range: the new range becomes active and one fetch cycle
    starts, with the loading flag set, the error flag reset and the data
    cleared; the calendar's cells and the tooltip are not touched. *)
Lemma handleRangeChange_other m range :
  committed m -> range <> activeRange (state m) ->
  handleRangeChange range m
  = {| state :=
         {| githubData := githubData (state m);
            hackatimeData := None;
            loadingGithub := loadingGithub (state m);
            loadingHackatime := true;
            errorGithub := errorGithub (state m);
            errorHackatime := false;
            activeRange := range;
            tooltip := tooltip (state m) |};
       fetched := fetched m ++ [hackatimeUrl range];
       effectRange := Some range |}.
Proof.
  intros Hm Hne. unfold handleRangeChange.
  destruct (String.eqb_spec range (activeRange (state m)));
    [contradiction |].
  unfold hackatimeEffect. cbn [update effectRange state setActiveRange
                                activeRange].
  rewrite Hm.
  destruct (String.eqb_spec (activeRange (state m)) range);
    [congruence | reflexivity].
Qed.

Lemma snoc_neq {A : Type} (l : list A) (x : A) : l ++ [x] <> l.
Proof.
  intros H. apply (f_equal (@List.length A)) in H.
  rewrite length_app in H. simpl in H. lia.
Qed.

End ComponentFacts.

(** C8: in every state the component reaches, the range handler called
    with the active range returns the component as it is, state and
    fetches alike; called with another range it starts exactly one fetch
    for that range; so a fetch starts exactly when the range differs from
    the active one. *)
Theorem handleRangeChange_active_range_noop :
  forall (actions : list Component.Action),
    let m := Component.after actions in
    let active := Component.activeRange (Component.state m) in
    Component.handleRangeChange active m = m /\
    (forall range, range <> active ->
       Component.fetched (Component.handleRangeChange range m)
       = Component.fetched m ++ [Component.hackatimeUrl range] /\
       Component.activeRange
         (Component.state (Component.handleRangeChange range m)) = range /\
       Component.loadingHackatime
         (Component.state (Component.handleRangeChange range m)) = true) /\
    (forall range,
       Component.fetched (Component.handleRangeChange range m)
       = Component.fetched m <-> range = active).
Proof.
  intros actions m active.
  pose proof (ComponentFacts.after_committed actions) as Hm. fold m in Hm.
  split; [apply ComponentFacts.handleRangeChange_same |].
  split.
  - intros range Hne.
    rewrite (ComponentFacts.handleRangeChange_other m range Hm Hne).
    repeat split.
  - intros range. split.
    + intros Hsame. destruct (string_dec range active) as [Heq | Hne];
        [exact Heq | exfalso].
      rewrite (ComponentFacts.handleRangeChange_other m range Hm Hne)
        in Hsame.
      exact (ComponentFacts.snoc_neq _ _ Hsame).
    + intros ->. subst active.
      now rewrite ComponentFacts.handleRangeChange_same.
Qed.

Lemma handleRangeChange_active_range_noop_witness :
  let m := Component.after [Component.HackatimeResolved (Some exampleStats)] in
  Component.handleRangeChange "last_year" m = m /\
  Component.fetched (Component.handleRangeChange "last_7_days" m)
  = ["/api/github"; "/api/hackatime?range=last_year";
     "/api/hackatime?range=last_7_days"]%string.
Proof.
  intros m.
  pose proof (handleRangeChange_active_range_noop
                [Component.HackatimeResolved (Some exampleStats)])
    as (Hsame & Hother & _).
  split; [exact Hsame |].
  refine (proj1 (Hother "last_7_days"%string _)). discriminate.
Defined.

(** C9: in every state the component reaches, a change to another range
    leaves the component loading, with the error flag reset and the
    time-tracking data cleared, at the moment the request for the new
    range has been issued and before any answer to it; the rest of the
    state is kept. *)
Theorem range_change_clears_data :
  forall (actions : list Component.Action) (range : string),
    let m := Component.after actions in
    range <> Component.activeRange (Component.state m) ->
    let m' := Component.handleRangeChange range m in
    Component.hackatimeData (Component.state m') = None /\
    Component.errorHackatime (Component.state m') = false /\
    Component.loadingHackatime (Component.state m') = true /\
    Component.fetched m'
    = Component.fetched m ++ [Component.hackatimeUrl range] /\
    Component.githubData (Component.state m')
    = Component.githubData (Component.state m) /\
    Component.loadingGithub (Component.state m')
    = Component.loadingGithub (Component.state m) /\
    Component.errorGithub (Component.state m')
    = Component.errorGithub (Component.state m).
Proof.
  intros actions range m Hne m'. subst m'.
  rewrite (ComponentFacts.handleRangeChange_other m range
             (ComponentFacts.after_committed actions) Hne).
  repeat split.
Qed.

Lemma range_change_clears_data_witness :
  (let m := Component.after [Component.HackatimeResolved (Some exampleStats)] in
   Component.hackatimeData (Component.state m) = Some exampleStats /\
   Component.hackatimeData
     (Component.state (Component.handleRangeChange "last_7_days" m)) = None) /\
  (let m := Component.after [Component.HackatimeRejected] in
   Component.errorHackatime (Component.state m) = true /\
   Component.errorHackatime
     (Component.state (Component.handleRangeChange "last_30_days" m))
   = false).
Proof.
  split; intros m; (split; [reflexivity |]).
  - assert (Hne : "last_7_days"%string
                  <> Component.activeRange (Component.state m))
      by discriminate.
    exact (proj1 (range_change_clears_data
                    [Component.HackatimeResolved (Some exampleStats)]
                    "last_7_days"%string Hne)).
  - assert (Hne : "last_30_days"%string
                  <> Component.activeRange (Component.state m))
      by discriminate.
    exact (proj1 (proj2 (range_change_clears_data
                           [Component.HackatimeRejected]
                           "last_30_days"%string Hne))).
Defined.

(** * Further properties *)

(** ** The cells of the contribution grid *)

(** X1: every cell has a background colour, whatever integer its count
    is, and it is the colour of level 0 exactly for the count 0. *)
Theorem cellColor_defined :
  forall day : GitHubContributionDay,
    exists c, cellColor day = Some c /\
              (c = "rgba(255, 255, 255, 0.04)"%string
               <-> contributionCount day = 0).
Proof.
  intros day. unfold cellColor, getGitHubLevel.
  destruct (Z.eqb_spec (contributionCount day) 0) as [E | N].
  - eexists. split; [reflexivity |]. tauto.
  - repeat match goal with
           | |- context [?a <=? ?b] => destruct (a <=? b)
           end; cbn;
      (eexists; split; [reflexivity |]); split;
        solve [discriminate | contradiction].
Qed.

(** ** More on the streaks *)

Lemma in_run (days : list GitHubContributionDay) day :
  In day days -> active day -> run_in days [day].
Proof.
  intros Hin Hact. split; [now constructor |].
  apply in_split in Hin as (pre & post & ->). exists pre, post. reflexivity.
Qed.

(** X2: the longest streak is 0 exactly when no day has a contribution;
    the current streak is 0 exactly when there is no day or the last day
    has none. *)
Theorem streaks_zero_iff :
  forall ws : list GitHubContributionWeek,
    let r := computeGitHubStreaks ws in
    (longestStreak r = 0 <->
     forall day, In day (allDaysOf ws) -> ~ active day) /\
    (currentStreak r = 0 <->
     allDaysOf ws = [] \/
     exists pre day, allDaysOf ws = pre ++ [day] /\ ~ active day).
Proof.
  intros ws r. subst r.
  pose proof (computeGitHubStreaks_longest ws) as Hlong.
  pose proof (computeGitHubStreaks_current ws) as Hcur.
  split; split.
  - intros H0 day Hin Hact. destruct Hlong as [_ Hmax].
    specialize (Hmax [day] (in_run _ _ Hin Hact)).
    change (Z.of_nat (List.length [day])) with 1 in Hmax. lia.
  - intros Hnone. destruct Hlong as [(run & Hrun & Hlen) _].
    rewrite (no_active_run_nil _ _ Hnone Hrun) in Hlen.
    rewrite <- Hlen. reflexivity.
  - intros H0. destruct Hcur as (pre & suf & Heq & _ & Hlen & Hstop).
    rewrite H0 in Hlen. destruct suf; [| simpl in Hlen; lia].
    rewrite app_nil_r in Heq. rewrite Heq.
    destruct Hstop as [-> | (pre' & day & -> & Hday)]; [now left |].
    right. eauto.
  - intros [Hnil | (pre & day & Heq & Hday)].
    + apply (trailing_unique (allDaysOf ws)); [exact Hcur |].
      rewrite Hnil. apply trailing_nil.
    + apply (trailing_unique (allDaysOf ws)); [exact Hcur |].
      rewrite Heq. now apply trailing_snoc_inactive.
Qed.

Lemma run_length_le days run :
  run_in days run -> (List.length run <= List.length days)%nat.
Proof.
  intros [_ (pre & post & ->)]. rewrite !length_app. lia.
Qed.

Lemma run_whole days run :
  run_in days run -> List.length run = List.length days -> run = days.
Proof.
  intros [_ (pre & post & ->)] Hlen. rewrite !length_app in Hlen.
  destruct pre; [| simpl in Hlen; lia].
  destruct post; [| simpl in Hlen; lia].
  simpl. now rewrite app_nil_r.
Qed.

(** X3: neither streak exceeds the number of days, and each equals it
    exactly when every day has a contribution. *)
Theorem streaks_bounded_by_days :
  forall ws : list GitHubContributionWeek,
    let r := computeGitHubStreaks ws in
    let n := Z.of_nat (List.length (allDaysOf ws)) in
    currentStreak r <= n /\ longestStreak r <= n /\
    (longestStreak r = n <-> Forall active (allDaysOf ws)) /\
    (currentStreak r = n <-> Forall active (allDaysOf ws)).
Proof.
  intros ws r n. subst r n.
  pose proof (computeGitHubStreaks_longest ws) as Hlong.
  pose proof (computeGitHubStreaks_current ws) as Hcur.
  destruct Hlong as [(run & Hrun & Hlen) Hmax].
  destruct (trailing_is_run _ _ Hcur) as (suf & Hsuf & Hsuflen).
  pose proof (run_length_le _ _ Hrun) as Hle.
  pose proof (run_length_le _ _ Hsuf) as Hle'.
  assert (Hwhole_trailing :
            Forall active (allDaysOf ws) ->
            trailing_run_length (allDaysOf ws)
              (Z.of_nat (List.length (allDaysOf ws)))).
  { intros Hact. exists [], (allDaysOf ws). repeat split; auto. }
  split; [lia |]. split; [lia |]. split; split.
  - intros Heq. assert (Hrl : List.length run = List.length (allDaysOf ws))
      by lia.
    rewrite <- (run_whole _ _ Hrun Hrl). apply Hrun.
  - intros Hall.
    assert (Hwhole : run_in (allDaysOf ws) (allDaysOf ws)).
    { split; [assumption |]. exists [], []. simpl. now rewrite app_nil_r. }
    specialize (Hmax _ Hwhole). lia.
  - intros Heq. assert (Hrl : List.length suf = List.length (allDaysOf ws))
      by lia.
    rewrite <- (run_whole _ _ Hsuf Hrl). apply Hsuf.
  - intros Hall. exact (trailing_unique _ _ _ Hcur (Hwhole_trailing Hall)).
Qed.

Lemma allDaysOf_snoc_day ws day :
  allDaysOf (ws ++ [weekOfDay day]) = allDaysOf ws ++ [day].
Proof.
  unfold allDaysOf. rewrite flat_map_app. reflexivity.
Qed.

(** X4: one more day at the end of the calendar: with a contribution it
    lengthens the current streak by one and the longest streak becomes the
    larger of the old one and the new current one; without, the current
    streak falls to 0 and the longest one stays. *)
Theorem streaks_append_day :
  forall (ws : list GitHubContributionWeek) (day : GitHubContributionDay),
    let r := computeGitHubStreaks ws in
    let r' := computeGitHubStreaks (ws ++ [weekOfDay day]) in
    (active day ->
     currentStreak r' = currentStreak r + 1 /\
     longestStreak r' = Z.max (longestStreak r) (currentStreak r + 1)) /\
    (~ active day ->
     currentStreak r' = 0 /\ longestStreak r' = longestStreak r).
Proof.
  intros ws day r r'. subst r r'.
  pose proof (computeGitHubStreaks_longest ws) as Hlong.
  pose proof (computeGitHubStreaks_current ws) as Hcur.
  pose proof (computeGitHubStreaks_longest (ws ++ [weekOfDay day])) as Hlong'.
  pose proof (computeGitHubStreaks_current (ws ++ [weekOfDay day])) as Hcur'.
  rewrite allDaysOf_snoc_day in Hlong', Hcur'.
  split; intros Hday; split.
  - exact (trailing_unique _ _ _ Hcur'
             (trailing_snoc_active _ _ _ Hcur Hday)).
  - exact (max_run_length_unique _ _ _ Hlong'
             (max_run_length_snoc_active _ _ _ _ Hlong Hcur Hday)).
  - exact (trailing_unique _ _ _ Hcur' (trailing_snoc_inactive _ _ Hday)).
  - exact (max_run_length_unique _ _ _ Hlong'
             (max_run_length_snoc_inactive _ _ _ Hlong Hday)).
Qed.

Lemma streaks_append_day_witness :
  let ws := [weekWithCounts [2; 0; 1]] in
  currentStreak (computeGitHubStreaks (ws ++ [weekOfDay (dayWithCount 4)]))
  = currentStreak (computeGitHubStreaks ws) + 1 /\
  currentStreak (computeGitHubStreaks (ws ++ [weekOfDay (dayWithCount 0)]))
  = 0.
Proof.
  intros ws. split.
  - refine (proj1 (proj1 (streaks_append_day ws (dayWithCount 4)) _)).
    unfold active. simpl. lia.
  - refine (proj1 (proj2 (streaks_append_day ws (dayWithCount 0)) _)).
    unfold active. simpl. lia.
Defined.

Lemma allDaysOf_filter_hasDays ws :
  allDaysOf (filter hasDays ws) = allDaysOf ws.
Proof.
  unfold allDaysOf. induction ws as [| w ws IH]; [reflexivity |].
  simpl. unfold hasDays at 1.
  destruct (contributionDays w) as [| d ds] eqn:Hd; simpl.
  - exact IH.
  - rewrite Hd, IH. reflexivity.
Qed.

(** X5: the streaks depend on the sequence of the days' counts alone:
    two calendars with the same counts in the same order have the same
    streaks, however the days are grouped into weeks and whatever their
    dates, colours and weekdays are; weeks without days do not count. *)
Theorem streaks_depend_on_counts :
  forall ws ws' : list GitHubContributionWeek,
    (map contributionCount (allDaysOf ws)
     = map contributionCount (allDaysOf ws') ->
     computeGitHubStreaks ws = computeGitHubStreaks ws') /\
    computeGitHubStreaks (filter hasDays ws) = computeGitHubStreaks ws.
Proof.
  intros ws ws'. split.
  - apply computeGitHubStreaks_counts.
  - apply computeGitHubStreaks_counts.
    now rewrite allDaysOf_filter_hasDays.
Qed.

Lemma streaks_depend_on_counts_witness :
  computeGitHubStreaks [weekWithCounts [1; 2]; weekWithCounts [0; 3]]
  = computeGitHubStreaks
      [ {| contributionDays :=
             [ {| contributionCount := 1; date := "2024-01-01";
                  color := "#0e4429"; weekday := 1 |} ] |};
        weekWithCounts []; weekWithCounts [2; 0; 3] ].
Proof.
  refine (proj1 (streaks_depend_on_counts
                   [weekWithCounts [1; 2]; weekWithCounts [0; 3]] _) _).
  reflexivity.
Defined.

(** ** More on the month labels *)

Lemma Adjacent_nil {A : Type} (R : A -> A -> Prop) : Adjacent R [].
Proof. intros pre a b post H. destruct pre; discriminate. Qed.

Lemma Adjacent_snoc {A : Type} (R : A -> A -> Prop) (l : list A) (x : A) :
  Adjacent R l ->
  (forall a, last (map Some l) None = Some a -> R a x) ->
  Adjacent R (l ++ [x]).
Proof.
  intros Hl Hx pre a b post Heq.
  destruct (list_snoc_cases post) as [-> | (post' & y & ->)].
  - change (pre ++ [a; b]) with (pre ++ [a] ++ [b]) in Heq.
    rewrite app_assoc in Heq. apply app_inj_tail in Heq as [-> ->].
    apply Hx. apply last_map_Some_snoc.
  - change (pre ++ a :: b :: post' ++ [y])
      with (pre ++ (a :: b :: post') ++ [y]) in Heq.
    rewrite app_assoc in Heq. apply app_inj_tail in Heq as [-> _].
    exact (Hl pre a b post' eq_refl).
Qed.

Lemma Adjacent_impl {A : Type} (R R' : A -> A -> Prop) (l : list A) :
  (forall a b, In a l -> In b l -> R a b -> R' a b) ->
  Adjacent R l -> Adjacent R' l.
Proof.
  intros Himpl Hl pre a b post Heq. apply Himpl.
  - rewrite Heq. apply in_or_app. right. now left.
  - rewrite Heq. apply in_or_app. right. right. now left.
  - exact (Hl pre a b post Heq).
Qed.

Lemma monthOfWeek_hasDays zone w :
  (exists month, monthOfWeek zone w = Some month) <-> hasDays w = true.
Proof.
  unfold monthOfWeek, hasDays. destruct (contributionDays w); split;
    try reflexivity; try discriminate; eauto.
  intros [m H]. discriminate.
Qed.

Lemma LabelsWellFormed_initial zone :
  LabelsWellFormed zone [] initialLabelState.
Proof.
  unfold LabelsWellFormed. simpl.
  repeat split; try constructor. apply Adjacent_nil.
Qed.

Lemma LabelsWellFormed_step zone ws w st :
  LabelsWellFormed zone ws st ->
  LabelsWellFormed zone (ws ++ [w]) (monthLabelsCallback zone st w).
Proof.
  intros (Hidx & Hcols & Hsorted & Hlast & Hadj & Hcount).
  set (n := Z.of_nat (List.length ws)) in *.
  assert (Hlen : Z.of_nat (List.length (ws ++ [w])) = n + 1)
    by (rewrite length_app; simpl; lia).
  assert (Hcols' :
            Forall (fun l => 0 <= col l < n + 1 /\
                             exists month,
                               monthAtCol zone (ws ++ [w]) (col l) = Some month /\
                               label l = monthLabelAt month) (labels st)).
  { eapply Forall_impl; [| exact Hcols]. simpl.
    intros l (Hl & month & Hm & Hlab). split; [lia |].
    exists month. now rewrite monthAtCol_app_lt. }
  assert (Hbelow : Forall (fun l => col l < n) (labels st))
    by (eapply Forall_impl; [| exact Hcols]; simpl; intros l [? _]; lia).
  assert (Hrange : forall l, In l (labels st) -> 0 <= col l < n).
  { rewrite Forall_forall in Hcols. intros l Hl. now apply Hcols. }
  assert (Hadj' : Adjacent (monthsDiffer zone (ws ++ [w])) (labels st)).
  { eapply Adjacent_impl; [| exact Hadj].
    intros a b Ha Hb (ma & mb & Hma & Hmb & Hne).
    exists ma, mb. rewrite !monthAtCol_app_lt by auto. auto. }
  assert (Hlast' :
            match last (map Some (labels st)) None with
            | None => lastMonth st = Num (-1)
            | Some prev =>
                monthAtCol zone (ws ++ [w]) (col prev) = Some (lastMonth st)
            end).
  { destruct (last (map Some (labels st)) None) as [prev |] eqn:Hprev;
      [| exact Hlast].
    apply last_map_Some_In in Hprev.
    now rewrite monthAtCol_app_lt by auto. }
  assert (Hfilter : List.length (filter hasDays (ws ++ [w]))
                    = (List.length (filter hasDays ws)
                       + (if hasDays w then 1 else 0))%nat).
  { rewrite filter_app, length_app. simpl. now destruct (hasDays w). }
  unfold LabelsWellFormed, monthLabelsCallback, monthStep.
  destruct (monthOfWeek zone w) as [month |] eqn:Hw.
  - assert (Hdays : hasDays w = true)
      by (apply (monthOfWeek_hasDays zone); eauto).
    rewrite Hdays in Hfilter.
    destruct (strictNotEqual month (lastMonth st)) eqn:Hne;
      cbn [labels lastMonth index]; rewrite Hlen.
    + split; [lia |]. split.
      { apply Forall_app. split; [assumption |].
        constructor; [| constructor]. cbn [col label]. split; [lia |].
        exists month. rewrite Hidx. now rewrite monthAtCol_app_eq. }
      split.
      { rewrite map_app. apply StronglySorted_snoc; [assumption |].
        simpl. rewrite Hidx. apply Forall_map. exact Hbelow. }
      split.
      { rewrite last_map_Some_snoc. cbn [col]. rewrite Hidx.
        now rewrite monthAtCol_app_eq. }
      split.
      { apply Adjacent_snoc; [assumption |].
        intros a Ha. rewrite Ha in Hlast'.
        exists (lastMonth st), month. cbn [col]. rewrite Hidx.
        now rewrite monthAtCol_app_eq. }
      rewrite length_app. simpl. lia.
    + split; [lia |]. repeat (split; [assumption |]). lia.
  - cbn [labels lastMonth index]. rewrite Hlen.
    split; [lia |]. repeat (split; [assumption |]). lia.
Qed.

Lemma LabelsWellFormed_weeks zone ws :
  LabelsWellFormed zone ws
    (fold_left (monthLabelsCallback zone) ws initialLabelState).
Proof.
  induction ws as [| w ws IH] using rev_ind.
  - apply LabelsWellFormed_initial.
  - rewrite labelState_snoc. now apply LabelsWellFormed_step.
Qed.

Lemma monthAtCol_hasDays zone ws c month :
  monthAtCol zone ws c = Some month ->
  exists week, 0 <= c /\ nth_error ws (Z.to_nat c) = Some week /\
               hasDays week = true.
Proof.
  unfold monthAtCol. destruct (Z.ltb_spec c 0); [discriminate |].
  destruct (nth_error ws (Z.to_nat c)) as [week |]; [| discriminate].
  intros Hm. exists week. repeat split; [assumption |].
  apply (monthOfWeek_hasDays zone). eauto.
Qed.

(** X9: whatever the weeks are, every label stands at the column of a
    week that has days, the columns increase strictly, there are at most
    as many labels as weeks with days, and a week without days never
    carries a label. *)
Theorem getMonthLabels_columns :
  forall (zone : JSDate.TimeZone) (ws : list GitHubContributionWeek),
    let ls := getMonthLabels zone ws in
    Forall (fun l => exists week,
                0 <= col l /\
                nth_error ws (Z.to_nat (col l)) = Some week /\
                hasDays week = true) ls /\
    StronglySorted Z.lt (map col ls) /\
    (List.length ls <= List.length (filter hasDays ws))%nat /\
    (forall (i : nat) week,
        nth_error ws i = Some week -> hasDays week = false ->
        ~ In (Z.of_nat i) (map col ls)).
Proof.
  intros zone ws ls.
  destruct (LabelsWellFormed_weeks zone ws)
    as (_ & Hcols & Hsorted & _ & _ & Hcount).
  change (labels (fold_left (monthLabelsCallback zone) ws initialLabelState))
    with ls in Hcols, Hsorted, Hcount.
  assert (Hweeks :
            Forall (fun l => exists week,
                        0 <= col l /\
                        nth_error ws (Z.to_nat (col l)) = Some week /\
                        hasDays week = true) ls).
  { eapply Forall_impl; [| exact Hcols]. simpl.
    intros l (_ & month & Hm & _). eapply monthAtCol_hasDays; eassumption. }
  repeat split; try assumption.
  intros i week Hnth Hno Hin.
  apply in_map_iff in Hin as (l & Hcol & Hl).
  rewrite Forall_forall in Hweeks.
  destruct (Hweeks l Hl) as (week' & _ & Hnth' & Hdays).
  rewrite Hcol, Nat2Z.id, Hnth in Hnth'. congruence.
Qed.

Lemma MONTH_LABELS_NoDup : NoDup MONTH_LABELS.
Proof.
  unfold MONTH_LABELS.
  repeat (constructor; [simpl; intuition discriminate |]). constructor.
Qed.

Lemma monthLabelAt_inj (x y : Z) (s : string) :
  monthLabelAt (Num x) = Some s -> monthLabelAt (Num y) = Some s -> x = y.
Proof.
  unfold monthLabelAt.
  destruct (Z.ltb_spec x 0); [discriminate |].
  destruct (Z.ltb_spec y 0); [discriminate |].
  intros Hx Hy.
  assert (Hlt : (Z.to_nat x < List.length MONTH_LABELS)%nat)
    by (apply nth_error_Some; congruence).
  pose proof (proj1 (NoDup_nth_error MONTH_LABELS) MONTH_LABELS_NoDup
                (Z.to_nat x) (Z.to_nat y) Hlt) as Hinj.
  rewrite Hx, Hy in Hinj. specialize (Hinj eq_refl). lia.
Qed.

Lemma StronglySorted_neighbours (l : list Z) pre a b post :
  StronglySorted Z.lt l -> l = pre ++ a :: b :: post -> a < b.
Proof.
  intros Hs ->. induction pre as [| p pre IH]; simpl in Hs.
  - inversion Hs as [| ? ? _ Ha]; subst. now inversion Ha.
  - inversion Hs; subst. now apply IH.
Qed.

(** X7: two neighbouring labels stand for months that differ, the later
    one at a greater column, and they never show the same month name. *)
Theorem getMonthLabels_neighbours_differ :
  forall (zone : JSDate.TimeZone) (ws : list GitHubContributionWeek)
         (pre : list MonthLabel) (a b : MonthLabel) (post : list MonthLabel),
    getMonthLabels zone ws = pre ++ a :: b :: post ->
    monthsDiffer zone ws a b /\ col a < col b /\
    (label a = label b -> label a = None).
Proof.
  intros zone ws pre a b post Heq.
  destruct (LabelsWellFormed_weeks zone ws)
    as (_ & Hcols & Hsorted & _ & Hadj & _).
  change (labels (fold_left (monthLabelsCallback zone) ws initialLabelState))
    with (getMonthLabels zone ws) in Hcols, Hsorted, Hadj.
  pose proof (Hadj pre a b post Heq) as Hdiff.
  split; [exact Hdiff |]. split.
  - apply (StronglySorted_neighbours _ (map col pre) (col a) (col b)
             (map col post) Hsorted).
    rewrite Heq, map_app. reflexivity.
  - intros Hsame.
    destruct Hdiff as (ma & mb & Hma & Hmb & Hne).
    rewrite Forall_forall in Hcols.
    destruct (Hcols a) as (_ & ma' & Hma' & Hla);
      [rewrite Heq; apply in_or_app; right; now left |].
    destruct (Hcols b) as (_ & mb' & Hmb' & Hlb);
      [rewrite Heq; apply in_or_app; right; right; now left |].
    rewrite Hma in Hma'. injection Hma' as <-.
    rewrite Hmb in Hmb'. injection Hmb' as <-.
    destruct (label a) as [s |] eqn:Hs; [exfalso | reflexivity].
    destruct ma as [x |]; [| discriminate].
    destruct mb as [y |]; [| rewrite <- Hsame in Hlb; discriminate].
    rewrite <- Hsame in Hlb.
    pose proof (monthLabelAt_inj x y s (eq_sym Hla) (eq_sym Hlb)) as Hxy.
    simpl in Hne. subst y. rewrite Z.eqb_refl in Hne. discriminate.
Qed.

Lemma getMonthLabels_neighbours_differ_witness :
  let ws := [ weekStartingOn "2024-01-28"; weekStartingOn "2024-02-04";
              weekStartingOn "2024-02-11"; weekStartingOn "2024-03-03" ] in
  let jan := {| label := Some "Jan"%string; col := 0 |} in
  let feb := {| label := Some "Feb"%string; col := 1 |} in
  monthsDiffer (JSDate.fixedZone 0) ws jan feb /\ col jan < col feb.
Proof.
  intros ws jan feb.
  assert (Hls : getMonthLabels (JSDate.fixedZone 0) ws
                = [] ++ jan :: feb
                     :: [{| label := Some "Mar"%string; col := 3 |}])
    by (vm_compute; reflexivity).
  destruct (getMonthLabels_neighbours_differ (JSDate.fixedZone 0) ws []
              jan feb _ Hls)
    as (Hdiff & Hlt & _).
  split; assumption.
Defined.

Lemma monthOfWeek_zone tza tza' ws week :
  weeksStartOnDates ws -> In week ws ->
  monthOfWeek (JSDate.fixedZone tza) week
  = monthOfWeek (JSDate.fixedZone tza') week.
Proof.
  intros Hdates Hin. unfold monthOfWeek.
  destruct (contributionDays week) as [| firstDay rest] eqn:Hd;
    [reflexivity |].
  destruct (Hdates week firstDay rest Hin Hd) as (y & m & d & Hy & Hv & ->).
  now rewrite !TextFacts.monthOfDateString_dateText.
Qed.

(** X6: when the weeks start on dates written [YYYY-MM-DD], the labels
    are the same in every zone of the browser that keeps one offset, and
    every label shows the month written in the date of its week's first
    day: the week at the label's column has a first day, and however
    that day's date reads as a calendar date [y]-[m]-[d], the label is
    the name of month [m]. *)
Theorem getMonthLabels_zone_independent :
  forall (tza tza' : Z) (ws : list GitHubContributionWeek),
    weeksStartOnDates ws ->
    getMonthLabels (JSDate.fixedZone tza) ws
    = getMonthLabels (JSDate.fixedZone tza') ws /\
    Forall (fun l =>
              exists firstDay rest name,
                option_map contributionDays (nth_error ws (Z.to_nat (col l)))
                = Some (firstDay :: rest) /\
                label l = Some name /\
                (exists y m d,
                    0 <= y <= 9999 /\ validDate y m d /\
                    date firstDay = dateText y m d) /\
                (forall y m d,
                    0 <= y <= 9999 -> validDate y m d ->
                    date firstDay = dateText y m d ->
                    1 <= m <= 12 /\
                    nth_error MONTH_LABELS (Z.to_nat (m - 1)) = Some name))
           (getMonthLabels (JSDate.fixedZone tza) ws).
Proof.
  intros tza tza' ws Hdates. split.
  - unfold getMonthLabels. rewrite !monthLabels_months.
    assert (Hmap : map (monthOfWeek (JSDate.fixedZone tza)) ws
                   = map (monthOfWeek (JSDate.fixedZone tza')) ws).
    { apply map_ext_in. intros week Hin.
      now apply (monthOfWeek_zone tza tza' ws). }
    now rewrite Hmap.
  - destruct (LabelsWellFormed_weeks (JSDate.fixedZone tza) ws)
      as (_ & Hcols & _).
    change (labels (fold_left (monthLabelsCallback (JSDate.fixedZone tza)) ws
                      initialLabelState))
      with (getMonthLabels (JSDate.fixedZone tza) ws) in Hcols.
    eapply Forall_impl; [| exact Hcols]. simpl.
    intros l (Hrange & month & Hm & Hlab).
    unfold monthAtCol in Hm.
    destruct (Z.ltb_spec (col l) 0); [discriminate |].
    destruct (nth_error ws (Z.to_nat (col l))) as [week |] eqn:Hnth;
      [| discriminate].
    pose proof (nth_error_In _ _ Hnth) as Hin.
    unfold monthOfWeek in Hm.
    destruct (contributionDays week) as [| firstDay rest] eqn:Hd;
      [discriminate |].
    injection Hm as <-.
    assert (Hname : forall y m d,
               0 <= y <= 9999 -> validDate y m d ->
               date firstDay = dateText y m d ->
               1 <= m <= 12 /\
               label l = nth_error MONTH_LABELS (Z.to_nat (m - 1))).
    { intros y m d Hy Hv Hdate.
      rewrite Hdate, TextFacts.monthOfDateString_dateText in Hlab
        by assumption.
      destruct Hv as [Hmonth _]. split; [exact Hmonth |].
      rewrite Hlab. unfold monthLabelAt.
      destruct (Z.ltb_spec (m - 1) 0); [lia | reflexivity]. }
    destruct (Hdates week firstDay rest Hin Hd)
      as (y & m & d & Hy & Hv & Hdate).
    destruct (Hname y m d Hy Hv Hdate) as [Hmonth Hl].
    destruct (nth_error MONTH_LABELS (Z.to_nat (m - 1))) as [name |] eqn:Hn.
    + exists firstDay, rest, name. simpl. rewrite Hd.
      split; [reflexivity |]. split; [exact Hl |].
      split; [exists y, m, d; split; [exact Hy | split; [exact Hv | exact Hdate]] |].
      intros y' m' d' Hy' Hv' Hdate'.
      destruct (Hname y' m' d' Hy' Hv' Hdate') as [Hmonth' Hl'].
      split; [exact Hmonth' | congruence].
    + exfalso. apply nth_error_None in Hn. simpl in Hn. lia.
Qed.

Lemma getMonthLabels_zone_independent_witness :
  getMonthLabels (JSDate.fixedZone (-28800000))
    [ weekStartingOn (dateText 2024 1 28); weekStartingOn (dateText 2024 2 4) ]
  = getMonthLabels (JSDate.fixedZone 19800000)
      [ weekStartingOn (dateText 2024 1 28);
        weekStartingOn (dateText 2024 2 4) ].
Proof.
  refine (proj1 (getMonthLabels_zone_independent (-28800000) 19800000
                   [ weekStartingOn (dateText 2024 1 28);
                     weekStartingOn (dateText 2024 2 4) ] _)).
  intros week firstDay rest Hin Hd.
  destruct Hin as [<- | [<- | []]]; injection Hd as <- <-.
  - exists 2024, 1, 28. repeat split; try lia; discriminate.
  - exists 2024, 2, 4. repeat split; try lia; discriminate.
Defined.

Lemma monthLabelSpans_length ls n :
  List.length (monthLabelSpans ls n) = List.length ls.
Proof.
  unfold monthLabelSpans.
  rewrite length_map, length_combine, length_seq. lia.
Qed.

(** The spans, label by label. *)
Lemma monthLabelSpans_cons a rest n :
  monthLabelSpans (a :: rest) n
  = (match rest with
     | b :: _ => col b
     | [] => n
     end - col a) :: monthLabelSpans rest n.
Proof.
  apply nth_error_ext. intros [| i].
  - rewrite (monthLabelSpans_nth (a :: rest) n 0 a eq_refl). simpl.
    destruct rest; reflexivity.
  - simpl nth_error at 2.
    destruct (nth_error rest i) as [m |] eqn:Hm.
    + rewrite (monthLabelSpans_nth (a :: rest) n (S i) m Hm).
      rewrite (monthLabelSpans_nth rest n i m Hm). reflexivity.
    + apply nth_error_None in Hm.
      transitivity (@None Z); [| symmetry]; apply nth_error_None;
        rewrite monthLabelSpans_length; simpl; lia.
Qed.

Lemma monthLabelSpans_sum ls n :
  StronglySorted Z.lt (map col ls) -> Forall (fun l => col l < n) ls ->
  Forall (fun s => 0 < s) (monthLabelSpans ls n) /\
  (forall first rest, ls = first :: rest ->
     totalSpan (monthLabelSpans ls n) = n - col first).
Proof.
  induction ls as [| a rest IH]; intros Hs Hn.
  - split; [constructor | discriminate].
  - simpl in Hs. inversion Hs as [| ? ? Hs' Ha]; subst.
    inversion Hn as [| ? ? Han Hn']; subst.
    destruct (IH Hs' Hn') as [Hpos Hsum].
    rewrite monthLabelSpans_cons. split.
    + constructor; [| exact Hpos].
      destruct rest as [| b rest']; [lia |].
      simpl in Ha. inversion Ha; subst. lia.
    + intros first rest0 [= <- <-]. unfold totalSpan in *. simpl.
      destruct rest as [| b rest']; [simpl; lia |].
      rewrite (Hsum b rest' eq_refl). lia.
Qed.

Lemma labels_prefix zone ws :
  forall st, exists extra,
    labels (fold_left (monthLabelsCallback zone) ws st) = labels st ++ extra.
Proof.
  induction ws as [| w ws IH]; intros st; simpl.
  - exists []. now rewrite app_nil_r.
  - destruct (IH (monthLabelsCallback zone st w)) as (extra & ->).
    unfold monthLabelsCallback, monthStep.
    destruct (monthOfWeek zone w) as [month |]; [| eauto].
    destruct (strictNotEqual month (lastMonth st)); [| eauto].
    cbn [labels]. rewrite <- app_assoc. eauto.
Qed.

(** A first week with days carries the first label. *)
Lemma getMonthLabels_head zone w rest :
  hasDays w = true ->
  exists l ls, getMonthLabels zone (w :: rest) = l :: ls /\ col l = 0.
Proof.
  intros Hdays. apply (monthOfWeek_hasDays zone) in Hdays as (month & Hw).
  unfold getMonthLabels. simpl fold_left.
  destruct (labels_prefix zone rest
              (monthLabelsCallback zone initialLabelState w)) as (extra & ->).
  unfold monthLabelsCallback, monthStep. rewrite Hw.
  cbn [lastMonth initialLabelState].
  rewrite (monthOfWeek_differs_initial zone w month Hw).
  cbn [labels initialLabelState index app]. eauto.
Qed.

(** X8: every label of the row spans at least one column, and together
    the spans reach from the first label's column to the last week; when
    the first week has days they add up to the number of weeks, so the
    label row is as wide as the grid. *)
Theorem monthLabelSpans_cover_grid :
  forall (zone : JSDate.TimeZone) (ws : list GitHubContributionWeek),
    let ls := getMonthLabels zone ws in
    let nweeks := Z.of_nat (List.length ws) in
    let spans := monthLabelSpans ls nweeks in
    Forall (fun s => 0 < s) spans /\
    List.length spans = List.length ls /\
    (forall first rest, ls = first :: rest ->
       totalSpan spans = nweeks - col first) /\
    (forall w rest, ws = w :: rest -> hasDays w = true ->
       totalSpan spans = nweeks).
Proof.
  intros zone ws ls nweeks spans.
  destruct (LabelsWellFormed_weeks zone ws) as (_ & Hcols & Hsorted & _).
  change (labels (fold_left (monthLabelsCallback zone) ws initialLabelState))
    with ls in Hcols, Hsorted.
  assert (Hbelow : Forall (fun l => col l < nweeks) ls)
    by (eapply Forall_impl; [| exact Hcols]; simpl; intros l [? _]; lia).
  destruct (monthLabelSpans_sum ls nweeks Hsorted Hbelow) as [Hpos Hsum].
  split; [exact Hpos |].
  split; [apply monthLabelSpans_length |].
  split; [exact Hsum |].
  intros w rest -> Hdays.
  destruct (getMonthLabels_head zone w rest Hdays) as (l & ls' & Hls & Hcol).
  fold ls in Hls. subst spans. rewrite (Hsum l ls' Hls). lia.
Qed.

Lemma monthLabelSpans_cover_grid_witness :
  let ws := [ weekStartingOn "2024-01-28"; weekStartingOn "2024-02-04";
              weekWithCounts []; weekStartingOn "2024-03-03" ] in
  totalSpan (monthLabelSpans (getMonthLabels (JSDate.fixedZone 0) ws) 4) = 4.
Proof.
  intros ws.
  refine (proj2 (proj2 (proj2 (monthLabelSpans_cover_grid
                                 (JSDate.fixedZone 0) ws))) _ _
            eq_refl eq_refl).
Defined.

(** ** More on the language chart *)

Lemma keepLanguage_true (l : HackatimeLanguage.t) :
  keepLanguage l = true <->
  HackatimeLanguage.name l <> "Other"%string /\
  (0 < HackatimeLanguage.total_seconds l)%Q.
Proof.
  unfold keepLanguage. rewrite andb_true_iff, !negb_true_iff.
  destruct (String.eqb_spec (HackatimeLanguage.name l) "Other");
    destruct (Qle_bool (HackatimeLanguage.total_seconds l) 0) eqn:Hle;
    split; intros [H1 H2]; try discriminate; try contradiction.
  - exfalso. apply Qle_bool_iff in Hle.
    exact (Qlt_not_le _ _ H2 Hle).
  - split; [assumption |]. apply Qnot_le_lt. intros Hc.
    apply Qle_bool_iff in Hc. congruence.
  - split; reflexivity.
Qed.

(** X10: at most six languages are retained; none of them is named
    "Other" and each has a positive duration; they are the first entries,
    in the upstream's order, of those that qualify, all of them when no
    more than six qualify; without data or without a language list
    nothing is retained. *)
Theorem topLanguages_retained_entries :
  forall data : option HackatimeData.t,
    let top := topLanguages data in
    (List.length top <= 6)%nat /\
    Forall (fun l => HackatimeLanguage.name l <> "Other"%string /\
                     (0 < HackatimeLanguage.total_seconds l)%Q) top /\
    (forall d ls,
        data = Some d -> HackatimeData.languages d = Some ls ->
        (exists rest, filter keepLanguage ls = top ++ rest) /\
        ((List.length (filter keepLanguage ls) <= 6)%nat ->
         top = filter keepLanguage ls)) /\
    (data = None -> top = []) /\
    (forall d, data = Some d -> HackatimeData.languages d = None ->
               top = []).
Proof.
  intros data top. subst top. unfold topLanguages.
  destruct data as [d |];
    [destruct (HackatimeData.languages d) as [ls |] eqn:Hls |].
  - split; [apply firstn_le_length |]. split.
    { apply Forall_forall. intros l Hl. apply in_firstn in Hl.
      apply filter_In in Hl as [_ Hkeep]. now apply keepLanguage_true. }
    split.
    { intros d' ls' [= <-] Hls'. rewrite Hls in Hls'.
      injection Hls' as <-. split.
      - exists (skipn 6 (filter keepLanguage ls)).
        symmetry. apply firstn_skipn.
      - intros Hlen. now apply firstn_all2. }
    split; [discriminate |]. intros d' [= <-]. congruence.
  - split; [simpl; lia |]. split; [constructor |].
    split; [intros d' ls' [= <-]; congruence |].
    split; [discriminate | reflexivity].
  - split; [simpl; lia |]. split; [constructor |].
    split; [discriminate |]. split; [reflexivity | discriminate].
Qed.

Lemma topLanguages_retained_entries_witness :
  topLanguages (Some (statsWithLanguages exampleLanguages))
  = filter keepLanguage exampleLanguages.
Proof.
  refine (proj2 (proj1 (proj2 (proj2 (topLanguages_retained_entries
            (Some (statsWithLanguages exampleLanguages)))))
            (statsWithLanguages exampleLanguages) exampleLanguages
            eq_refl eq_refl) _).
  simpl. lia.
Defined.

Lemma barWidth_within (maxPercent : Q) (lang : HackatimeLanguage.t) :
  (0 < maxPercent)%Q ->
  (0 <= HackatimeLanguage.percent lang)%Q ->
  (HackatimeLanguage.percent lang <= maxPercent)%Q ->
  withinTrack (barWidth maxPercent lang).
Proof.
  intros Hmax Hp Hle. unfold barWidth, divide.
  destruct (Qeq_bool maxPercent 0) eqn:Heq.
  - apply Qeq_bool_iff in Heq. rewrite Heq in Hmax.
    exfalso. exact (Qlt_irrefl _ Hmax).
  - simpl. split.
    + apply Qmult_le_0_compat; [| discriminate].
      apply Qle_shift_div_l; [assumption |]. now rewrite Qmult_0_l.
    + setoid_replace 100%Q with (1 * 100)%Q at 2 by reflexivity.
      apply Qmult_le_compat_r; [| discriminate].
      apply Qle_shift_div_r; [assumption |]. now rewrite Qmult_1_l.
Qed.

(** X11: when the retained languages come sorted by descending share,
    with no negative share and a first share that is not zero, every bar
    is between 0 and 100 percent wide: no bar overflows its track. *)
Theorem barWidths_within_track :
  forall data : option HackatimeData.t,
    let top := topLanguages data in
    StronglySorted percentDescending top ->
    Forall (fun l => (0 <= HackatimeLanguage.percent l)%Q) top ->
    ~ (maxLangPercent top == 0)%Q ->
    Forall withinTrack (barWidths data) /\
    List.length (barWidths data) = List.length top.
Proof.
  intros data top Hsorted Hpos Hmax. unfold barWidths. fold top.
  split; [| apply length_map].
  pose proof (maxLangPercent_is_max top Hsorted) as Hle.
  assert (Hmaxpos : (0 < maxLangPercent top)%Q).
  { destruct top as [| first rest]; [reflexivity |].
    simpl in *. inversion Hpos; subst.
    apply Qle_lt_or_eq in H1 as [Hlt | Heq]; [assumption |].
    exfalso. apply Hmax. now symmetry. }
  apply Forall_map. rewrite Forall_forall in *. intros l Hl.
  apply barWidth_within; auto.
Qed.

Lemma barWidths_within_track_witness :
  Forall withinTrack (barWidths (Some (statsWithLanguages exampleLanguages))).
Proof.
  refine (proj1 (barWidths_within_track
                   (Some (statsWithLanguages exampleLanguages)) _ _ _)).
  - repeat constructor; discriminate.
  - repeat constructor; discriminate.
  - discriminate.
Defined.

Lemma LANGUAGE_COLORS_NoDup : NoDup LANGUAGE_COLORS.
Proof.
  unfold LANGUAGE_COLORS.
  repeat (constructor; [simpl; intuition discriminate |]). constructor.
Qed.

Lemma barColors_nth data i lang :
  nth_error (topLanguages data) i = Some lang ->
  nth_error (barColors data) i = Some (barColor i lang).
Proof.
  intros H. unfold barColors.
  rewrite nth_error_map, (nth_error_combine_seq _ 0 i lang H). reflexivity.
Qed.

Lemma topLanguages_index data i lang :
  nth_error (topLanguages data) i = Some lang -> (i < 6)%nat.
Proof.
  intros H.
  assert (Hlt : (i < List.length (topLanguages data))%nat)
    by (apply nth_error_Some; congruence).
  assert (Hle : (List.length (topLanguages data) <= 6)%nat).
  { unfold topLanguages. destruct data as [d |]; [| simpl; lia].
    destruct (HackatimeData.languages d); [| simpl; lia].
    apply firstn_le_length. }
  lia.
Qed.

Lemma palette_index (i : nat) :
  (i < 6)%nat ->
  Z.to_nat (Z.of_nat i mod Z.of_nat (List.length LANGUAGE_COLORS)) = i.
Proof.
  intros H. change (Z.of_nat (List.length LANGUAGE_COLORS)) with 8.
  rewrite Z.mod_small by lia. apply Nat2Z.id.
Qed.

(** X12: every bar has a colour: its own when the language brings one,
    else one of the palette; and two bars that both lack a colour of their
    own never get the same palette colour. *)
Theorem barColors_defined_and_distinct :
  forall (data : option HackatimeData.t) (i j : nat)
         (li lj : HackatimeLanguage.t),
    nth_error (topLanguages data) i = Some li ->
    nth_error (topLanguages data) j = Some lj ->
    (exists c, nth_error (barColors data) i = Some (Some c) /\
               (missing (HackatimeLanguage.color li) = false ->
                HackatimeLanguage.color li = Some c) /\
               (missing (HackatimeLanguage.color li) = true ->
                In c LANGUAGE_COLORS)) /\
    (i <> j ->
     missing (HackatimeLanguage.color li) = true ->
     missing (HackatimeLanguage.color lj) = true ->
     nth_error (barColors data) i <> nth_error (barColors data) j).
Proof.
  intros data i j li lj Hi Hj.
  pose proof (topLanguages_index _ _ _ Hi) as Hi6.
  pose proof (topLanguages_index _ _ _ Hj) as Hj6.
  rewrite (barColors_nth _ _ _ Hi), (barColors_nth _ _ _ Hj).
  unfold barColor. rewrite !palette_index by assumption.
  assert (Hpal : forall k, (k < 6)%nat ->
                           exists c, nth_error LANGUAGE_COLORS k = Some c).
  { intros k Hk.
    destruct (nth_error LANGUAGE_COLORS k) as [c |] eqn:Hc; [eauto |].
    apply nth_error_None in Hc. simpl in Hc. lia. }
  split.
  - destruct (missing (HackatimeLanguage.color li)) eqn:Hm.
    + destruct (Hpal i Hi6) as (c & Hc). exists c. rewrite Hc.
      split; [reflexivity |]. split; [discriminate |].
      intros _. eapply nth_error_In; eassumption.
    + destruct (HackatimeLanguage.color li) as [c |]; [| discriminate].
      exists c. split; [reflexivity |]. split; [reflexivity | discriminate].
  - intros Hij Hmi Hmj. rewrite Hmi, Hmj. intros Heq.
    injection Heq as Heq. apply Hij.
    apply (proj1 (NoDup_nth_error LANGUAGE_COLORS) LANGUAGE_COLORS_NoDup);
      [simpl; lia | exact Heq].
Qed.

Lemma barColors_defined_and_distinct_witness :
  nth_error (barColors (Some (statsWithLanguages exampleLanguages))) 0
  <> nth_error (barColors (Some (statsWithLanguages exampleLanguages))) 2.
Proof.
  refine (proj2 (barColors_defined_and_distinct
                   (Some (statsWithLanguages exampleLanguages)) 0 2
                   (language "Go" 500 50) (language "TS" 200 20)
                   eq_refl eq_refl) _ eq_refl eq_refl).
  discriminate.
Defined.

(** ** More on the request handlers *)

Lemma getProperty_field (data : json) (key : string) :
  data <> JNull -> getProperty (Some data) key = inr (field key data).
Proof. intros H. destruct data; try reflexivity. contradiction. Qed.

(** Walking down to the calendar, as the handler does it, finds what
    [calendarOf] finds and throws a [TypeError] otherwise. *)
Lemma calendar_path (data : json) (tr : list Event) :
  (d <- lift (getProperty (Some data) "data") ;;
   user <- lift (getProperty d "user") ;;
   collection <- lift (getProperty user "contributionsCollection") ;;
   calendar <- lift (getProperty collection "contributionCalendar") ;;
   NextResponse_json calendar 200)%eff tr
  = match calendarOf data with
    | Some cal => (Returned {| status := 200; jsonBody := cal |}, tr)
    | None => (Thrown TypeError, tr)
    end.
Proof.
  unfold calendarOf, field. run_eff.
  destruct data as [| ? | ? | ? | ? | fs]; try reflexivity.
  cbn [getProperty].
  destruct (lookup "data" fs) as [[| ? | ? | ? | ? | fs1] |]; try reflexivity.
  cbn [getProperty].
  destruct (lookup "user" fs1) as [[| ? | ? | ? | ? | fs2] |]; try reflexivity.
  cbn [getProperty].
  destruct (lookup "contributionsCollection" fs2) as [[| ? | ? | ? | ? | fs3] |];
    try reflexivity.
  cbn [getProperty].
  destruct (lookup "contributionCalendar" fs3); reflexivity.
Qed.

(** The run of the calendar handler once the token is configured. *)
Lemma GitHubRoute_GET_run env transport token tr :
  configured (GITHUB_TOKEN env) token ->
  let req := GitHubRoute.calendarRequest token in
  let failed (e : JsError) :=
    (Returned {| status := 500;
                 jsonBody := errorJson "Failed to fetch GitHub data" |},
     (tr ++ [Fetched req]) ++ [ConsoleError "GitHub API error:" e]) in
  GitHubRoute.GET env transport tr
  = match transport req with
    | Rejected => failed NetworkError
    | Responded st payload =>
        if (200 <=? st) && (st <=? 299)
        then match payload with
             | None => failed SyntaxError
             | Some data =>
                 if truthy (field "errors" data)
                 then failed
                        (match getFirst (field "errors" data) with
                         | inl e => e
                         | inr first =>
                             match getProperty first "message" with
                             | inl e => e
                             | inr message => UpstreamError message
                             end
                         end)
                 else match calendarOf data with
                      | Some cal =>
                          (Returned {| status := 200; jsonBody := cal |},
                           tr ++ [Fetched req])
                      | None => failed TypeError
                      end
             end
        else failed (HttpStatusError "GitHub" st)
    end.
Proof.
  intros [Ht Hne] req failed. unfold GitHubRoute.GET. rewrite Ht.
  unfold missing. destruct (String.eqb_spec token ""); [contradiction |].
  fold req. subst failed.
  unfold tryCatch at 1. unfold bind at 1. unfold fetch at 1.
  unfold bind at 1. unfold emit at 1.
  destruct (transport req) as [| st payload]; [reflexivity |].
  unfold ret at 1. unfold ok. cbn [responseStatus].
  destruct ((200 <=? st) && (st <=? 299)); cbn [negb]; [| reflexivity].
  unfold bind at 1. unfold responseJson. cbn [responsePayload].
  destruct payload as [data |]; [| reflexivity].
  unfold ret at 1.
  pose proof (calendar_path data) as Hpath.
  set (chain := (d <- lift (getProperty (Some data) "data") ;;
                 user <- lift (getProperty d "user") ;;
                 collection <- lift (getProperty user
                                       "contributionsCollection") ;;
                 calendar <- lift (getProperty collection
                                     "contributionCalendar") ;;
                 NextResponse_json calendar 200)%eff) in *.
  clearbody chain.
  destruct data as [| ? | ? | ? | ? | fs];
    cbn [getProperty lift field]; unfold bind at 1;
    try (unfold ret at 1; cbn [truthy]; rewrite Hpath; reflexivity).
  - reflexivity.
  - unfold ret at 1.
    destruct (truthy (lookup "errors" fs)) eqn:Herr.
    + unfold bind at 1.
      destruct (getFirst (lookup "errors" fs)) as [e | first];
        [reflexivity |].
      cbn [lift]. unfold ret at 1. unfold bind at 1.
      destruct (getProperty first "message") as [e | message]; reflexivity.
    + rewrite Hpath.
      destruct (calendarOf (JObject fs)); reflexivity.
Qed.

Lemma missing_or_configured (v : option string) :
  missing v = true \/ exists s, configured v s.
Proof.
  destruct v as [s |]; [| now left]. simpl.
  destruct (String.eqb_spec s ""); [now left | right].
  exists s. split; [reflexivity | assumption].
Qed.

Lemma HackatimeRoute_GET_null env zone now transport request username tr :
  configured (HACKATIME_USERNAME env) username ->
  let req := HackatimeRoute.statsRequest username (HACKATIME_API_KEY env)
               (HackatimeRoute.getDateRange zone now
                  (HackatimeRoute.rangeOf request)) in
  let failed (e : JsError) :=
    (Returned {| status := 500;
                 jsonBody := errorJson "Failed to fetch Hackatime data" |},
     (tr ++ [Fetched req]) ++ [ConsoleError "Hackatime API error:" e]) in
  HackatimeRoute.GET env zone now transport request tr
  = match transport req with
    | Rejected => failed NetworkError
    | Responded st payload =>
        if (200 <=? st) && (st <=? 299)
        then match payload with
             | None => failed SyntaxError
             | Some JNull => failed TypeError
             | Some responseData =>
                 (Returned
                    {| status := 200;
                       jsonBody :=
                         match field "data" responseData with
                         | Some sub =>
                             if truthy (Some sub) then sub else responseData
                         | None => responseData
                         end |},
                  tr ++ [Fetched req])
             end
        else failed (HttpStatusError "Hackatime" st)
    end.
Proof.
  intros [Hu Hne] req failed.
  rewrite (HackatimeRoute_GET_run env zone now transport request username tr
             Hu Hne).
  lazy zeta. fold req. subst failed.
  destruct (transport req) as [| st payload]; [reflexivity |].
  destruct ((200 <=? st) && (st <=? 299)); [| reflexivity].
  destruct payload as [[| ? | ? | ? | ? | fs] |]; try reflexivity.
  cbn [getProperty field].
  destruct (lookup "data" fs) as [sub |]; [| reflexivity].
  destruct (truthy (Some sub)); reflexivity.
Qed.

(** X13: neither handler ever throws: each answers with status 200 or
    with status 500 and one of its two fixed error bodies, so that no
    detail of an upstream failure reaches the client. *)
Theorem handlers_answer_200_or_500 :
  forall (env : Env) (zone : JSDate.TimeZone) (now : Z)
         (transport : Transport)
         (request : HackatimeRoute.IncomingRequest) (tr : list Event),
    (exists resp tr',
        GitHubRoute.GET env transport tr = (Returned resp, tr') /\
        (status resp = 200 \/
         status resp = 500 /\
         (jsonBody resp = errorJson "GitHub token not configured" \/
          jsonBody resp = errorJson "Failed to fetch GitHub data"))) /\
    (exists resp tr',
        HackatimeRoute.GET env zone now transport request tr
        = (Returned resp, tr') /\
        (status resp = 200 \/
         status resp = 500 /\
         (jsonBody resp = errorJson "Hackatime username not configured" \/
          jsonBody resp = errorJson "Failed to fetch Hackatime data"))).
Proof.
  intros env zone now transport request tr. split.
  - destruct (missing_or_configured (GITHUB_TOKEN env))
      as [Hmiss | (token & Hconf)].
    + unfold GitHubRoute.GET. rewrite Hmiss.
      eexists _, _. split; [reflexivity |]. right. split; [reflexivity |].
      now left.
    + rewrite (GitHubRoute_GET_run env transport token tr Hconf). lazy zeta.
      repeat destruct_scrutinee;
        (eexists _, _; split; [reflexivity |]);
        solve [now left | right; split; [reflexivity | now right]].
  - destruct (missing_or_configured (HACKATIME_USERNAME env))
      as [Hmiss | (username & Hconf)].
    + unfold HackatimeRoute.GET. rewrite Hmiss.
      eexists _, _. split; [reflexivity |]. right. split; [reflexivity |].
      now left.
    + rewrite (HackatimeRoute_GET_null env zone now transport request username
                 tr Hconf). lazy zeta.
      destruct (transport _) as [| st payload];
        [| destruct ((200 <=? st) && (st <=? 299));
           [destruct payload as [[| ? | ? | ? | ? | ?] |] |]];
        (eexists _, _; split; [reflexivity |]);
        solve [now left | right; split; [reflexivity | now right]].
Qed.

(** X14: with a token, the calendar handler answers 200 with a body
    [cal] exactly when the upstream answers with a status from 200 to 299
    and a JSON payload whose [errors] field is absent or falsy and whose
    path [data.user.contributionsCollection.contributionCalendar] leads to
    [cal]; the calendar is passed on as it is. *)
Theorem GitHubRoute_GET_success_iff :
  forall (env : Env) (transport : Transport) (token : string) (cal : json),
    configured (GITHUB_TOKEN env) token ->
    (fst (GitHubRoute.GET env transport [])
     = Returned {| status := 200; jsonBody := cal |}
     <->
     exists st data,
       transport (GitHubRoute.calendarRequest token)
       = Responded st (Some data) /\
       200 <= st <= 299 /\
       truthy (field "errors" data) = false /\
       calendarOf data = Some cal).
Proof.
  intros env transport token cal Hconf.
  rewrite (GitHubRoute_GET_run env transport token [] Hconf). lazy zeta.
  destruct (transport (GitHubRoute.calendarRequest token))
    as [| st payload].
  - split; [discriminate | intros (st & data & H & _); discriminate].
  - destruct ((200 <=? st) && (st <=? 299)) eqn:Hok.
    + apply andb_true_iff in Hok as [H1 H2].
      apply Z.leb_le in H1, H2.
      destruct payload as [data |];
        [| split; [discriminate
                  | intros (st' & data & H & _); discriminate]].
      destruct (truthy (field "errors" data)) eqn:Herr.
      * split; [discriminate |].
        intros (st' & data' & Heq & _ & Herr' & _).
        inversion Heq; subst. congruence.
      * destruct (calendarOf data) as [cal' |] eqn:Hcal.
        -- split.
           ++ intros [= <-]. exists st, data. repeat split; auto.
           ++ intros (st' & data' & Heq & _ & _ & Hcal').
              inversion Heq; subst. simpl. congruence.
        -- split; [discriminate |].
           intros (st' & data' & Heq & _ & _ & Hcal').
           inversion Heq; subst. congruence.
    + split; [discriminate |].
      intros (st' & data & Heq & Hst & _).
      inversion Heq; subst.
      rewrite (proj2 (andb_true_iff _ _)
                 (conj (proj2 (Z.leb_le _ _) (proj1 Hst))
                       (proj2 (Z.leb_le _ _) (proj2 Hst)))) in Hok.
      discriminate.
Qed.

Lemma GitHubRoute_GET_success_iff_witness :
  fst (GitHubRoute.GET (envWith (Some "t0ken"%string) None)
         (answering 200 (Some exampleCalendarPayload)) [])
  = Returned {| status := 200;
                jsonBody :=
                  JObject [("totalContributions"%string, JNumber 7);
                           ("weeks"%string, JArray [])] |}.
Proof.
  refine (proj2 (GitHubRoute_GET_success_iff
                   (envWith (Some "t0ken"%string) None)
                   (answering 200 (Some exampleCalendarPayload))
                   "t0ken"%string _ _) _).
  - split; [reflexivity | discriminate].
  - exists 200, exampleCalendarPayload. repeat split; lia.
Defined.

(** X15: with a user name, the time-tracking handler answers 200 exactly
    when the upstream answers with a status from 200 to 299 and a JSON
    payload other than [null]; the body is then the payload's [data] when
    that is truthy and the payload itself otherwise.  A [null] payload, a
    body that is no JSON, another status and a failed call all give 500. *)
Theorem HackatimeRoute_GET_success_iff :
  forall (env : Env) (zone : JSDate.TimeZone) (now : Z)
         (transport : Transport)
         (request : HackatimeRoute.IncomingRequest)
         (username : string) (answerBody : json),
    configured (HACKATIME_USERNAME env) username ->
    (fst (HackatimeRoute.GET env zone now transport request [])
     = Returned {| status := 200; jsonBody := answerBody |}
     <->
     exists st payload,
       transport (HackatimeRoute.statsRequest username (HACKATIME_API_KEY env)
                    (HackatimeRoute.getDateRange zone now
                       (HackatimeRoute.rangeOf request)))
       = Responded st (Some payload) /\
       200 <= st <= 299 /\ payload <> JNull /\
       answerBody = match field "data" payload with
                    | Some sub => if truthy (Some sub) then sub else payload
                    | None => payload
                    end).
Proof.
  intros env zone now transport request username answerBody Hconf.
  rewrite (HackatimeRoute_GET_null env zone now transport request username []
             Hconf). lazy zeta.
  destruct (transport _) as [| st payload].
  - split; [discriminate | intros (st & p & H & _); discriminate].
  - destruct ((200 <=? st) && (st <=? 299)) eqn:Hok.
    + apply andb_true_iff in Hok as [H1 H2]. apply Z.leb_le in H1, H2.
      destruct payload as [p |];
        [| split; [discriminate | intros (st' & p & H & _); discriminate]].
      assert (Hgen :
                p <> JNull ->
                (Returned {| status := 200;
                             jsonBody :=
                               match field "data" p with
                               | Some sub =>
                                   if truthy (Some sub) then sub else p
                               | None => p
                               end |}
                 = Returned {| status := 200; jsonBody := answerBody |}
                 <->
                 exists st' payload,
                   Responded st (Some p) = Responded st' (Some payload) /\
                   200 <= st' <= 299 /\ payload <> JNull /\
                   answerBody = match field "data" payload with
                                | Some sub =>
                                    if truthy (Some sub) then sub else payload
                                | None => payload
                                end)).
      { intros Hp. split.
        - intros [= <-]. exists st, p. repeat split; auto.
        - intros (st' & p' & Heq & _ & _ & ->). inversion Heq; subst.
          reflexivity. }
      destruct p as [| ? | ? | ? | ? | fs];
        try (apply Hgen; discriminate).
      split; [discriminate |].
      intros (st' & p' & Heq & _ & Hp & _). inversion Heq; subst.
      contradiction.
    + split; [discriminate |].
      intros (st' & p & Heq & Hst & _). inversion Heq; subst.
      rewrite (proj2 (andb_true_iff _ _)
                 (conj (proj2 (Z.leb_le _ _) (proj1 Hst))
                       (proj2 (Z.leb_le _ _) (proj2 Hst)))) in Hok.
      discriminate.
Qed.

Lemma HackatimeRoute_GET_success_iff_witness :
  fst (HackatimeRoute.GET (envWith None (Some "shyam"%string))
         (JSDate.fixedZone 0) 1710500000123
         (answering 204 (Some (JArray []))) requestWithoutRange [])
  = Returned {| status := 200; jsonBody := JArray [] |}.
Proof.
  refine (proj2 (HackatimeRoute_GET_success_iff
                   (envWith None (Some "shyam"%string))
                   (JSDate.fixedZone 0) 1710500000123
                   (answering 204 (Some (JArray []))) requestWithoutRange
                   "shyam"%string (JArray []) _) _).
  - split; [reflexivity | discriminate].
  - exists 204, (JArray []). repeat split; try lia; discriminate.
Defined.

(** X16: once configured, a handler calls the upstream exactly once and
    writes to the error log exactly when it answers 500, one entry; a
    call that fails is logged as a network error and a status outside
    200..299 is logged with that status. *)
Theorem handlers_log_failures :
  forall (env : Env) (zone : JSDate.TimeZone) (now : Z)
         (transport : Transport)
         (request : HackatimeRoute.IncomingRequest)
         (token username : string),
    (configured (GITHUB_TOKEN env) token ->
     let run := GitHubRoute.GET env transport [] in
     let req := GitHubRoute.calendarRequest token in
     networkCalls (snd run) = [req] /\
     (exists resp, fst run = Returned resp /\
        (status resp = 200 /\ consoleErrors (snd run) = [] \/
         status resp = 500 /\
         exists e, consoleErrors (snd run)
                   = [("GitHub API error:"%string, e)])) /\
     (transport req = Rejected ->
      consoleErrors (snd run) = [("GitHub API error:"%string, NetworkError)]) /\
     (forall st payload,
         transport req = Responded st payload -> ~ 200 <= st <= 299 ->
         consoleErrors (snd run)
         = [("GitHub API error:"%string, HttpStatusError "GitHub" st)])) /\
    (configured (HACKATIME_USERNAME env) username ->
     let run := HackatimeRoute.GET env zone now transport request [] in
     let req := HackatimeRoute.statsRequest username (HACKATIME_API_KEY env)
                  (HackatimeRoute.getDateRange zone now
                     (HackatimeRoute.rangeOf request)) in
     networkCalls (snd run) = [req] /\
     (exists resp, fst run = Returned resp /\
        (status resp = 200 /\ consoleErrors (snd run) = [] \/
         status resp = 500 /\
         exists e, consoleErrors (snd run)
                   = [("Hackatime API error:"%string, e)])) /\
     (transport req = Rejected ->
      consoleErrors (snd run)
      = [("Hackatime API error:"%string, NetworkError)]) /\
     (forall st payload,
         transport req = Responded st payload -> ~ 200 <= st <= 299 ->
         consoleErrors (snd run)
         = [("Hackatime API error:"%string,
             HttpStatusError "Hackatime" st)])).
Proof.
  intros env zone now transport request token username.
  assert (Hnot : forall st, ~ 200 <= st <= 299 ->
                            (200 <=? st) && (st <=? 299) = false).
  { intros st Hst. apply andb_false_iff.
    destruct (Z.leb_spec 200 st); [right | now left].
    apply Z.leb_gt. lia. }
  split; intros Hconf run req; subst run.
  - rewrite (GitHubRoute_GET_run env transport token [] Hconf). lazy zeta.
    fold req. split; [| split; [| split]].
    + repeat destruct_scrutinee; reflexivity.
    + repeat destruct_scrutinee;
        (eexists; split; [reflexivity |]);
        solve [left; split; reflexivity
              | right; split; [reflexivity | eexists; reflexivity]].
    + intros ->. reflexivity.
    + intros st payload -> Hst. rewrite (Hnot st Hst). reflexivity.
  - rewrite (HackatimeRoute_GET_null env zone now transport request username
               [] Hconf). lazy zeta. fold req. split; [| split; [| split]].
    + repeat destruct_scrutinee; reflexivity.
    + destruct (transport req) as [| st payload];
        [| destruct ((200 <=? st) && (st <=? 299));
           [destruct payload as [[| ? | ? | ? | ? | ?] |] |]];
        (eexists; split; [reflexivity |]);
        solve [left; split; reflexivity
              | right; split; [reflexivity | eexists; reflexivity]].
    + intros ->. reflexivity.
    + intros st payload -> Hst. rewrite (Hnot st Hst). reflexivity.
Qed.

Lemma handlers_log_failures_witness :
  consoleErrors (snd (GitHubRoute.GET (envWith (Some "t0ken"%string) None)
                        (answering 401 None) []))
  = [("GitHub API error:"%string, HttpStatusError "GitHub" 401)] /\
  consoleErrors (snd (HackatimeRoute.GET (envWith None (Some "shyam"%string))
                        (JSDate.fixedZone 0) 1710500000123
                        (fun _ => Rejected)
                        requestWithoutRange []))
  = [("Hackatime API error:"%string, NetworkError)].
Proof.
  pose proof (handlers_log_failures (envWith (Some "t0ken"%string) None)
                (JSDate.fixedZone 0) 0
                (answering 401 None) requestWithoutRange
                "t0ken"%string ""%string) as [Hgithub _].
  pose proof (handlers_log_failures (envWith None (Some "shyam"%string))
                (JSDate.fixedZone 0)
                1710500000123 (fun _ => Rejected) requestWithoutRange
                ""%string "shyam"%string) as [_ Hhackatime].
  split.
  - refine (proj2 (proj2 (proj2 (Hgithub _))) 401 None eq_refl _).
    + split; [reflexivity | discriminate].
    + lia.
  - refine (proj1 (proj2 (proj2 (Hhackatime _))) eq_refl).
    split; [reflexivity | discriminate].
Defined.

(** ** The lengths of the time-tracking windows *)

Lemma firstDayOfMonth_split (y m : Z) :
  0 <= m < 12 ->
  firstDayOfMonth (12 * y + m)
  = JSDate.DayFromYear y
    + JSDate.monthStart m (if JSDate.isLeapYear y then 1 else 0).
Proof.
  intros Hm. unfold firstDayOfMonth.
  replace ((12 * y + m) / 12) with y by (Z.div_mod_to_equations; lia).
  replace ((12 * y + m) mod 12) with m by (Z.div_mod_to_equations; lia).
  reflexivity.
Qed.

Lemma month_cases (m : Z) :
  0 <= m < 12 ->
  m = 0 \/ m = 1 \/ m = 2 \/ m = 3 \/ m = 4 \/ m = 5 \/
  m = 6 \/ m = 7 \/ m = 8 \/ m = 9 \/ m = 10 \/ m = 11.
Proof. lia. Qed.

(** Six calendar months are 181 to 184 days. *)
Lemma six_months_days (i : Z) :
  181 <= firstDayOfMonth i - firstDayOfMonth (i - 6) <= 184.
Proof.
  set (y := i / 12). set (m := i mod 12).
  assert (Hm : 0 <= m < 12) by (apply Z.mod_pos_bound; lia).
  assert (Hi : i = 12 * y + m) by (subst y m; Z.div_mod_to_equations; lia).
  rewrite Hi. rewrite (firstDayOfMonth_split y m Hm).
  pose proof (JSDateFacts.DayFromYear_step (y - 1)) as Hstep.
  replace (y - 1 + 1) with y in Hstep by lia.
  unfold JSDate.DaysInYear in Hstep.
  destruct (Z.le_gt_cases 6 m) as [Hge | Hlt].
  - replace (12 * y + m - 6) with (12 * y + (m - 6)) by lia.
    rewrite (firstDayOfMonth_split y (m - 6)) by lia.
    destruct (JSDate.isLeapYear y);
      destruct (month_cases m Hm)
        as [-> | [-> | [-> | [-> | [-> | [-> | [-> | [-> | [-> | [-> | [-> | ->]]]]]]]]]]];
      cbn [JSDate.monthStart Z.sub Z.add Z.opp Z.pos_sub Pos.pred_double
           Z.succ_double Z.pred_double Z.double] in *; try lia.
  - replace (12 * y + m - 6) with (12 * (y - 1) + (m + 6)) by lia.
    rewrite (firstDayOfMonth_split (y - 1) (m + 6)) by lia.
    destruct (JSDate.isLeapYear y), (JSDate.isLeapYear (y - 1));
      destruct (month_cases m Hm)
        as [-> | [-> | [-> | [-> | [-> | [-> | [-> | [-> | [-> | [-> | [-> | ->]]]]]]]]]]];
      cbn [JSDate.monthStart Z.add Pos.add Pos.succ Pos.add_carry] in *;
      try lia.
Qed.

(** Twelve calendar months are 365 or 366 days. *)
Lemma twelve_months_days (i : Z) :
  365 <= firstDayOfMonth i - firstDayOfMonth (i - 12) <= 366.
Proof.
  set (y := i / 12). set (m := i mod 12).
  assert (Hm : 0 <= m < 12) by (apply Z.mod_pos_bound; lia).
  assert (Hi : i = 12 * y + m) by (subst y m; Z.div_mod_to_equations; lia).
  rewrite Hi. rewrite (firstDayOfMonth_split y m Hm).
  replace (12 * y + m - 12) with (12 * (y - 1) + m) by lia.
  rewrite (firstDayOfMonth_split (y - 1) m Hm).
  pose proof (JSDateFacts.DayFromYear_step (y - 1)) as Hstep.
  replace (y - 1 + 1) with y in Hstep by lia.
  unfold JSDate.DaysInYear in Hstep.
  destruct (JSDate.isLeapYear y), (JSDate.isLeapYear (y - 1));
    destruct (month_cases m Hm)
      as [-> | [-> | [-> | [-> | [-> | [-> | [-> | [-> | [-> | [-> | [-> | ->]]]]]]]]]]];
    cbn [JSDate.monthStart] in *; lia.
Qed.

(** [k] calendar years are between [365 * k] and [366 * k] days. *)
Lemma years_days (i : Z) (k : nat) :
  365 * Z.of_nat k
  <= firstDayOfMonth i - firstDayOfMonth (i - 12 * Z.of_nat k)
  <= 366 * Z.of_nat k.
Proof.
  induction k as [| k IH].
  - replace (i - 12 * Z.of_nat 0) with i by lia. lia.
  - pose proof (twelve_months_days (i - 12 * Z.of_nat k)) as Hstep.
    replace (i - 12 * Z.of_nat k - 12) with (i - 12 * Z.of_nat (S k))
      in Hstep by lia.
    lia.
Qed.

(** Months back is a whole number of days back where the zone keeps one
    offset: the days between the first days of the two months. *)
Lemma monthsBack_daysBack tza now k :
  let zone := JSDate.fixedZone tza in
  let t := JSDate.LocalTime zone now in
  let i := 12 * JSDate.YearFromTime t + JSDate.MonthFromTime t in
  monthsBack zone now k
  = daysBack now (firstDayOfMonth i - firstDayOfMonth (i - k)).
Proof.
  intros zone t i. unfold monthsBack, daysBack. fold zone. fold t. fold i.
  pose proof (JSDateFacts.MakeDay_fields t 0) as Hday.
  rewrite Z.add_0_r, MakeDay_firstDayOfMonth in Hday. fold i in Hday.
  pose proof (JSDateFacts.MakeDate_Day_TimeWithinDay t) as Ht.
  unfold JSDate.UTC, JSDate.MakeDate in *.
  unfold t, JSDate.LocalTime, zone, JSDate.fixedZone in *.
  cbn [JSDate.offsetAt JSDate.offsetOfLocal] in *. lia.
Qed.

(** X17: whatever the clock and the (fixed-offset) time zone, every
    window starts a whole number of days before it ends: 181 to 184 days
    for the six months, 365 or 366 days for the year, and between 3650
    and 3660 days for [all_time] and every value that is none of the four
    keys. *)
Theorem getDateRange_window_lengths :
  forall (tza now : Z),
    let window := HackatimeRoute.getDateRange (JSDate.fixedZone tza) now in
    exists d6 d1 d10 : Z,
      181 <= d6 <= 184 /\ 365 <= d1 <= 366 /\ 3650 <= d10 <= 3660 /\
      HackatimeRoute.start_date (window "last_6_months"%string)
      = isoDate (daysBack now d6) /\
      HackatimeRoute.start_date (window "last_year"%string)
      = isoDate (daysBack now d1) /\
      (forall range, recognizedRange range = false ->
         HackatimeRoute.start_date (window range)
         = isoDate (daysBack now d10)) /\
      (forall range, HackatimeRoute.end_date (window range) = isoDate now) /\
      JSDate.Day (daysBack now d6) = JSDate.Day now - d6 /\
      JSDate.Day (daysBack now d1) = JSDate.Day now - d1 /\
      JSDate.Day (daysBack now d10) = JSDate.Day now - d10.
Proof.
  intros tza now window. subst window.
  set (t := JSDate.LocalTime (JSDate.fixedZone tza) now).
  set (i := 12 * JSDate.YearFromTime t + JSDate.MonthFromTime t).
  exists (firstDayOfMonth i - firstDayOfMonth (i - 6)),
         (firstDayOfMonth i - firstDayOfMonth (i - 12 * 1)),
         (firstDayOfMonth i - firstDayOfMonth (i - 12 * 10)).
  split; [apply six_months_days |].
  split; [exact (years_days i 1) |].
  split; [exact (years_days i 10) |].
  split.
  { rewrite getDateRange_cases. cbn [HackatimeRoute.start_date].
    rewrite TextFacts.fmt_isoDate.
    change (String.eqb "last_6_months" "last_7_days") with false.
    change (String.eqb "last_6_months" "last_30_days") with false.
    change (String.eqb "last_6_months" "last_6_months") with true.
    cbv iota. now rewrite monthsBack_daysBack. }
  split.
  { rewrite getDateRange_cases. cbn [HackatimeRoute.start_date].
    rewrite TextFacts.fmt_isoDate.
    change (String.eqb "last_year" "last_7_days") with false.
    change (String.eqb "last_year" "last_30_days") with false.
    change (String.eqb "last_year" "last_6_months") with false.
    change (String.eqb "last_year" "last_year") with true.
    cbv iota. unfold yearsBack. now rewrite monthsBack_daysBack. }
  split.
  { intros range Hrange. rewrite (getDateRange_unrecognized _ _ _ Hrange).
    cbn [HackatimeRoute.start_date]. rewrite TextFacts.fmt_isoDate.
    unfold yearsBack. now rewrite monthsBack_daysBack. }
  split.
  { intros range. rewrite getDateRange_cases.
    cbn [HackatimeRoute.end_date]. apply TextFacts.fmt_isoDate. }
  repeat split; apply Day_daysBack.
Qed.

Lemma getDateRange_window_lengths_witness :
  exists d10 : Z,
    3650 <= d10 <= 3660 /\
    HackatimeRoute.start_date
      (HackatimeRoute.getDateRange (JSDate.fixedZone 0) 1710500000123
         "everything")
    = isoDate (daysBack 1710500000123 d10).
Proof.
  destruct (getDateRange_window_lengths 0 1710500000123)
    as (d6 & d1 & d10 & _ & _ & Hd10 & _ & _ & Hfallback & _).
  exists d10. split; [exact Hd10 |].
  exact (Hfallback "everything"%string eq_refl).
Defined.

(** ** What the component shows and fetches *)

(** A property of [mount] that every action keeps holds after every
    history. *)
Lemma after_invariant (P : Component.Mounted -> Prop) :
  P Component.mount ->
  (forall m a, committed m -> P m -> P (Component.step m a)) ->
  forall actions, P (Component.after actions).
Proof.
  intros Hmount Hstep actions. unfold Component.after.
  assert (H : committed Component.mount /\ P Component.mount)
    by (split; [apply ComponentFacts.hackatimeEffect_committed | exact Hmount]).
  revert H. generalize Component.mount.
  induction actions as [| a actions IH]; intros m [Hc Hm]; simpl;
    [exact Hm |].
  apply IH. split; [now apply ComponentFacts.step_committed | now apply Hstep].
Qed.





(** The calendar after the payload [null]: nothing is shown in its
    column. *)
Example views_after_null_payload :
  githubViews
    (Component.state (Component.after [Component.GitHubResolved None]))
  = [].
Proof. reflexivity. Qed.

Lemma last_map_Some {A : Type} (l : list A) (d a : A) :
  last (map Some l) None = Some a -> last l d = a.
Proof.
  destruct (list_snoc_cases l) as [-> | (l' & x & ->)]; [discriminate |].
  rewrite last_map_Some_snoc, last_last. now intros [= ->].
Qed.

Lemma String_append_inj (p a b : string) :
  String.append p a = String.append p b -> a = b.
Proof.
  induction p as [| c p IH]; simpl; [trivial |].
  intros [= H]. now apply IH.
Qed.

Lemma hackatimeUrl_not_github (range : string) :
  Component.hackatimeUrl range <> "/api/github"%string.
Proof. unfold Component.hackatimeUrl. simpl. discriminate. Qed.

Lemma FetchLog_after actions : FetchLog (Component.after actions).
Proof.
  apply after_invariant.
  - exists []. repeat split. intros pre a b post H.
    destruct pre as [| ? [| ? ?]]; discriminate.
  - intros m a Hc Hm.
    destruct a as [range | d | | d | |]; cbn [Component.step];
      try exact Hm.
    destruct (string_dec range (Component.activeRange (Component.state m)))
      as [-> | Hne].
    + now rewrite ComponentFacts.handleRangeChange_same.
    + rewrite (ComponentFacts.handleRangeChange_other m range Hc Hne).
      destruct Hm as (ranges & Hfetched & Hlast & Hadj).
      exists (ranges ++ [range]). unfold FetchLog.
      cbn [Component.fetched Component.state Component.activeRange].
      split; [| split].
      * rewrite Hfetched. rewrite !app_comm_cons, map_app. reflexivity.
      * rewrite app_comm_cons. apply last_last.
      * rewrite app_comm_cons. apply Adjacent_snoc; [exact Hadj |].
        intros a Ha. apply (last_map_Some _ ""%string) in Ha.
        rewrite Hlast in Ha. congruence.
Qed.

(** X19: in every state the component reaches, the calendar has been
    fetched exactly once, first of all; every later fetch is a
    time-tracking request, the first for [last_year], no two in a row for
    the same range, and the latest for the active range. *)
Theorem fetch_log_shape :
  forall actions : list Component.Action,
    let m := Component.after actions in
    FetchLog m /\
    count_occ string_dec (Component.fetched m) "/api/github"%string = 1%nat.
Proof.
  intros actions m. pose proof (FetchLog_after actions) as Hlog. fold m in Hlog.
  split; [exact Hlog |].
  destruct Hlog as (ranges & -> & _).
  rewrite count_occ_cons_eq by reflexivity. f_equal.
  apply count_occ_not_In. intros Hin.
  apply in_map_iff in Hin as (r & Hr & _).
  exact (hackatimeUrl_not_github r Hr).
Qed.

Lemma hackatimeEffect_activeRange m :
  Component.activeRange (Component.state (Component.hackatimeEffect m))
  = Component.activeRange (Component.state m).
Proof.
  unfold Component.hackatimeEffect.
  destruct (match Component.effectRange m with
            | Some r => _
            | None => true
            end); reflexivity.
Qed.

Lemma step_activeRange m a :
  Component.activeRange (Component.state (Component.step m a))
  = match a with
    | Component.RangeClicked range => range
    | _ => Component.activeRange (Component.state m)
    end.
Proof.
  destruct a as [range | d | | d | |]; try reflexivity.
  cbn [Component.step]. unfold Component.handleRangeChange.
  destruct (String.eqb_spec range (Component.activeRange (Component.state m)))
    as [-> | Hne]; [reflexivity |].
  now rewrite hackatimeEffect_activeRange.
Qed.

Lemma activeRange_on_pills actions :
  clicksOnPills actions ->
  forall m, In (Component.activeRange (Component.state m))
               (map fst RANGE_OPTIONS) ->
            In (Component.activeRange
                  (Component.state (fold_left Component.step actions m)))
               (map fst RANGE_OPTIONS).
Proof.
  induction 1 as [| a actions Ha _ IH]; intros m Hm; simpl; [exact Hm |].
  apply IH. rewrite step_activeRange.
  destruct a; assumption.
Qed.

Lemma fetchedWithin_pills actions :
  clicksOnPills actions ->
  forall m, committed m -> fetchedWithin (map fst RANGE_OPTIONS) m ->
            fetchedWithin (map fst RANGE_OPTIONS)
              (fold_left Component.step actions m).
Proof.
  induction 1 as [| a actions Ha _ IH]; intros m Hc Hm; simpl; [exact Hm |].
  apply IH; [now apply ComponentFacts.step_committed |].
  destruct a as [range | d | | d | |]; cbn [Component.step]; try exact Hm.
  destruct (string_dec range (Component.activeRange (Component.state m)))
    as [-> | Hne].
  - now rewrite ComponentFacts.handleRangeChange_same.
  - rewrite (ComponentFacts.handleRangeChange_other m range Hc Hne).
    unfold fetchedWithin in *. cbn [Component.fetched].
    apply Forall_app. split; [exact Hm |].
    constructor; [| constructor]. right. exists range. now split.
Qed.

(** The adapter, asked for the value of a pill, computes the window of
    that value's own branch. *)
Lemma getDateRange_of_pill zone now request range :
  In range (map fst RANGE_OPTIONS) ->
  HackatimeRoute.searchParams_get "range"
    (HackatimeRoute.searchParams request) = Some range ->
  HackatimeRoute.getDateRange zone now (HackatimeRoute.rangeOf request)
  = {| HackatimeRoute.start_date :=
         HackatimeRoute.fmt (pillWindowStart zone now range);
       HackatimeRoute.end_date := HackatimeRoute.fmt now |}.
Proof.
  intros Hin Hget.
  assert (Hne : range <> ""%string)
    by (simpl in Hin; destruct Hin as [<- | [<- | [<- | [<- | []]]]];
        discriminate).
  rewrite (rangeOf_parameter request range Hget Hne), getDateRange_cases.
  unfold pillWindowStart.
  destruct (String.eqb_spec range "last_7_days") as [_ | H7];
    [reflexivity |].
  destruct (String.eqb_spec range "last_30_days") as [_ | H30];
    [reflexivity |].
  destruct (String.eqb_spec range "last_6_months") as [_ | H6];
    [reflexivity |].
  destruct (String.eqb_spec range "last_year") as [_ | H1];
    [reflexivity | exfalso].
  simpl in Hin. destruct Hin as [<- | [<- | [<- | [<- | []]]]];
    [now apply H7 | now apply H30 | now apply H6 | now apply H1].
Qed.

(** X20: as long as the range is changed through the pills only, the
    active range is the value of one of the four options, exactly one
    pill is drawn active, the one of the active range, and every URL the
    component has fetched for the time tracked carries the value of one
    of the four options as its range; the adapter, handed a request with
    that value as its range parameter, computes the window of the value's
    own branch, 7 or 30 days, 6 months or 1 year back, not the ten-year
    default. *)
Theorem pills_single_choice :
  forall actions : list Component.Action,
    clicksOnPills actions ->
    let m := Component.after actions in
    let s := Component.state m in
    In (Component.activeRange s) (map fst RANGE_OPTIONS) /\
    (exists text, highlightedPills s = [(Component.activeRange s, text)]) /\
    Forall (fun url => url = "/api/github"%string \/
                       exists range, In range (map fst RANGE_OPTIONS) /\
                                     url = Component.hackatimeUrl range)
           (Component.fetched m) /\
    (forall range zone now request,
        In (Component.hackatimeUrl range) (Component.fetched m) ->
        HackatimeRoute.searchParams_get "range"
          (HackatimeRoute.searchParams request) = Some range ->
        HackatimeRoute.rangeOf request = range /\
        HackatimeRoute.getDateRange zone now (HackatimeRoute.rangeOf request)
        = {| HackatimeRoute.start_date :=
               HackatimeRoute.fmt (pillWindowStart zone now range);
             HackatimeRoute.end_date := HackatimeRoute.fmt now |}).
Proof.
  intros actions Hclicks m s.
  assert (Hin : In (Component.activeRange s) (map fst RANGE_OPTIONS)).
  { subst s m. unfold Component.after.
    apply activeRange_on_pills; [exact Hclicks |].
    unfold Component.mount. rewrite hackatimeEffect_activeRange.
    simpl. tauto. }
  assert (Hfetched : fetchedWithin (map fst RANGE_OPTIONS) m).
  { subst m. unfold Component.after.
    apply (fetchedWithin_pills actions Hclicks).
    - apply ComponentFacts.hackatimeEffect_committed.
    - unfold fetchedWithin. simpl.
      constructor; [now left |]. constructor; [| constructor].
      right. exists "last_year"%string.
      split; [simpl; tauto | reflexivity]. }
  split; [exact Hin |]. split; [| split].
  - unfold highlightedPills. simpl in Hin.
    destruct Hin as [<- | [<- | [<- | [<- | []]]]]; eexists; reflexivity.
  - exact Hfetched.
  - intros range zone now request Hurl Hget.
    unfold fetchedWithin in Hfetched. rewrite Forall_forall in Hfetched.
    destruct (Hfetched _ Hurl) as [Hgithub | (range' & Hpill & Heq)].
    + exfalso. exact (hackatimeUrl_not_github range Hgithub).
    + assert (Hsame : range = range').
      { unfold Component.hackatimeUrl in Heq.
        now apply String_append_inj in Heq. }
      subst range'.
      assert (Hne : range <> ""%string)
        by (simpl in Hpill;
            destruct Hpill as [<- | [<- | [<- | [<- | []]]]]; discriminate).
      split; [exact (rangeOf_parameter request range Hget Hne) |].
      now apply getDateRange_of_pill.
Qed.

Lemma pills_single_choice_witness :
  let m := Component.after [ Component.RangeClicked "last_7_days";
                             Component.HackatimeRejected;
                             Component.RangeClicked "last_6_months" ] in
  (exists text,
      highlightedPills (Component.state m)
      = [("last_6_months"%string, text)]) /\
  Component.fetched m
  = [ "/api/github"; "/api/hackatime?range=last_year";
      "/api/hackatime?range=last_7_days";
      "/api/hackatime?range=last_6_months" ]%string /\
  HackatimeRoute.rangeOf (requestWithRange "last_7_days")
  = "last_7_days"%string.
Proof.
  intros m.
  pose proof (pills_single_choice
                [ Component.RangeClicked "last_7_days";
                  Component.HackatimeRejected;
                  Component.RangeClicked "last_6_months" ]) as H.
  assert (Hclicks : clicksOnPills
                      [ Component.RangeClicked "last_7_days";
                        Component.HackatimeRejected;
                        Component.RangeClicked "last_6_months" ])
    by (repeat constructor; simpl; tauto).
  split; [exact (proj1 (proj2 (H Hclicks))) |].
  split; [reflexivity |].
  refine (proj1 (proj2 (proj2 (proj2 (H Hclicks)))
                   "last_7_days"%string (JSDate.fixedZone 0) 0
                   (requestWithRange "last_7_days") _ eq_refl)).
  simpl. tauto.
Defined.

(** ** Durations as text *)

Lemma uint_digits (d : Decimal.uint) (c : ascii) (rest : string) :
  isDigit c = false ->
  leadingDigits (String.append (NilEmpty.string_of_uint d) (String c rest))
  = NilEmpty.string_of_uint d /\
  afterDigits (String.append (NilEmpty.string_of_uint d) (String c rest))
  = String c rest.
Proof.
  intros Hc. induction d as [| d IH | d IH | d IH | d IH | d IH | d IH
                             | d IH | d IH | d IH | d IH];
    cbn [NilEmpty.string_of_uint String.append leadingDigits afterDigits];
    [rewrite Hc; split; reflexivity | ..];
    destruct IH as [IH1 IH2];
    (match goal with
     | |- context [isDigit ?ch] => change (isDigit ch) with true
     end); cbv iota; rewrite IH1, IH2; split; reflexivity.
Qed.

Lemma numberToString_nonneg (z : Z) :
  0 <= z -> exists d, numberToString z = NilEmpty.string_of_uint d.
Proof.
  intros Hz. unfold numberToString.
  destruct z as [| p | p]; [| | lia].
  - exists (Decimal.D0 Decimal.Nil). reflexivity.
  - cbn [Z.to_int NilZero.string_of_int]. exists (Pos.to_uint p).
    unfold NilZero.string_of_uint.
    pose proof (Unsigned.to_uint_nonnil p) as Hnil.
    destruct (Pos.to_uint p); [contradiction | ..]; reflexivity.
Qed.

(** A number followed by a letter: the digits read back are the
    number's. *)
Lemma number_then_letter (z : Z) (c : ascii) (rest : string) :
  0 <= z -> isDigit c = false ->
  leadingDigits (String.append (numberToString z) (String c rest))
  = numberToString z /\
  afterDigits (String.append (numberToString z) (String c rest))
  = String c rest.
Proof.
  intros Hz Hc. destruct (numberToString_nonneg z Hz) as (d & ->).
  now apply uint_digits.
Qed.

Lemma numberToString_inj (a b : Z) :
  numberToString a = numberToString b -> a = b.
Proof.
  unfold numberToString. intros H. apply DecimalZ.to_int_inj.
  assert (Hnil : forall z, Z.to_int z <> Decimal.Pos Decimal.Nil /\
                           Z.to_int z <> Decimal.Neg Decimal.Nil).
  { intros [| p | p]; simpl; split; try discriminate;
      intros [= Hp]; exact (Unsigned.to_uint_nonnil p Hp). }
  destruct (Hnil a) as [Ha1 Ha2]. destruct (Hnil b) as [Hb1 Hb2].
  pose proof (NilZero.isi _ Ha1 Ha2) as Hia.
  pose proof (NilZero.isi _ Hb1 Hb2) as Hib.
  rewrite H in Hia. congruence.
Qed.

Lemma formatTime_nonneg (ts : Z) :
  0 <= ts ->
  formatTime ts
  = if 1 <=? ts / 3600
    then String.append (numberToString (ts / 3600))
           (String "h" (String " "
              (String.append (numberToString (ts mod 3600 / 60)) "m")))
    else String.append (numberToString (ts mod 3600 / 60)) "m".
Proof.
  intros Hts. unfold formatTime. rewrite Z.rem_mod_nonneg by lia.
  reflexivity.
Qed.

(** X21: for a non-negative whole number of seconds, the hours appear
    exactly from one hour on, the minutes shown are between 0 and 59, and
    what is shown is less than a minute below the duration; two durations
    are shown by the same text exactly when they fall in the same
    minute. *)
Theorem formatTime_minutes :
  forall ts : Z, 0 <= ts ->
    let hours := ts / 3600 in
    let minutes := ts mod 3600 / 60 in
    0 <= minutes <= 59 /\
    0 <= ts - (3600 * hours + 60 * minutes) < 60 /\
    (ts < 3600 ->
     formatTime ts = String.append (numberToString minutes) "m") /\
    (3600 <= ts ->
     formatTime ts
     = String.append (numberToString hours)
         (String.append "h " (String.append (numberToString minutes) "m"))) /\
    (forall ts', 0 <= ts' ->
       (formatTime ts = formatTime ts' <-> ts / 60 = ts' / 60)).
Proof.
  intros ts Hts hours minutes. subst hours minutes.
  split; [Z.div_mod_to_equations; lia |].
  split; [Z.div_mod_to_equations; lia |].
  split.
  { intros Hlt. rewrite formatTime_nonneg by assumption.
    replace (1 <=? ts / 3600) with false; [reflexivity |].
    symmetry. apply Z.leb_gt. Z.div_mod_to_equations. lia. }
  split.
  { intros Hge. rewrite formatTime_nonneg by assumption.
    replace (1 <=? ts / 3600) with true; [reflexivity |].
    symmetry. apply Z.leb_le. Z.div_mod_to_equations. lia. }
  intros ts' Hts'. rewrite !formatTime_nonneg by assumption.
  assert (Hm : isDigit "m" = false) by reflexivity.
  assert (Hh : isDigit "h" = false) by reflexivity.
  assert (Hmin : 0 <= ts mod 3600 / 60) by (Z.div_mod_to_equations; lia).
  assert (Hmin' : 0 <= ts' mod 3600 / 60) by (Z.div_mod_to_equations; lia).
  assert (Hhr : 0 <= ts / 3600) by (Z.div_mod_to_equations; lia).
  assert (Hhr' : 0 <= ts' / 3600) by (Z.div_mod_to_equations; lia).
  assert (Hpair : ts / 60 = ts' / 60 <->
                  ts / 3600 = ts' / 3600 /\
                  ts mod 3600 / 60 = ts' mod 3600 / 60)
    by (Z.div_mod_to_equations; lia).
  rewrite Hpair.
  assert (Hminutes :
            forall x y, 0 <= x -> 0 <= y ->
              String.append (numberToString x) "m"
              = String.append (numberToString y) "m" -> x = y).
  { intros x y Hx Hy Heq. apply numberToString_inj.
    rewrite <- (proj1 (number_then_letter x "m" "" Hx Hm)).
    rewrite <- (proj1 (number_then_letter y "m" "" Hy Hm)).
    now rewrite Heq. }
  destruct (Z.leb_spec 1 (ts / 3600)) as [H1 | H1];
    destruct (Z.leb_spec 1 (ts' / 3600)) as [H1' | H1'].
  - split.
    + intros Heq.
      pose proof (f_equal leadingDigits Heq) as Hlead.
      pose proof (f_equal afterDigits Heq) as Hafter.
      rewrite (proj1 (number_then_letter _ "h" _ Hhr Hh)),
        (proj1 (number_then_letter _ "h" _ Hhr' Hh)) in Hlead.
      rewrite (proj2 (number_then_letter _ "h" _ Hhr Hh)),
        (proj2 (number_then_letter _ "h" _ Hhr' Hh)) in Hafter.
      injection Hafter as Hafter.
      split; [now apply numberToString_inj | now apply Hminutes].
    + intros [-> ->]. reflexivity.
  - split; [| lia]. intros Heq. exfalso.
    pose proof (f_equal afterDigits Heq) as Hafter.
    rewrite (proj2 (number_then_letter _ "h" _ Hhr Hh)),
      (proj2 (number_then_letter _ "m" "" Hmin' Hm)) in Hafter.
    discriminate.
  - split; [| lia]. intros Heq. exfalso.
    pose proof (f_equal afterDigits Heq) as Hafter.
    rewrite (proj2 (number_then_letter _ "m" "" Hmin Hm)),
      (proj2 (number_then_letter _ "h" _ Hhr' Hh)) in Hafter.
    discriminate.
  - split.
    + intros Heq. split; [lia |]. now apply Hminutes.
    + intros [_ ->]. reflexivity.
Qed.

Lemma formatTime_minutes_witness :
  formatTime 3725 = "1h 2m"%string /\
  (formatTime 3725 = formatTime 3779 <-> 3725 / 60 = 3779 / 60).
Proof.
  pose proof (formatTime_minutes 3725 ltac:(lia))
    as (_ & _ & _ & Hlong & Hsame).
  split.
  - rewrite (Hlong ltac:(lia)). reflexivity.
  - apply Hsame. lia.
Defined.

(** ** Failures stay *)

Lemma errorGithub_step m a :
  Component.errorGithub (Component.state m) = true ->
  Component.errorGithub (Component.state (Component.step m a)) = true.
Proof.
  intros H. destruct a as [range | d | | d | |]; try exact H;
    try reflexivity.
  cbn [Component.step]. unfold Component.handleRangeChange.
  destruct (String.eqb range (Component.activeRange (Component.state m)));
    [exact H |].
  unfold Component.hackatimeEffect.
  destruct (match Component.effectRange _ with
            | Some r => _
            | None => true
            end); exact H.
Qed.

Lemma errorHackatime_step m a :
  match a with
  | Component.RangeClicked _ => False
  | _ => True
  end ->
  Component.errorHackatime (Component.state m) = true ->
  Component.errorHackatime (Component.state (Component.step m a)) = true.
Proof.
  intros Ha H. destruct a as [range | d | | d | |]; try exact H;
    try reflexivity. contradiction.
Qed.

(** X22: nothing the component does resets a failure of the calendar:
    once its error flag is set it stays set through every later action.
    The error flag of the time-tracking data stays set until the range is
    changed: a response that arrives later does not clear it. *)
Theorem failures_stay :
  forall before later : list Component.Action,
    (Component.errorGithub (Component.state (Component.after before)) = true ->
     Component.errorGithub
       (Component.state (Component.after (before ++ later))) = true) /\
    (Component.errorHackatime (Component.state (Component.after before))
     = true ->
     noRangeClick later ->
     Component.errorHackatime
       (Component.state (Component.after (before ++ later))) = true).
Proof.
  intros before later. unfold Component.after. rewrite fold_left_app.
  generalize (fold_left Component.step before Component.mount). split.
  - revert m. induction later as [| a later IH]; intros m Hm; simpl;
      [exact Hm |].
    apply IH. now apply errorGithub_step.
  - intros Hm Hlater. revert m Hm.
    induction Hlater as [| a later Ha _ IH]; intros m Hm; simpl;
      [exact Hm |].
    apply IH. now apply errorHackatime_step.
Qed.

Lemma failures_stay_witness :
  Component.errorGithub
    (Component.state
       (Component.after ([Component.GitHubRejected]
                         ++ [Component.RangeClicked "last_7_days";
                             Component.GitHubResolved
                               (Some {| totalContributions := 0;
                                        weeks := [] |})])))
  = true /\
  Component.errorHackatime
    (Component.state
       (Component.after ([Component.HackatimeRejected]
                         ++ [Component.HackatimeResolved (Some exampleStats)])))
  = true.
Proof.
  split.
  - exact (proj1 (failures_stay [Component.GitHubRejected]
                    [Component.RangeClicked "last_7_days";
                     Component.GitHubResolved
                       (Some {| totalContributions := 0; weeks := [] |})])
             eq_refl).
  - refine (proj2 (failures_stay [Component.HackatimeRejected]
                     [Component.HackatimeResolved (Some exampleStats)])
              eq_refl _).
    repeat constructor.
Defined.
